(** * vtkOpenVRRenderWindow: device models, pose tracking and initialisation

    A shallow embedding of Rendering/OpenVR/vtkOpenVRRenderWindow.cxx.

    - C++ objects are records; a method takes the record and returns the
      updated one.
    - Pointers to vtkOpenVRModel objects are addresses into a store
      ([gmap addr vtkOpenVRModel]); NULL is [None].
    - Everything the code does to its collaborators (the VR runtime, SDL,
      OpenGL, the VTK error log) is appended to a chronological list of
      [Event]s.  What a collaborator answers is a function of the events so
      far, so that two calls with the same arguments may be answered
      differently (an asynchronous load is first pending, later done).
    - [double] and [float] values are elements of a type [D] with the ring
      operations; small integers, which both formats hold exactly, are the
      values of the concrete runs. *)

From Stdlib Require Import ZArith Lia Ring List Ascii String.
From stdpp Require Import base option list gmap strings.

(** ** Types of openvr.h used by the code *)

(** [vr::EVRRenderModelError], with the numeric values of openvr.h. *)
Inductive EVRRenderModelError :=
| VRRenderModelError_None
| VRRenderModelError_Loading
| VRRenderModelError_NotSupported
| VRRenderModelError_InvalidArg
| VRRenderModelError_InvalidModel
| VRRenderModelError_NoShapes
| VRRenderModelError_MultipleShapes
| VRRenderModelError_TooManyVertices
| VRRenderModelError_MultipleTextures
| VRRenderModelError_BufferTooSmall
| VRRenderModelError_NotEnoughNormals
| VRRenderModelError_NotEnoughTexCoords
| VRRenderModelError_InvalidTexture.

Definition error_code (e : EVRRenderModelError) : Z :=
  (match e with
  | VRRenderModelError_None => 0
  | VRRenderModelError_Loading => 100
  | VRRenderModelError_NotSupported => 200
  | VRRenderModelError_InvalidArg => 300
  | VRRenderModelError_InvalidModel => 301
  | VRRenderModelError_NoShapes => 302
  | VRRenderModelError_MultipleShapes => 303
  | VRRenderModelError_TooManyVertices => 304
  | VRRenderModelError_MultipleTextures => 305
  | VRRenderModelError_BufferTooSmall => 306
  | VRRenderModelError_NotEnoughNormals => 307
  | VRRenderModelError_NotEnoughTexCoords => 308
  | VRRenderModelError_InvalidTexture => 400
  end)%Z.

#[global] Instance EVRRenderModelError_eq_dec : EqDecision EVRRenderModelError.
Proof. solve_decision. Defined.

(** [result > vr::EVRRenderModelError::VRRenderModelError_Loading] *)
Definition after_Loading (result : EVRRenderModelError) : bool :=
  (error_code result >? error_code VRRenderModelError_Loading)%Z.

(** [vr::ETrackedDeviceClass] *)
Inductive ETrackedDeviceClass :=
| TrackedDeviceClass_Invalid
| TrackedDeviceClass_HMD
| TrackedDeviceClass_Controller
| TrackedDeviceClass_GenericTracker
| TrackedDeviceClass_TrackingReference
| TrackedDeviceClass_DisplayRedirect.

#[global] Instance ETrackedDeviceClass_eq_dec : EqDecision ETrackedDeviceClass.
Proof. solve_decision. Defined.

(** [vr::k_unTrackedDeviceIndex_Hmd] *)
Definition k_unTrackedDeviceIndex_Hmd : nat := 0%nat.

(** The fields of [vr::RenderModel_t] and [vr::RenderModel_TextureMap_t]
    that the code reads; the vertex, index and texel blobs stay with the
    runtime. *)
Record RenderModel_t := {
  unVertexCount : Z;
  unTriangleCount : Z;
  diffuseTextureId : Z }.

Record RenderModel_TextureMap_t := {
  unWidth : Z;
  unHeight : Z }.

(** Addresses of heap objects. *)
Abbreviation addr := nat (only parsing).

(** ** Case-insensitive comparison of C strings *)

Definition NUL : ascii := Ascii.zero.

Definition tolower (c : ascii) : ascii :=
  let n := nat_of_ascii c in
  if ((65 <=? n) && (n <=? 90))%nat then ascii_of_nat (n + 32) else c.

Definition first_char (s : string) : ascii :=
  match s with EmptyString => NUL | String c _ => c end.

Definition rest (s : string) : string :=
  match s with EmptyString => EmptyString | String _ r => r end.

Definition char_code (c : ascii) : Z := Z.of_nat (nat_of_ascii c).

(** [stricmp] ([strcasecmp]): walks both strings, compares the lower-cased
    characters and stops at the first difference or at the terminating NUL. *)
Fixpoint stricmp (s1 s2 : string) : Z :=
  (match s1 with
   | EmptyString => char_code (tolower NUL) - char_code (tolower (first_char s2))
   | String c1 r1 =>
       let d := char_code (tolower c1) - char_code (tolower (first_char s2)) in
       if negb (d =? 0) then d
       else if Ascii.eqb c1 NUL then 0
       else stricmp r1 (rest s2)
   end)%Z.

(** ** Numbers, arrays and matrices *)

(** The operations the code uses on [double] values. *)
Class Scalar (D : Type) := {
  zero : D;
  one : D;
  add : D -> D -> D;
  mul : D -> D -> D;
  sub : D -> D -> D;
  opp : D -> D }.

Declare Scope D_scope.
Delimit Scope D_scope with D.
Infix "+" := add : D_scope.
Infix "*" := mul : D_scope.
Infix "-" := sub : D_scope.
Notation "- x" := (opp x) : D_scope.

Section Embedding.

Context {D : Type} {SD : Scalar D}.

(** [a[i]] for a C array of doubles. *)
Definition elt (a : list D) (i : nat) : D := nth i a zero.

(** [vr::HmdMatrix34_t]: [float m[3][4]], three rows of four. *)
Definition HmdMatrix34_t := list (list D).

Definition m_ (M : HmdMatrix34_t) (j i : nat) : D := nth i (nth j M []) zero.

Record TrackedDevicePose_t := {
  mDeviceToAbsoluteTracking : HmdMatrix34_t;
  bPoseIsValid : bool }.

(** Modelled from the spec: vtkMath::Cross (Common/Core, not under src/),
    the cross product of two 3-vectors. *)
Definition Cross (a b : list D) : list D :=
  [ elt a 1 * elt b 2 - elt a 2 * elt b 1;
    elt a 2 * elt b 0 - elt a 0 * elt b 2;
    elt a 0 * elt b 1 - elt a 1 * elt b 0 ]%D.

(** Modelled from the spec: vtkMatrix4x4::Multiply4x4 (Common/Math, not
    under src/), the product of two 4x4 matrices stored row by row in arrays
    of 16 doubles. *)
Definition Multiply4x4 (a b : list D) : list D :=
  flat_map (fun i =>
    map (fun j =>
      (elt a i * elt b j + elt a (i + 1) * elt b (j + 4)
       + elt a (i + 2) * elt b (j + 8) + elt a (i + 3) * elt b (j + 12))%D)
      (seq 0 4))
    [0; 4; 8; 12]%nat.

(** Lines 271-282 of vtkOpenVRModel::Render: the two nested loops copy
    [m[j][i]] to [elems[j+i*4]], then four cells are overwritten. *)
Definition pose_elems_from (elems : list D) (M : HmdMatrix34_t) : list D :=
  let elems :=
    foldl (fun elems j =>
      foldl (fun elems i => <[(j + i * 4)%nat := m_ M j i]> elems) elems (seq 0 4))
      elems (seq 0 3) in
  let elems := <[3%nat := zero]> elems in
  let elems := <[7%nat := zero]> elems in
  let elems := <[11%nat := zero]> elems in
  <[15%nat := one]> elems.

(** [double elems[16]] is declared without initialiser; every cell is written
    before the array is read, so the model starts from zeros. *)
Definition pose_elems (M : HmdMatrix34_t) : list D :=
  pose_elems_from (replicate 16 zero) M.

(** Modelled from the spec: the capability interface of the host camera
    (vtkOpenVRCamera, vtkCamera; not under src/): accessors return the stored
    value, mutators store their argument. *)
Record vtkOpenVRCamera := {
  Position : list D;
  FocalPoint : list D;
  ViewUp : list D;
  Distance : D;
  Translation : list D;
  TrackingToDCMatrix : list D }.

Definition SetPosition (v : list D) (cam : vtkOpenVRCamera) : vtkOpenVRCamera :=
  {| Position := v; FocalPoint := FocalPoint cam; ViewUp := ViewUp cam;
     Distance := Distance cam; Translation := Translation cam;
     TrackingToDCMatrix := TrackingToDCMatrix cam |}.

Definition SetFocalPoint (v : list D) (cam : vtkOpenVRCamera) : vtkOpenVRCamera :=
  {| Position := Position cam; FocalPoint := v; ViewUp := ViewUp cam;
     Distance := Distance cam; Translation := Translation cam;
     TrackingToDCMatrix := TrackingToDCMatrix cam |}.

Definition SetViewUp (v : list D) (cam : vtkOpenVRCamera) : vtkOpenVRCamera :=
  {| Position := Position cam; FocalPoint := FocalPoint cam; ViewUp := v;
     Distance := Distance cam; Translation := Translation cam;
     TrackingToDCMatrix := TrackingToDCMatrix cam |}.

(** A renderer, as far as this file uses it: it has an active camera. *)
Record vtkRenderer := {
  ActiveCamera : vtkOpenVRCamera }.

(** ** Events: what the code does to its collaborators *)

(** The texts passed to [vtkErrorMacro]. *)
Inductive ErrorMessage :=
| Error_setting_position_in_shader_VAO
| Error_setting_tcoords_in_shader_VAO
| Unable_to_load_render_model_with_error_code (name : string) (result : EVRRenderModelError)
| Unable_to_load_render_texture_for_render_model (name : string)
| Unable_to_create_GL_model_from_render_model (name : string)
| Unable_to_load_render_model (name : string)
| SDL_could_not_initialize
| Window_could_not_be_created
| OpenGL_context_could_not_be_created
| Unable_to_set_VSync
| Compositor_initialization_failed.

(** OpenGL object kinds and the OpenGL calls of CreateFrameBuffer. *)
Inductive GLTarget :=
| GL_FRAMEBUFFER
| GL_RENDERBUFFER
| GL_TEXTURE_2D
| GL_TEXTURE_2D_MULTISAMPLE.

#[global] Instance GLTarget_eq_dec : EqDecision GLTarget.
Proof. solve_decision. Defined.

Inductive GLAttachment :=
| GL_DEPTH_ATTACHMENT
| GL_COLOR_ATTACHMENT0.

Inductive GLCall :=
| glGenFramebuffers (id : Z)
| glGenRenderbuffers (id : Z)
| glGenTextures (id : Z)
| glBindFramebuffer (id : Z)
| glBindRenderbuffer (id : Z)
| glBindTexture (target : GLTarget) (id : Z)
| glRenderbufferStorageMultisample (samples width height : Z)
| glRenderbufferStorage (width height : Z)
| glTexImage2DMultisample (samples width height : Z)
| glTexImage2D (width height : Z)
| glTexParameteri_MIN_FILTER_LINEAR
| glTexParameteri_MAX_LEVEL_0
| glFramebufferRenderbuffer (attachment : GLAttachment) (id : Z)
| glFramebufferTexture2D (attachment : GLAttachment) (textarget : GLTarget) (id : Z)
| glCheckFramebufferStatus
| glDepthRange_0_1
| glDrawElements_GL_TRIANGLES (count : Z).

Inductive Event :=
| vtkError (msg : ErrorMessage)
(* vr::VRRenderModels() *)
| LoadRenderModel_Async_call (name : string)
| LoadTexture_Async_call (textureId : Z)
| FreeRenderModel_call (raw : RenderModel_t)
| FreeTexture_call (tex : RenderModel_TextureMap_t)
(* vtkOpenGL helpers used by vtkOpenVRModel *)
| VBO_Upload (count : Z)
| IBO_Upload (count : Z)
| ReadyShaderProgram_call
| VAO_Bind
| IBO_Bind
| AddAttributeArray_call (name : string)
| Create2DFromRaw_call (width height : Z)
| TextureObject_SetWrapS_ClampToEdge
| TextureObject_SetWrapT_ClampToEdge
| TextureObject_SetMinificationFilter_LinearMipmapLinear
| TextureObject_SetGenerateMipmap_true
| TextureObject_Activate
| TextureObject_Deactivate
| SetUniformi_diffuse
| SetUniformMatrix_matrix (m : list D)
| GL (c : GLCall)
(* bookkeeping: RenderModels calls Render of the model at [p] for slot [u] *)
| ModelRender_call (u : nat) (p : addr)
(* vr::VRCompositor(), vtkRenderer *)
| WaitGetPoses_call
| UpdateLightsGeometryToFollowCamera_call (renderer : nat)
(* SDL and session set-up in Initialize *)
| SDL_Init_call
| VR_Init_call
| VR_Shutdown_call
| VR_GetGenericInterface_call
| SDL_ShowSimpleMessageBox_call
| SDL_CreateWindow_call (x y w h : Z)
| SDL_GL_CreateContext_call
| OpenGLInit_call
| SDL_GL_SetSwapInterval_call (interval : Z)
| SDL_SetWindowTitle_call (title : string)
| DashboardOverlay_Create_call.

(** [vr::IVRRenderModels]: the answer to an asynchronous load is the error
    code and what the call left in the out-pointer. *)
Record IVRRenderModels := {
  LoadRenderModel_Async :
    list Event -> string -> EVRRenderModelError * option RenderModel_t;
  LoadTexture_Async :
    list Event -> Z -> EVRRenderModelError * option RenderModel_TextureMap_t }.

(** ** vtkOpenVRModel *)

Record vtkOpenVRModel := {
  ModelName : string;
  Show : bool;
  Loaded : bool;
  FailedToLoad : bool;
  RawModel : option RenderModel_t;
  RawTexture : option RenderModel_TextureMap_t;
  IndexCount : Z;          (* ModelHelper.IBO->IndexCount *)
  PoseMatrix : list D }.

Definition identity4x4 : list D :=
  [one; zero; zero; zero; zero; one; zero; zero;
   zero; zero; one; zero; zero; zero; zero; one].

(** The constructor leaves [Show] unset: [show] is whatever the member
    happens to hold. *)
Definition vtkOpenVRModel_New (show : bool) : vtkOpenVRModel :=
  {| ModelName := EmptyString; Show := show; Loaded := false;
     FailedToLoad := false; RawModel := None; RawTexture := None;
     IndexCount := 0%Z; PoseMatrix := identity4x4 |}.

Definition GetName (this : vtkOpenVRModel) : string := ModelName this.
Definition GetShow (this : vtkOpenVRModel) : bool := Show this.

Definition SetName (modelName : string) (this : vtkOpenVRModel) : vtkOpenVRModel :=
  {| ModelName := modelName; Show := Show this; Loaded := Loaded this;
     FailedToLoad := FailedToLoad this; RawModel := RawModel this;
     RawTexture := RawTexture this; IndexCount := IndexCount this;
     PoseMatrix := PoseMatrix this |}.

Definition SetShow (v : bool) (this : vtkOpenVRModel) : vtkOpenVRModel :=
  {| ModelName := ModelName this; Show := v; Loaded := Loaded this;
     FailedToLoad := FailedToLoad this; RawModel := RawModel this;
     RawTexture := RawTexture this; IndexCount := IndexCount this;
     PoseMatrix := PoseMatrix this |}.

Definition set_Loaded (v : bool) (this : vtkOpenVRModel) : vtkOpenVRModel :=
  {| ModelName := ModelName this; Show := Show this; Loaded := v;
     FailedToLoad := FailedToLoad this; RawModel := RawModel this;
     RawTexture := RawTexture this; IndexCount := IndexCount this;
     PoseMatrix := PoseMatrix this |}.

Definition set_FailedToLoad (v : bool) (this : vtkOpenVRModel) : vtkOpenVRModel :=
  {| ModelName := ModelName this; Show := Show this; Loaded := Loaded this;
     FailedToLoad := v; RawModel := RawModel this;
     RawTexture := RawTexture this; IndexCount := IndexCount this;
     PoseMatrix := PoseMatrix this |}.

Definition set_RawModel (v : option RenderModel_t) (this : vtkOpenVRModel) : vtkOpenVRModel :=
  {| ModelName := ModelName this; Show := Show this; Loaded := Loaded this;
     FailedToLoad := FailedToLoad this; RawModel := v;
     RawTexture := RawTexture this; IndexCount := IndexCount this;
     PoseMatrix := PoseMatrix this |}.

Definition set_RawTexture (v : option RenderModel_TextureMap_t) (this : vtkOpenVRModel) : vtkOpenVRModel :=
  {| ModelName := ModelName this; Show := Show this; Loaded := Loaded this;
     FailedToLoad := FailedToLoad this; RawModel := RawModel this;
     RawTexture := v; IndexCount := IndexCount this;
     PoseMatrix := PoseMatrix this |}.

Definition set_IndexCount (v : Z) (this : vtkOpenVRModel) : vtkOpenVRModel :=
  {| ModelName := ModelName this; Show := Show this; Loaded := Loaded this;
     FailedToLoad := FailedToLoad this; RawModel := RawModel this;
     RawTexture := RawTexture this; IndexCount := v;
     PoseMatrix := PoseMatrix this |}.

Definition set_PoseMatrix (v : list D) (this : vtkOpenVRModel) : vtkOpenVRModel :=
  {| ModelName := ModelName this; Show := Show this; Loaded := Loaded this;
     FailedToLoad := FailedToLoad this; RawModel := RawModel this;
     RawTexture := RawTexture this; IndexCount := IndexCount this;
     PoseMatrix := v |}.

(** The runtime's render-model interface, [vr::VRRenderModels()]. *)
Variable VRRenderModels : IVRRenderModels.

(** Whether [VAO->AddAttributeArray] succeeds is up to the shader program. *)
Variable AddAttributeArray : list Event -> string -> bool.

(** [unTriangleCount * 3] in [uint32_t]. *)
Definition index_count (raw : RenderModel_t) : Z :=
  ((unTriangleCount raw * 3) mod 2 ^ 32)%Z.

(** vtkOpenVRModel::Build, called with [RawModel] and [RawTexture] set. *)
Definition Build (raw : RenderModel_t) (tex : RenderModel_TextureMap_t)
    (hist : list Event) (this : vtkOpenVRModel)
    : bool * vtkOpenVRModel * list Event :=
  let hist := hist ++ [VBO_Upload (unVertexCount raw)] in
  let hist := hist ++ [IBO_Upload (index_count raw)] in
  let this := set_IndexCount (index_count raw) this in
  let hist := hist ++ [ReadyShaderProgram_call; VAO_Bind] in
  let ok := AddAttributeArray hist "position" in
  let hist := hist ++ [AddAttributeArray_call "position"] in
  let hist :=
    if negb ok then hist ++ [vtkError Error_setting_position_in_shader_VAO]
    else hist in
  let ok := AddAttributeArray hist "v2TexCoordsIn" in
  let hist := hist ++ [AddAttributeArray_call "v2TexCoordsIn"] in
  let hist :=
    if negb ok then hist ++ [vtkError Error_setting_tcoords_in_shader_VAO]
    else hist in
  (* create and populate the texture *)
  let hist := hist ++ [Create2DFromRaw_call (unWidth tex) (unHeight tex);
                       TextureObject_SetWrapS_ClampToEdge;
                       TextureObject_SetWrapT_ClampToEdge;
                       TextureObject_SetMinificationFilter_LinearMipmapLinear;
                       TextureObject_SetGenerateMipmap_true] in
  (true, this, hist).

(** Lines 209-226: poll the geometry.  The third component tells that the
    method has returned. *)
Definition Render_geometry (hist : list Event) (this : vtkOpenVRModel)
    : vtkOpenVRModel * list Event * bool :=
  match RawModel this with
  | Some _ => (this, hist, false)
  | None =>
      let '(result, raw) :=
        LoadRenderModel_Async VRRenderModels hist (GetName this) in
      let hist := hist ++ [LoadRenderModel_Async_call (GetName this)] in
      let this := set_RawModel raw this in
      if after_Loading result then
        let this := set_FailedToLoad true this in
        let hist :=
          if bool_decide (result ≠ VRRenderModelError_NotEnoughTexCoords)
          then hist ++ [vtkError
                 (Unable_to_load_render_model_with_error_code (GetName this) result)]
          else hist in
        (this, hist, true)
      else (this, hist, false)
  end.

(** Lines 228-251: poll the texture and build once it is there. *)
Definition Render_texture (hist : list Event) (this : vtkOpenVRModel)
    : vtkOpenVRModel * list Event :=
  match RawModel this, RawTexture this with
  | Some raw, None =>
      let '(result, tex) :=
        LoadTexture_Async VRRenderModels hist (diffuseTextureId raw) in
      let hist := hist ++ [LoadTexture_Async_call (diffuseTextureId raw)] in
      let this := set_RawTexture tex this in
      let hist :=
        if after_Loading result
        then hist ++ [vtkError
               (Unable_to_load_render_texture_for_render_model (GetName this))]
        else hist in
      match tex with
      | Some t =>
          let '(built, this, hist) := Build raw t hist this in
          let hist :=
            if negb built
            then hist ++ [vtkError
                   (Unable_to_create_GL_model_from_render_model (GetName this))]
            else hist in
          let hist := hist ++ [FreeRenderModel_call raw; FreeTexture_call t] in
          (set_Loaded true this, hist)
      | None => (this, hist)
      end
  | _, _ => (this, hist)
  end.

(** [static_cast<GLsizei>] of the [size_t] index count: the low 32 bits, read
    as a two's complement [int]. *)
Definition to_GLsizei (n : Z) : Z :=
  let r := (n mod 2 ^ 32)%Z in
  (if r <? 2 ^ 31 then r else r - 2 ^ 32)%Z.

(** Lines 253-299: draw.  [win->GetRenderers()->GetItemAsObject(0)] is the
    first renderer, or NULL. *)
Definition Render_draw (Renderers : list vtkRenderer)
    (pose : TrackedDevicePose_t) (hist : list Event) (this : vtkOpenVRModel)
    : vtkOpenVRModel * list Event :=
  if Loaded this then
    let hist := hist ++ [ReadyShaderProgram_call; VAO_Bind; IBO_Bind;
                         TextureObject_Activate; SetUniformi_diffuse] in
    let '(this, hist) :=
      match Renderers !! 0%nat with
      | Some ren =>
          let cam := ActiveCamera ren in
          let elems := pose_elems (mDeviceToAbsoluteTracking pose) in
          let tcdc := TrackingToDCMatrix cam in
          let this := set_PoseMatrix (Multiply4x4 elems tcdc) this in
          (this, hist ++ [SetUniformMatrix_matrix (PoseMatrix this)])
      | None => (this, hist)
      end in
    (this, hist ++ [GL (glDrawElements_GL_TRIANGLES (to_GLsizei (IndexCount this)));
                    TextureObject_Deactivate])
  else (this, hist).

(** vtkOpenVRModel::Render *)
Definition Render (Renderers : list vtkRenderer) (pose : TrackedDevicePose_t)
    (hist : list Event) (this : vtkOpenVRModel) : vtkOpenVRModel * list Event :=
  if FailedToLoad this then (this, hist)
  else
    let '(this, hist, returned) := Render_geometry hist this in
    if returned then (this, hist)
    else
      let '(this, hist) := Render_texture hist this in
      Render_draw Renderers pose hist this.

(** ** vtkOpenVRRenderWindow *)

(** [vr::ETrackedDeviceProperty], the three properties the code asks for. *)
Inductive ETrackedDeviceProperty :=
| Prop_TrackingSystemName_String
| Prop_SerialNumber_String
| Prop_RenderModelName_String.

(** [vr::IVRSystem], the session behind [this->HMD]: what the runtime answers
    during one call.  A string property that does not exist has required
    buffer length 0 ([None]). *)
Record IVRSystem := {
  IsInputFocusCapturedByAnotherProcess : bool;
  IsTrackedDeviceConnected : nat -> bool;
  GetTrackedDeviceClass : nat -> ETrackedDeviceClass;
  GetStringTrackedDeviceProperty : nat -> ETrackedDeviceProperty -> option string;
  GetRecommendedRenderTargetSize : Z * Z }.

(** [vr::IVRCompositor]: WaitGetPoses delivers a pose for every device. *)
Record IVRCompositor := {
  WaitGetPoses : list Event -> nat -> TrackedDevicePose_t }.

(** [FramebufferDesc]: five OpenGL object names. *)
Record FramebufferDesc := {
  m_nDepthBufferId : Z;
  m_nRenderTextureId : Z;
  m_nRenderFramebufferId : Z;
  m_nResolveTextureId : Z;
  m_nResolveFramebufferId : Z }.

(** The members of the window that the modelled methods read or write;
    [OpenVRRenderModels] holds whether the interface pointer is non-null,
    [WindowPosition] is [Position[2]]. *)
Record vtkOpenVRRenderWindow := {
  HMD : option IVRSystem;
  OpenVRRenderModels : bool;
  VTKRenderModels : list addr;
  TrackedDeviceToRenderModel : list (option addr);
  TrackedDevicePose : list TrackedDevicePose_t;
  InitialViewUp : list D;
  InitialViewDirection : list D;
  Renderers : list vtkRenderer;
  HMDTransform : list D;
  Size : Z * Z;
  WindowPosition : Z * Z;
  RenderWidth : Z;
  RenderHeight : Z;
  MultiSamples : Z;
  WindowId : option Z;
  ContextId : option Z;
  WindowName : string;
  m_strDriver : string;
  m_strDisplay : string;
  LeftEyeDesc : FramebufferDesc;
  RightEyeDesc : FramebufferDesc }.

Definition set_HMD (v : option IVRSystem) (this : vtkOpenVRRenderWindow)
    : vtkOpenVRRenderWindow :=
  {| HMD := v; OpenVRRenderModels := OpenVRRenderModels this;
     VTKRenderModels := VTKRenderModels this;
     TrackedDeviceToRenderModel := TrackedDeviceToRenderModel this;
     TrackedDevicePose := TrackedDevicePose this;
     InitialViewUp := InitialViewUp this;
     InitialViewDirection := InitialViewDirection this;
     Renderers := Renderers this; HMDTransform := HMDTransform this;
     Size := Size this; WindowPosition := WindowPosition this;
     RenderWidth := RenderWidth this; RenderHeight := RenderHeight this;
     MultiSamples := MultiSamples this; WindowId := WindowId this;
     ContextId := ContextId this; WindowName := WindowName this;
     m_strDriver := m_strDriver this; m_strDisplay := m_strDisplay this;
     LeftEyeDesc := LeftEyeDesc this; RightEyeDesc := RightEyeDesc this |}.

Definition set_OpenVRRenderModels (v : bool) (this : vtkOpenVRRenderWindow)
    : vtkOpenVRRenderWindow :=
  {| HMD := HMD this; OpenVRRenderModels := v;
     VTKRenderModels := VTKRenderModels this;
     TrackedDeviceToRenderModel := TrackedDeviceToRenderModel this;
     TrackedDevicePose := TrackedDevicePose this;
     InitialViewUp := InitialViewUp this;
     InitialViewDirection := InitialViewDirection this;
     Renderers := Renderers this; HMDTransform := HMDTransform this;
     Size := Size this; WindowPosition := WindowPosition this;
     RenderWidth := RenderWidth this; RenderHeight := RenderHeight this;
     MultiSamples := MultiSamples this; WindowId := WindowId this;
     ContextId := ContextId this; WindowName := WindowName this;
     m_strDriver := m_strDriver this; m_strDisplay := m_strDisplay this;
     LeftEyeDesc := LeftEyeDesc this; RightEyeDesc := RightEyeDesc this |}.

Definition set_VTKRenderModels (v : list addr) (this : vtkOpenVRRenderWindow)
    : vtkOpenVRRenderWindow :=
  {| HMD := HMD this; OpenVRRenderModels := OpenVRRenderModels this;
     VTKRenderModels := v;
     TrackedDeviceToRenderModel := TrackedDeviceToRenderModel this;
     TrackedDevicePose := TrackedDevicePose this;
     InitialViewUp := InitialViewUp this;
     InitialViewDirection := InitialViewDirection this;
     Renderers := Renderers this; HMDTransform := HMDTransform this;
     Size := Size this; WindowPosition := WindowPosition this;
     RenderWidth := RenderWidth this; RenderHeight := RenderHeight this;
     MultiSamples := MultiSamples this; WindowId := WindowId this;
     ContextId := ContextId this; WindowName := WindowName this;
     m_strDriver := m_strDriver this; m_strDisplay := m_strDisplay this;
     LeftEyeDesc := LeftEyeDesc this; RightEyeDesc := RightEyeDesc this |}.

Definition set_TrackedDeviceToRenderModel (v : list (option addr)) (this : vtkOpenVRRenderWindow)
    : vtkOpenVRRenderWindow :=
  {| HMD := HMD this; OpenVRRenderModels := OpenVRRenderModels this;
     VTKRenderModels := VTKRenderModels this;
     TrackedDeviceToRenderModel := v;
     TrackedDevicePose := TrackedDevicePose this;
     InitialViewUp := InitialViewUp this;
     InitialViewDirection := InitialViewDirection this;
     Renderers := Renderers this; HMDTransform := HMDTransform this;
     Size := Size this; WindowPosition := WindowPosition this;
     RenderWidth := RenderWidth this; RenderHeight := RenderHeight this;
     MultiSamples := MultiSamples this; WindowId := WindowId this;
     ContextId := ContextId this; WindowName := WindowName this;
     m_strDriver := m_strDriver this; m_strDisplay := m_strDisplay this;
     LeftEyeDesc := LeftEyeDesc this; RightEyeDesc := RightEyeDesc this |}.

Definition set_TrackedDevicePose (v : list TrackedDevicePose_t) (this : vtkOpenVRRenderWindow)
    : vtkOpenVRRenderWindow :=
  {| HMD := HMD this; OpenVRRenderModels := OpenVRRenderModels this;
     VTKRenderModels := VTKRenderModels this;
     TrackedDeviceToRenderModel := TrackedDeviceToRenderModel this;
     TrackedDevicePose := v; InitialViewUp := InitialViewUp this;
     InitialViewDirection := InitialViewDirection this;
     Renderers := Renderers this; HMDTransform := HMDTransform this;
     Size := Size this; WindowPosition := WindowPosition this;
     RenderWidth := RenderWidth this; RenderHeight := RenderHeight this;
     MultiSamples := MultiSamples this; WindowId := WindowId this;
     ContextId := ContextId this; WindowName := WindowName this;
     m_strDriver := m_strDriver this; m_strDisplay := m_strDisplay this;
     LeftEyeDesc := LeftEyeDesc this; RightEyeDesc := RightEyeDesc this |}.

Definition set_Renderers (v : list vtkRenderer) (this : vtkOpenVRRenderWindow)
    : vtkOpenVRRenderWindow :=
  {| HMD := HMD this; OpenVRRenderModels := OpenVRRenderModels this;
     VTKRenderModels := VTKRenderModels this;
     TrackedDeviceToRenderModel := TrackedDeviceToRenderModel this;
     TrackedDevicePose := TrackedDevicePose this;
     InitialViewUp := InitialViewUp this;
     InitialViewDirection := InitialViewDirection this; Renderers := v;
     HMDTransform := HMDTransform this; Size := Size this;
     WindowPosition := WindowPosition this; RenderWidth := RenderWidth this;
     RenderHeight := RenderHeight this; MultiSamples := MultiSamples this;
     WindowId := WindowId this; ContextId := ContextId this;
     WindowName := WindowName this; m_strDriver := m_strDriver this;
     m_strDisplay := m_strDisplay this; LeftEyeDesc := LeftEyeDesc this;
     RightEyeDesc := RightEyeDesc this |}.

Definition set_HMDTransform (v : list D) (this : vtkOpenVRRenderWindow)
    : vtkOpenVRRenderWindow :=
  {| HMD := HMD this; OpenVRRenderModels := OpenVRRenderModels this;
     VTKRenderModels := VTKRenderModels this;
     TrackedDeviceToRenderModel := TrackedDeviceToRenderModel this;
     TrackedDevicePose := TrackedDevicePose this;
     InitialViewUp := InitialViewUp this;
     InitialViewDirection := InitialViewDirection this;
     Renderers := Renderers this; HMDTransform := v; Size := Size this;
     WindowPosition := WindowPosition this; RenderWidth := RenderWidth this;
     RenderHeight := RenderHeight this; MultiSamples := MultiSamples this;
     WindowId := WindowId this; ContextId := ContextId this;
     WindowName := WindowName this; m_strDriver := m_strDriver this;
     m_strDisplay := m_strDisplay this; LeftEyeDesc := LeftEyeDesc this;
     RightEyeDesc := RightEyeDesc this |}.

Definition set_Size (v : Z * Z) (this : vtkOpenVRRenderWindow)
    : vtkOpenVRRenderWindow :=
  {| HMD := HMD this; OpenVRRenderModels := OpenVRRenderModels this;
     VTKRenderModels := VTKRenderModels this;
     TrackedDeviceToRenderModel := TrackedDeviceToRenderModel this;
     TrackedDevicePose := TrackedDevicePose this;
     InitialViewUp := InitialViewUp this;
     InitialViewDirection := InitialViewDirection this;
     Renderers := Renderers this; HMDTransform := HMDTransform this;
     Size := v; WindowPosition := WindowPosition this;
     RenderWidth := RenderWidth this; RenderHeight := RenderHeight this;
     MultiSamples := MultiSamples this; WindowId := WindowId this;
     ContextId := ContextId this; WindowName := WindowName this;
     m_strDriver := m_strDriver this; m_strDisplay := m_strDisplay this;
     LeftEyeDesc := LeftEyeDesc this; RightEyeDesc := RightEyeDesc this |}.

Definition set_RenderWidth (v : Z) (this : vtkOpenVRRenderWindow)
    : vtkOpenVRRenderWindow :=
  {| HMD := HMD this; OpenVRRenderModels := OpenVRRenderModels this;
     VTKRenderModels := VTKRenderModels this;
     TrackedDeviceToRenderModel := TrackedDeviceToRenderModel this;
     TrackedDevicePose := TrackedDevicePose this;
     InitialViewUp := InitialViewUp this;
     InitialViewDirection := InitialViewDirection this;
     Renderers := Renderers this; HMDTransform := HMDTransform this;
     Size := Size this; WindowPosition := WindowPosition this;
     RenderWidth := v; RenderHeight := RenderHeight this;
     MultiSamples := MultiSamples this; WindowId := WindowId this;
     ContextId := ContextId this; WindowName := WindowName this;
     m_strDriver := m_strDriver this; m_strDisplay := m_strDisplay this;
     LeftEyeDesc := LeftEyeDesc this; RightEyeDesc := RightEyeDesc this |}.

Definition set_RenderHeight (v : Z) (this : vtkOpenVRRenderWindow)
    : vtkOpenVRRenderWindow :=
  {| HMD := HMD this; OpenVRRenderModels := OpenVRRenderModels this;
     VTKRenderModels := VTKRenderModels this;
     TrackedDeviceToRenderModel := TrackedDeviceToRenderModel this;
     TrackedDevicePose := TrackedDevicePose this;
     InitialViewUp := InitialViewUp this;
     InitialViewDirection := InitialViewDirection this;
     Renderers := Renderers this; HMDTransform := HMDTransform this;
     Size := Size this; WindowPosition := WindowPosition this;
     RenderWidth := RenderWidth this; RenderHeight := v;
     MultiSamples := MultiSamples this; WindowId := WindowId this;
     ContextId := ContextId this; WindowName := WindowName this;
     m_strDriver := m_strDriver this; m_strDisplay := m_strDisplay this;
     LeftEyeDesc := LeftEyeDesc this; RightEyeDesc := RightEyeDesc this |}.

Definition set_WindowId (v : option Z) (this : vtkOpenVRRenderWindow)
    : vtkOpenVRRenderWindow :=
  {| HMD := HMD this; OpenVRRenderModels := OpenVRRenderModels this;
     VTKRenderModels := VTKRenderModels this;
     TrackedDeviceToRenderModel := TrackedDeviceToRenderModel this;
     TrackedDevicePose := TrackedDevicePose this;
     InitialViewUp := InitialViewUp this;
     InitialViewDirection := InitialViewDirection this;
     Renderers := Renderers this; HMDTransform := HMDTransform this;
     Size := Size this; WindowPosition := WindowPosition this;
     RenderWidth := RenderWidth this; RenderHeight := RenderHeight this;
     MultiSamples := MultiSamples this; WindowId := v;
     ContextId := ContextId this; WindowName := WindowName this;
     m_strDriver := m_strDriver this; m_strDisplay := m_strDisplay this;
     LeftEyeDesc := LeftEyeDesc this; RightEyeDesc := RightEyeDesc this |}.

Definition set_ContextId (v : option Z) (this : vtkOpenVRRenderWindow)
    : vtkOpenVRRenderWindow :=
  {| HMD := HMD this; OpenVRRenderModels := OpenVRRenderModels this;
     VTKRenderModels := VTKRenderModels this;
     TrackedDeviceToRenderModel := TrackedDeviceToRenderModel this;
     TrackedDevicePose := TrackedDevicePose this;
     InitialViewUp := InitialViewUp this;
     InitialViewDirection := InitialViewDirection this;
     Renderers := Renderers this; HMDTransform := HMDTransform this;
     Size := Size this; WindowPosition := WindowPosition this;
     RenderWidth := RenderWidth this; RenderHeight := RenderHeight this;
     MultiSamples := MultiSamples this; WindowId := WindowId this;
     ContextId := v; WindowName := WindowName this;
     m_strDriver := m_strDriver this; m_strDisplay := m_strDisplay this;
     LeftEyeDesc := LeftEyeDesc this; RightEyeDesc := RightEyeDesc this |}.

Definition set_WindowName (v : string) (this : vtkOpenVRRenderWindow)
    : vtkOpenVRRenderWindow :=
  {| HMD := HMD this; OpenVRRenderModels := OpenVRRenderModels this;
     VTKRenderModels := VTKRenderModels this;
     TrackedDeviceToRenderModel := TrackedDeviceToRenderModel this;
     TrackedDevicePose := TrackedDevicePose this;
     InitialViewUp := InitialViewUp this;
     InitialViewDirection := InitialViewDirection this;
     Renderers := Renderers this; HMDTransform := HMDTransform this;
     Size := Size this; WindowPosition := WindowPosition this;
     RenderWidth := RenderWidth this; RenderHeight := RenderHeight this;
     MultiSamples := MultiSamples this; WindowId := WindowId this;
     ContextId := ContextId this; WindowName := v;
     m_strDriver := m_strDriver this; m_strDisplay := m_strDisplay this;
     LeftEyeDesc := LeftEyeDesc this; RightEyeDesc := RightEyeDesc this |}.

Definition set_m_strDriver (v : string) (this : vtkOpenVRRenderWindow)
    : vtkOpenVRRenderWindow :=
  {| HMD := HMD this; OpenVRRenderModels := OpenVRRenderModels this;
     VTKRenderModels := VTKRenderModels this;
     TrackedDeviceToRenderModel := TrackedDeviceToRenderModel this;
     TrackedDevicePose := TrackedDevicePose this;
     InitialViewUp := InitialViewUp this;
     InitialViewDirection := InitialViewDirection this;
     Renderers := Renderers this; HMDTransform := HMDTransform this;
     Size := Size this; WindowPosition := WindowPosition this;
     RenderWidth := RenderWidth this; RenderHeight := RenderHeight this;
     MultiSamples := MultiSamples this; WindowId := WindowId this;
     ContextId := ContextId this; WindowName := WindowName this;
     m_strDriver := v; m_strDisplay := m_strDisplay this;
     LeftEyeDesc := LeftEyeDesc this; RightEyeDesc := RightEyeDesc this |}.

Definition set_m_strDisplay (v : string) (this : vtkOpenVRRenderWindow)
    : vtkOpenVRRenderWindow :=
  {| HMD := HMD this; OpenVRRenderModels := OpenVRRenderModels this;
     VTKRenderModels := VTKRenderModels this;
     TrackedDeviceToRenderModel := TrackedDeviceToRenderModel this;
     TrackedDevicePose := TrackedDevicePose this;
     InitialViewUp := InitialViewUp this;
     InitialViewDirection := InitialViewDirection this;
     Renderers := Renderers this; HMDTransform := HMDTransform this;
     Size := Size this; WindowPosition := WindowPosition this;
     RenderWidth := RenderWidth this; RenderHeight := RenderHeight this;
     MultiSamples := MultiSamples this; WindowId := WindowId this;
     ContextId := ContextId this; WindowName := WindowName this;
     m_strDriver := m_strDriver this; m_strDisplay := v;
     LeftEyeDesc := LeftEyeDesc this; RightEyeDesc := RightEyeDesc this |}.

Definition set_LeftEyeDesc (v : FramebufferDesc) (this : vtkOpenVRRenderWindow)
    : vtkOpenVRRenderWindow :=
  {| HMD := HMD this; OpenVRRenderModels := OpenVRRenderModels this;
     VTKRenderModels := VTKRenderModels this;
     TrackedDeviceToRenderModel := TrackedDeviceToRenderModel this;
     TrackedDevicePose := TrackedDevicePose this;
     InitialViewUp := InitialViewUp this;
     InitialViewDirection := InitialViewDirection this;
     Renderers := Renderers this; HMDTransform := HMDTransform this;
     Size := Size this; WindowPosition := WindowPosition this;
     RenderWidth := RenderWidth this; RenderHeight := RenderHeight this;
     MultiSamples := MultiSamples this; WindowId := WindowId this;
     ContextId := ContextId this; WindowName := WindowName this;
     m_strDriver := m_strDriver this; m_strDisplay := m_strDisplay this;
     LeftEyeDesc := v; RightEyeDesc := RightEyeDesc this |}.

Definition set_RightEyeDesc (v : FramebufferDesc) (this : vtkOpenVRRenderWindow)
    : vtkOpenVRRenderWindow :=
  {| HMD := HMD this; OpenVRRenderModels := OpenVRRenderModels this;
     VTKRenderModels := VTKRenderModels this;
     TrackedDeviceToRenderModel := TrackedDeviceToRenderModel this;
     TrackedDevicePose := TrackedDevicePose this;
     InitialViewUp := InitialViewUp this;
     InitialViewDirection := InitialViewDirection this;
     Renderers := Renderers this; HMDTransform := HMDTransform this;
     Size := Size this; WindowPosition := WindowPosition this;
     RenderWidth := RenderWidth this; RenderHeight := RenderHeight this;
     MultiSamples := MultiSamples this; WindowId := WindowId this;
     ContextId := ContextId this; WindowName := WindowName this;
     m_strDriver := m_strDriver this; m_strDisplay := m_strDisplay this;
     LeftEyeDesc := LeftEyeDesc this; RightEyeDesc := v |}.

(** The program state: the window, the vtkOpenVRModel objects its pointers
    refer to, and the events so far. *)
Record World := {
  win : vtkOpenVRRenderWindow;
  heap : gmap addr vtkOpenVRModel;
  trace : list Event }.

Definition set_win (w : vtkOpenVRRenderWindow) (σ : World) : World :=
  {| win := w; heap := heap σ; trace := trace σ |}.

(** [vr::k_unMaxTrackedDeviceCount] of openvr.h: the number of cells of
    [TrackedDeviceToRenderModel] and [TrackedDevicePose]. *)
Variable k_unMaxTrackedDeviceCount : nat.

(** What the unset member [Show] of a new vtkOpenVRModel holds. *)
Variable indeterminate_Show : bool.

(** The loop of lines 454-462: the first registered model whose name equals
    [name] up to case.  Every registered pointer refers to a live model
    ([cache_wf] below). *)
Fixpoint find_by_name (h : gmap addr vtkOpenVRModel) (name : string)
    (l : list addr) : option addr :=
  match l with
  | [] => None
  | i :: l' =>
      match h !! i with
      | Some model =>
          if (stricmp (GetName model) name =? 0)%Z then Some i
          else find_by_name h name l'
      | None => find_by_name h name l'
      end
  end.

(** vtkOpenVRRenderWindow::FindOrLoadRenderModel *)
Definition FindOrLoadRenderModel (pchRenderModelName : string) (σ : World)
    : option addr * World :=
  match find_by_name (heap σ) pchRenderModelName (VTKRenderModels (win σ)) with
  | Some pRenderModel => (Some pRenderModel, σ)
  | None =>
      (* create the model *)
      let pRenderModel : addr := fresh (dom (heap σ)) in
      let model := SetName pchRenderModelName (vtkOpenVRModel_New indeterminate_Show) in
      (* start loading the model if we didn't find one *)
      let '(result, raw) :=
        LoadRenderModel_Async VRRenderModels (trace σ) (GetName model) in
      let hist := trace σ ++ [LoadRenderModel_Async_call (GetName model)] in
      let model := set_RawModel raw model in
      let h := <[pRenderModel := model]> (heap σ) in
      if after_Loading result then
        let hist := hist ++ [vtkError (Unable_to_load_render_model (GetName model))] in
        (None, {| win := win σ; heap := delete pRenderModel h; trace := hist |})
      else
        let h := <[pRenderModel := SetShow true model]> h in
        let w := set_VTKRenderModels (VTKRenderModels (win σ) ++ [pRenderModel]) (win σ) in
        (Some pRenderModel, {| win := w; heap := h; trace := hist |})
  end.

(** vtkOpenVRRenderWindow::GetTrackedDeviceString: a required buffer length
    of 0 gives the empty string. *)
Definition GetTrackedDeviceString (pHmd : IVRSystem) (unDevice : nat)
    (prop : ETrackedDeviceProperty) : string :=
  match GetStringTrackedDeviceProperty pHmd unDevice prop with
  | None => ""
  | Some sResult => sResult
  end.

(** One round of the loop of vtkOpenVRRenderWindow::RenderModels; every
    [continue] leaves the state as it is at that point.  Lines 510-511 and
    528 dereference the slot's pointer without a test: when the model it
    points to has been destroyed there is no result. *)
Definition RenderModels_device (hmd : IVRSystem)
    (bIsInputCapturedByAnotherProcess : bool) (σ : World)
    (unTrackedDevice : nat) : option World :=
  (* is it not connected? *)
  if negb (IsTrackedDeviceConnected hmd unTrackedDevice) then Some σ
  else
    (* do we not have a model loaded yet? try loading one *)
    let σ :=
      match TrackedDeviceToRenderModel (win σ) !! unTrackedDevice with
      | Some (Some _) => σ
      | _ =>
          let sRenderModelName :=
            GetTrackedDeviceString hmd unTrackedDevice Prop_RenderModelName_String in
          let '(pRenderModel, σ) := FindOrLoadRenderModel sRenderModelName σ in
          match pRenderModel with
          | Some p =>
              set_win (set_TrackedDeviceToRenderModel
                         (<[unTrackedDevice := Some p]>
                            (TrackedDeviceToRenderModel (win σ))) (win σ)) σ
          | None => σ
          end
      end in
    (* if we still have no model or it is not set to show *)
    match TrackedDeviceToRenderModel (win σ) !! unTrackedDevice with
    | Some (Some p) =>
        match heap σ !! p with
        | Some model =>
            if negb (GetShow model) then Some σ
            else
              (* is the model's pose not valid? *)
              match TrackedDevicePose (win σ) !! unTrackedDevice with
              | Some pose =>
                  if negb (bPoseIsValid pose) then Some σ
                  else if bIsInputCapturedByAnotherProcess
                          && bool_decide (GetTrackedDeviceClass hmd unTrackedDevice
                                          = TrackedDeviceClass_Controller)
                  then Some σ
                  else
                    let hist := trace σ ++ [ModelRender_call unTrackedDevice p] in
                    let '(model, hist) :=
                      Render (Renderers (win σ)) pose hist model in
                    Some {| win := win σ; heap := <[p := model]> (heap σ);
                            trace := hist |}
              | None => Some σ
              end
        | None => None
        end
    | _ => Some σ
    end.

(** The rounds for a list of slots, in order. *)
Fixpoint RenderModels_loop (hmd : IVRSystem)
    (bIsInputCapturedByAnotherProcess : bool) (σ : World)
    (devices : list nat) : option World :=
  match devices with
  | [] => Some σ
  | unTrackedDevice :: devices =>
      match RenderModels_device hmd bIsInputCapturedByAnotherProcess σ
              unTrackedDevice with
      | Some σ => RenderModels_loop hmd bIsInputCapturedByAnotherProcess σ devices
      | None => None
      end
  end.

(** vtkOpenVRRenderWindow::RenderModels.  [this->HMD] is dereferenced without
    a test: with a null HMD there is no result. *)
Definition RenderModels (σ : World) : option World :=
  match HMD (win σ) with
  | None => None
  | Some hmd =>
      let bIsInputCapturedByAnotherProcess :=
        IsInputFocusCapturedByAnotherProcess hmd in
      RenderModels_loop hmd bIsInputCapturedByAnotherProcess σ
        (seq (k_unTrackedDeviceIndex_Hmd + 1)
             (k_unMaxTrackedDeviceCount - (k_unTrackedDeviceIndex_Hmd + 1)))
  end.

(** ** Pose tracking *)

(** [vr::VRCompositor()], NULL when the runtime has no compositor. *)
Variable VRCompositor : list Event -> option IVRCompositor.

(** Lines 630-688 of UpdateHMDMatrixPose for one renderer's camera. *)
Definition camera_from_pose (vup dop : list D) (tdPose : TrackedDevicePose_t)
    (cam : vtkOpenVRCamera) : vtkOpenVRCamera :=
  let M := mDeviceToAbsoluteTracking tdPose in
  (* Vive to world axes *)
  let vright := Cross dop vup in
  (* extract HMD axes *)
  let hvright := [m_ M 0 0; m_ M 1 0; m_ M 2 0] in
  let hvup := [m_ M 0 1; m_ M 1 1; m_ M 2 1] in
  let pos := [m_ M 0 3; m_ M 1 3; m_ M 2 3] in
  let distance := Distance cam in
  let trans := Translation cam in
  (* convert position to world coordinates *)
  let npos :=
    map (fun k => (elt pos 0 * elt vright k + elt pos 1 * elt vup k
                   - elt pos 2 * elt dop k)%D) (seq 0 3) in
  (* now adjust for scale and translation *)
  let pos := map (fun i => (elt npos i * distance - elt trans i)%D) (seq 0 3) in
  (* convert axes to world coordinates *)
  let fvright :=
    map (fun k => (elt hvright 0 * elt vright k + elt hvright 1 * elt vup k
                   - elt hvright 2 * elt dop k)%D) (seq 0 3) in
  let fvup :=
    map (fun k => (elt hvup 0 * elt vright k + elt hvup 1 * elt vup k
                   - elt hvup 2 * elt dop k)%D) (seq 0 3) in
  let fdop := Cross fvup fvright in
  let cam := SetPosition pos cam in
  let cam :=
    SetFocalPoint (map (fun k => (elt pos k + elt fdop k * distance)%D) (seq 0 3))
      cam in
  SetViewUp fvup cam.

(** vtkOpenVRRenderWindow::UpdateHMDMatrixPose.  [vr::VRCompositor()] is
    dereferenced without a test: without a compositor there is no result. *)
Definition UpdateHMDMatrixPose (σ : World) : option World :=
  match HMD (win σ) with
  | None => Some σ
  | Some _ =>
      match VRCompositor (trace σ) with
      | None => None
      | Some compositor =>
          let poses :=
            map (WaitGetPoses compositor (trace σ))
                (seq 0 k_unMaxTrackedDeviceCount) in
          let hist := trace σ ++ [WaitGetPoses_call] in
          let w := set_TrackedDevicePose poses (win σ) in
          (* update the camera values based on the pose *)
          match poses !! k_unTrackedDeviceIndex_Hmd with
          | Some tdPose =>
              if bPoseIsValid tdPose then
                let rens :=
                  map (fun ren =>
                         {| ActiveCamera :=
                              camera_from_pose (InitialViewUp w)
                                (InitialViewDirection w) tdPose (ActiveCamera ren) |})
                      (Renderers w) in
                let w :=
                  match Renderers w with
                  | [] => w
                  | _ :: _ => set_HMDTransform identity4x4 w
                  end in
                let w := set_Renderers rens w in
                let hist :=
                  hist ++ map UpdateLightsGeometryToFollowCamera_call
                            (seq 0 (length rens)) in
                Some {| win := w; heap := heap σ; trace := hist |}
              else Some {| win := w; heap := heap σ; trace := hist |}
          | None => Some {| win := w; heap := heap σ; trace := hist |}
          end
      end
  end.

(** ** Framebuffers and initialisation *)

(** What SDL, the runtime loader and the OpenGL driver answer in Initialize.
    [glGen] is the name handed out by [glGenFramebuffers],
    [glGenRenderbuffers] or [glGenTextures]; [VR_Init] gives the error code
    (0 is [VRInitError_None]) and the returned pointer.  [RenderWidth] and
    [RenderHeight] are [uint32_t]: the recommended size lies in
    [0, 2^32). *)
Record Platform := {
  SDL_Init : list Event -> Z;
  VR_Init : list Event -> Z * option IVRSystem;
  VR_GetGenericInterface : list Event -> bool;
  SDL_CreateWindow : list Event -> option Z;
  SDL_GL_CreateContext : list Event -> option Z;
  SDL_GL_SetSwapInterval : list Event -> Z;
  glGen : list Event -> Z;
  glCheckFramebufferStatus_GL_FRAMEBUFFER : list Event -> Z }.

Variable platform : Platform.

Definition GL_FRAMEBUFFER_COMPLETE : Z := 36053.   (* 0x8CD5 *)
Definition VRInitError_None : Z := 0.

(** Conversion of a [uint32_t] value to [int] (two's complement). *)
Definition to_int (x : Z) : Z := (if x <? 2 ^ 31 then x else x - 2 ^ 32)%Z.

(** vtkOpenVRRenderWindow::CreateFrameBuffer; [multiSamples] is
    [this->GetMultiSamples()]. *)
Definition CreateFrameBuffer (multiSamples nWidth nHeight : Z)
    (framebufferDesc : FramebufferDesc) (hist : list Event)
    : bool * FramebufferDesc * list Event :=
  let renderFramebufferId := glGen platform hist in
  let hist := hist ++ [GL (glGenFramebuffers renderFramebufferId);
                       GL (glBindFramebuffer renderFramebufferId)] in
  let depthBufferId := glGen platform hist in
  let hist := hist ++ [GL (glGenRenderbuffers depthBufferId);
                       GL (glBindRenderbuffer depthBufferId)] in
  let hist :=
    if negb (multiSamples =? 0)%Z
    then hist ++ [GL (glRenderbufferStorageMultisample 4 nWidth nHeight)]
    else hist ++ [GL (glRenderbufferStorage nWidth nHeight)] in
  let hist := hist ++ [GL (glFramebufferRenderbuffer GL_DEPTH_ATTACHMENT depthBufferId)] in
  let renderTextureId := glGen platform hist in
  let hist := hist ++ [GL (glGenTextures renderTextureId)] in
  let hist :=
    if negb (multiSamples =? 0)%Z
    then hist ++ [GL (glBindTexture GL_TEXTURE_2D_MULTISAMPLE renderTextureId);
                  GL (glTexImage2DMultisample 4 nWidth nHeight);
                  GL (glFramebufferTexture2D GL_COLOR_ATTACHMENT0
                        GL_TEXTURE_2D_MULTISAMPLE renderTextureId)]
    else hist ++ [GL (glBindTexture GL_TEXTURE_2D renderTextureId);
                  GL (glTexImage2D nWidth nHeight);
                  GL (glFramebufferTexture2D GL_COLOR_ATTACHMENT0
                        GL_TEXTURE_2D renderTextureId)] in
  let resolveFramebufferId := glGen platform hist in
  let hist := hist ++ [GL (glGenFramebuffers resolveFramebufferId);
                       GL (glBindFramebuffer resolveFramebufferId)] in
  let resolveTextureId := glGen platform hist in
  let hist := hist ++ [GL (glGenTextures resolveTextureId);
                       GL (glBindTexture GL_TEXTURE_2D resolveTextureId);
                       GL glTexParameteri_MIN_FILTER_LINEAR;
                       GL glTexParameteri_MAX_LEVEL_0;
                       GL (glTexImage2D nWidth nHeight);
                       GL (glFramebufferTexture2D GL_COLOR_ATTACHMENT0
                             GL_TEXTURE_2D resolveTextureId)] in
  let framebufferDesc :=
    {| m_nDepthBufferId := depthBufferId;
       m_nRenderTextureId := renderTextureId;
       m_nRenderFramebufferId := renderFramebufferId;
       m_nResolveTextureId := resolveTextureId;
       m_nResolveFramebufferId := resolveFramebufferId |} in
  (* check FBO status *)
  let status := glCheckFramebufferStatus_GL_FRAMEBUFFER platform hist in
  let hist := hist ++ [GL glCheckFramebufferStatus] in
  if negb (status =? GL_FRAMEBUFFER_COMPLETE)%Z
  then (false, framebufferDesc, hist)
  else (true, framebufferDesc, hist ++ [GL (glBindFramebuffer 0)]).

(** How Initialize, a [void] method, was left: at its end, through one of
    its [return] statements, or by dereferencing a null [this->HMD]. *)
Inductive InitializeExit :=
| Initialize_completed
| Initialize_returned
| Initialize_null_HMD.

(** vtkOpenVRRenderWindow::Initialize.  The [SDL_GL_SetAttribute] calls,
    whose result is not used, are left out of the events. *)
Definition Initialize (σ : World) : InitializeExit * World :=
  let this := win σ in
  let leave (e : InitializeExit) (this : vtkOpenVRRenderWindow)
      (hist : list Event) : InitializeExit * World :=
    (e, {| win := this; heap := heap σ; trace := hist |}) in
  let hist := trace σ in
  let rc := SDL_Init platform hist in
  let hist := hist ++ [SDL_Init_call] in
  if (rc <? 0)%Z then
    leave Initialize_returned this (hist ++ [vtkError SDL_could_not_initialize])
  else
  (* Loading the SteamVR Runtime *)
  let '(eError, pHMD) := VR_Init platform hist in
  let hist := hist ++ [VR_Init_call] in
  let this := set_HMD pHMD this in
  if negb (eError =? VRInitError_None)%Z then
    leave Initialize_returned (set_HMD None this)
      (hist ++ [SDL_ShowSimpleMessageBox_call])
  else
  let renderModels := VR_GetGenericInterface platform hist in
  let hist := hist ++ [VR_GetGenericInterface_call] in
  let this := set_OpenVRRenderModels renderModels this in
  if negb renderModels then
    leave Initialize_returned (set_HMD None this)
      (hist ++ [VR_Shutdown_call; SDL_ShowSimpleMessageBox_call])
  else
  match HMD this with
  | None => leave Initialize_null_HMD this hist
  | Some hmd =>
  let '(width, height) := GetRecommendedRenderTargetSize hmd in
  let this := set_RenderHeight height (set_RenderWidth width this) in
  let this :=
    set_Size (to_int (RenderWidth this / 2), to_int (RenderHeight this / 2)) this in
  let window := SDL_CreateWindow platform hist in
  let hist :=
    hist ++ [SDL_CreateWindow_call (fst (WindowPosition this))
               (snd (WindowPosition this)) (fst (Size this)) (snd (Size this))] in
  let this := set_WindowId window this in
  if bool_decide (WindowId this = None) then
    leave Initialize_returned this (hist ++ [vtkError Window_could_not_be_created])
  else
  let context := SDL_GL_CreateContext platform hist in
  let hist := hist ++ [SDL_GL_CreateContext_call] in
  let this := set_ContextId context this in
  if bool_decide (ContextId this = None) then
    leave Initialize_returned this
      (hist ++ [vtkError OpenGL_context_could_not_be_created])
  else
  let hist := hist ++ [OpenGLInit_call; GL glDepthRange_0_1] in
  (* make sure vsync is off *)
  let rc := SDL_GL_SetSwapInterval platform hist in
  let hist := hist ++ [SDL_GL_SetSwapInterval_call 0] in
  if (rc <? 0)%Z then
    leave Initialize_returned this (hist ++ [vtkError Unable_to_set_VSync])
  else
  let this := set_m_strDisplay "No Display" (set_m_strDriver "No Driver" this) in
  let this :=
    set_m_strDriver
      (GetTrackedDeviceString hmd k_unTrackedDeviceIndex_Hmd
         Prop_TrackingSystemName_String) this in
  let this :=
    set_m_strDisplay
      (GetTrackedDeviceString hmd k_unTrackedDeviceIndex_Hmd
         Prop_SerialNumber_String) this in
  let strWindowTitle :=
    String.append "VTK - "
      (String.append (m_strDriver this) (String.append " " (m_strDisplay this))) in
  let this := set_WindowName strWindowTitle this in
  let hist := hist ++ [SDL_SetWindowTitle_call (WindowName this)] in
  let '(_, desc, hist) :=
    CreateFrameBuffer (MultiSamples this) (to_int (RenderWidth this))
      (to_int (RenderHeight this)) (LeftEyeDesc this) hist in
  let this := set_LeftEyeDesc desc this in
  let '(_, desc, hist) :=
    CreateFrameBuffer (MultiSamples this) (to_int (RenderWidth this))
      (to_int (RenderHeight this)) (RightEyeDesc this) hist in
  let this := set_RightEyeDesc desc this in
  if bool_decide (VRCompositor hist = None) then
    leave Initialize_returned this
      (hist ++ [vtkError Compositor_initialization_failed])
  else
    leave Initialize_completed this (hist ++ [DashboardOverlay_Create_call])
  end.

(** ** Reading the OpenGL calls back

    The part of the OpenGL object model that the framebuffers of an eye
    depend on: [glGen*] creates a name, an attachment call acts on the
    framebuffer bound to GL_FRAMEBUFFER if that name has been generated, a
    storage call acts on the object bound to its target, and a later call for
    the same object replaces the earlier attachment or storage. *)

(** A framebuffer object: what is attached as depth and as colour, each a
    renderbuffer ([GL_RENDERBUFFER]) or a texture of the given target. *)
Record GLFramebuffer := {
  fb_depth : option (GLTarget * Z);
  fb_color : option (GLTarget * Z) }.

Definition fb_attach (attachment : GLAttachment) (what : GLTarget * Z)
    (fb : GLFramebuffer) : GLFramebuffer :=
  match attachment with
  | GL_DEPTH_ATTACHMENT => {| fb_depth := Some what; fb_color := fb_color fb |}
  | GL_COLOR_ATTACHMENT0 => {| fb_depth := fb_depth fb; fb_color := Some what |}
  end.

Record GLObjects := {
  gl_binding : GLTarget -> Z;
  gl_framebuffers : gmap Z GLFramebuffer;     (* generated names *)
  gl_renderbuffers : gset Z;                  (* generated names *)
  gl_textures : gset Z;                       (* generated names *)
  gl_renderbuffer_storage : gmap Z (Z * Z);   (* name to width, height *)
  gl_texture_image : gmap Z (Z * Z) }.

Definition gl_initial : GLObjects :=
  {| gl_binding := fun _ => 0%Z; gl_framebuffers := ∅; gl_renderbuffers := ∅;
     gl_textures := ∅; gl_renderbuffer_storage := ∅; gl_texture_image := ∅ |}.

Definition gl_bind (target : GLTarget) (id : Z) (g : GLObjects) : GLObjects :=
  {| gl_binding := fun t => if decide (t = target) then id else gl_binding g t;
     gl_framebuffers := gl_framebuffers g;
     gl_renderbuffers := gl_renderbuffers g;
     gl_textures := gl_textures g;
     gl_renderbuffer_storage := gl_renderbuffer_storage g;
     gl_texture_image := gl_texture_image g |}.

Definition gl_set_framebuffers (v : gmap Z GLFramebuffer) (g : GLObjects)
    : GLObjects :=
  {| gl_binding := gl_binding g;
     gl_framebuffers := v;
     gl_renderbuffers := gl_renderbuffers g;
     gl_textures := gl_textures g;
     gl_renderbuffer_storage := gl_renderbuffer_storage g;
     gl_texture_image := gl_texture_image g |}.

Definition gl_call (g : GLObjects) (c : GLCall) : GLObjects :=
  match c with
  | glGenFramebuffers id =>
      gl_set_framebuffers
        (<[id := {| fb_depth := None; fb_color := None |}]> (gl_framebuffers g)) g
  | glGenRenderbuffers id =>
      {| gl_binding := gl_binding g;
         gl_framebuffers := gl_framebuffers g;
         gl_renderbuffers := {[id]} ∪ gl_renderbuffers g;
         gl_textures := gl_textures g;
         gl_renderbuffer_storage := gl_renderbuffer_storage g;
         gl_texture_image := gl_texture_image g |}
  | glGenTextures id =>
      {| gl_binding := gl_binding g;
         gl_framebuffers := gl_framebuffers g;
         gl_renderbuffers := gl_renderbuffers g;
         gl_textures := {[id]} ∪ gl_textures g;
         gl_renderbuffer_storage := gl_renderbuffer_storage g;
         gl_texture_image := gl_texture_image g |}
  | glBindFramebuffer id => gl_bind GL_FRAMEBUFFER id g
  | glBindRenderbuffer id => gl_bind GL_RENDERBUFFER id g
  | glBindTexture target id => gl_bind target id g
  | glFramebufferRenderbuffer attachment id =>
      gl_set_framebuffers
        (alter (fb_attach attachment (GL_RENDERBUFFER, id))
           (gl_binding g GL_FRAMEBUFFER) (gl_framebuffers g)) g
  | glFramebufferTexture2D attachment textarget id =>
      gl_set_framebuffers
        (alter (fb_attach attachment (textarget, id))
           (gl_binding g GL_FRAMEBUFFER) (gl_framebuffers g)) g
  | glRenderbufferStorageMultisample _ w h
  | glRenderbufferStorage w h =>
      {| gl_binding := gl_binding g;
         gl_framebuffers := gl_framebuffers g;
         gl_renderbuffers := gl_renderbuffers g;
         gl_textures := gl_textures g;
         gl_renderbuffer_storage :=
           <[gl_binding g GL_RENDERBUFFER := (w, h)]> (gl_renderbuffer_storage g);
         gl_texture_image := gl_texture_image g |}
  | glTexImage2DMultisample _ w h =>
      {| gl_binding := gl_binding g;
         gl_framebuffers := gl_framebuffers g;
         gl_renderbuffers := gl_renderbuffers g;
         gl_textures := gl_textures g;
         gl_renderbuffer_storage := gl_renderbuffer_storage g;
         gl_texture_image :=
           <[gl_binding g GL_TEXTURE_2D_MULTISAMPLE := (w, h)]> (gl_texture_image g) |}
  | glTexImage2D w h =>
      {| gl_binding := gl_binding g;
         gl_framebuffers := gl_framebuffers g;
         gl_renderbuffers := gl_renderbuffers g;
         gl_textures := gl_textures g;
         gl_renderbuffer_storage := gl_renderbuffer_storage g;
         gl_texture_image :=
           <[gl_binding g GL_TEXTURE_2D := (w, h)]> (gl_texture_image g) |}
  | _ => g
  end.

Definition gl_event (g : GLObjects) (e : Event) : GLObjects :=
  match e with
  | GL c => gl_call g c
  | _ => g
  end.

Definition gl_replay (hist : list Event) : GLObjects := foldl gl_event gl_initial hist.






End Embedding.

Arguments HmdMatrix34_t D : clear implicits.
Arguments TrackedDevicePose_t D : clear implicits.
Arguments vtkOpenVRCamera D : clear implicits.
Arguments vtkRenderer D : clear implicits.
Arguments Event D : clear implicits.
Arguments IVRRenderModels D : clear implicits.
Arguments IVRCompositor D : clear implicits.
Arguments vtkOpenVRModel D : clear implicits.
Arguments vtkOpenVRRenderWindow D : clear implicits.
Arguments World D : clear implicits.
Arguments Platform D : clear implicits.

Arguments Multiply4x4 : simpl never.
Arguments pose_elems : simpl never.
Arguments index_count : simpl never.
Arguments to_int : simpl never.
Arguments to_GLsizei : simpl never.
Arguments gl_replay : simpl never.

(** ** Concrete runs

    Doubles holding small integers; integer arithmetic on them is exact. *)

#[global] Instance Z_Scalar : Scalar Z :=
  {| zero := 0%Z; one := 1%Z; add := Z.add; mul := Z.mul; sub := Z.sub;
     opp := Z.opp |}.

(** A pose with identity rotation and translation (1,2,3). *)
Definition pose_translated : TrackedDevicePose_t Z :=
  {| mDeviceToAbsoluteTracking := [[1; 0; 0; 1]; [0; 1; 0; 2]; [0; 0; 1; 3]]%Z;
     bPoseIsValid := true |}.

(** A pose with identity rotation and zero translation. *)
Definition pose_identity : TrackedDevicePose_t Z :=
  {| mDeviceToAbsoluteTracking := [[1; 0; 0; 0]; [0; 1; 0; 0]; [0; 0; 1; 0]]%Z;
     bPoseIsValid := true |}.

(** A camera at distance 2 with translation offset (1,2,3) and the identity
    as tracking-to-device-clip matrix. *)
Definition camera_example : vtkOpenVRCamera Z :=
  {| Position := [0; 0; 0]%Z; FocalPoint := [0; 0; -1]%Z; ViewUp := [0; 1; 0]%Z;
     Distance := 2%Z; Translation := [1; 2; 3]%Z;
     TrackingToDCMatrix := identity4x4 |}.

Definition renderer_example : vtkRenderer Z :=
  {| ActiveCamera := camera_example |}.

Definition raw_model_example : RenderModel_t :=
  {| unVertexCount := 4; unTriangleCount := 2; diffuseTextureId := 7 |}.

Definition raw_texture_example : RenderModel_TextureMap_t :=
  {| unWidth := 2; unHeight := 2 |}.

(** A model whose geometry and texture have arrived and which is built. *)
Definition model_ready : vtkOpenVRModel Z :=
  {| ModelName := "vr_controller"; Show := true; Loaded := true;
     FailedToLoad := false; RawModel := Some raw_model_example;
     RawTexture := Some raw_texture_example; IndexCount := 6;
     PoseMatrix := identity4x4 |}.

(** A runtime that is still loading everything. *)
Definition runtime_loading : IVRRenderModels Z :=
  {| LoadRenderModel_Async := fun _ _ => (VRRenderModelError_Loading, None);
     LoadTexture_Async := fun _ _ => (VRRenderModelError_Loading, None) |}.

Definition attributes_ok : list (Event Z) -> string -> bool := fun _ _ => true.

(** A runtime that refuses every geometry request. *)
Definition runtime_refusing : IVRRenderModels Z :=
  {| LoadRenderModel_Async := fun _ _ => (VRRenderModelError_InvalidArg, None);
     LoadTexture_Async := fun _ _ => (VRRenderModelError_Loading, None) |}.

(** A runtime that has the geometry but fails on the texture. *)
Definition runtime_texture_broken : IVRRenderModels Z :=
  {| LoadRenderModel_Async := fun _ _ =>
       (VRRenderModelError_None, Some raw_model_example);
     LoadTexture_Async := fun _ _ => (VRRenderModelError_InvalidTexture, None) |}.

(** A runtime that has everything at hand. *)
Definition runtime_done : IVRRenderModels Z :=
  {| LoadRenderModel_Async := fun _ _ =>
       (VRRenderModelError_None, Some raw_model_example);
     LoadTexture_Async := fun _ _ =>
       (VRRenderModelError_None, Some raw_texture_example) |}.

(** A model whose geometry has not arrived, and one that waits for its
    texture. *)
Definition model_new : vtkOpenVRModel Z :=
  SetShow true (SetName "vr_controller" (vtkOpenVRModel_New false)).

Definition model_with_geometry : vtkOpenVRModel Z :=
  set_RawModel (Some raw_model_example) model_new.

(** A session with controllers in every slot, recommending 1512x1680. *)
Definition hmd_example : IVRSystem :=
  {| IsInputFocusCapturedByAnotherProcess := false;
     IsTrackedDeviceConnected := fun _ => true;
     GetTrackedDeviceClass := fun u =>
       match u with
       | O => TrackedDeviceClass_HMD
       | _ => TrackedDeviceClass_Controller
       end;
     GetStringTrackedDeviceProperty := fun _ prop =>
       match prop with
       | Prop_TrackingSystemName_String => Some "lighthouse"
       | Prop_SerialNumber_String => Some "LHR-1"
       | Prop_RenderModelName_String => Some "vr_controller"
       end;
     GetRecommendedRenderTargetSize := (1512, 1680)%Z |}.

Definition pose_invalid : TrackedDevicePose_t Z :=
  {| mDeviceToAbsoluteTracking := [[1; 0; 0; 0]; [0; 1; 0; 0]; [0; 0; 1; 0]]%Z;
     bPoseIsValid := false |}.

(** A compositor that sees the head at rest and the other devices at
    (1,2,3), and one that has lost the head. *)
Definition compositor_example : IVRCompositor Z :=
  {| WaitGetPoses := fun _ u =>
       match u with O => pose_identity | _ => pose_translated end |}.

Definition compositor_head_lost : IVRCompositor Z :=
  {| WaitGetPoses := fun _ u =>
       match u with O => pose_invalid | _ => pose_translated end |}.

Definition desc_zero : FramebufferDesc :=
  {| m_nDepthBufferId := 0; m_nRenderTextureId := 0; m_nRenderFramebufferId := 0;
     m_nResolveTextureId := 0; m_nResolveFramebufferId := 0 |}.

(** The window as its constructor leaves it (640x720 at (100,100)), with
    one renderer and three device slots. *)
Definition window_constructed : vtkOpenVRRenderWindow Z :=
  {| HMD := None; OpenVRRenderModels := false; VTKRenderModels := [];
     TrackedDeviceToRenderModel := [None; None; None];
     TrackedDevicePose := [pose_invalid; pose_invalid; pose_invalid];
     InitialViewUp := [0; 1; 0]%Z; InitialViewDirection := [0; 0; -1]%Z;
     Renderers := [renderer_example]; HMDTransform := identity4x4;
     Size := (640, 720)%Z; WindowPosition := (100, 100)%Z;
     RenderWidth := 0; RenderHeight := 0; MultiSamples := 8;
     WindowId := None; ContextId := None; WindowName := "";
     m_strDriver := ""; m_strDisplay := "";
     LeftEyeDesc := desc_zero; RightEyeDesc := desc_zero |}.

Definition world_constructed : World Z :=
  {| win := window_constructed; heap := ∅; trace := [] |}.

(** The same window with a session. *)
Definition world_in_session : World Z :=
  {| win := set_HMD (Some hmd_example) window_constructed; heap := ∅;
     trace := [] |}.

(** A platform on which every step of Initialize succeeds; object names are
    handed out in the order of the calls. *)
Definition platform_ok : Platform Z :=
  {| SDL_Init := fun _ => 0%Z;
     VR_Init := fun _ => (0%Z, Some hmd_example);
     VR_GetGenericInterface := fun _ => true;
     SDL_CreateWindow := fun _ => Some 1%Z;
     SDL_GL_CreateContext := fun _ => Some 2%Z;
     SDL_GL_SetSwapInterval := fun _ => 0%Z;
     glGen := fun hist => Z.of_nat (length hist);
     glCheckFramebufferStatus_GL_FRAMEBUFFER := fun _ => GL_FRAMEBUFFER_COMPLETE |}.

(** The same platform with a driver that finds the framebuffers incomplete
    (GL_FRAMEBUFFER_INCOMPLETE_ATTACHMENT, 0x8CD6). *)
Definition platform_incomplete : Platform Z :=
  {| SDL_Init := fun _ => 0%Z;
     VR_Init := fun _ => (0%Z, Some hmd_example);
     VR_GetGenericInterface := fun _ => true;
     SDL_CreateWindow := fun _ => Some 1%Z;
     SDL_GL_CreateContext := fun _ => Some 2%Z;
     SDL_GL_SetSwapInterval := fun _ => 0%Z;
     glGen := fun hist => Z.of_nat (length hist);
     glCheckFramebufferStatus_GL_FRAMEBUFFER := fun _ => 36054%Z |}.



(** ** The load states and the matrices of the specification *)

Section ModelStates.

Context {D : Type} {SD : Scalar D}.

(** The load states of the specification, read off the members. *)
Definition Failed (this : vtkOpenVRModel D) : Prop :=
  FailedToLoad this = true.

Definition LoadingGeometry (this : vtkOpenVRModel D) : Prop :=
  FailedToLoad this = false ∧ RawModel this = None
  ∧ RawTexture this = None ∧ Loaded this = false.

Definition LoadingTexture (this : vtkOpenVRModel D) : Prop :=
  FailedToLoad this = false ∧ is_Some (RawModel this)
  ∧ RawTexture this = None ∧ Loaded this = false.

Definition Ready (this : vtkOpenVRModel D) : Prop :=
  FailedToLoad this = false ∧ is_Some (RawModel this)
  ∧ is_Some (RawTexture this) ∧ Loaded this = true.

(** The device pose as the row-major array that Render builds is meant to
    be read in the specification: rotation kept, translation column zeroed,
    homogeneous row (0,0,0,1). *)
Definition pose_translation_zeroed (M : HmdMatrix34_t D) : list D :=
  [m_ M 0 0; m_ M 0 1; m_ M 0 2; zero;
   m_ M 1 0; m_ M 1 1; m_ M 1 2; zero;
   m_ M 2 0; m_ M 2 1; m_ M 2 2; zero;
   zero; zero; zero; one].

(** What the code builds: the transpose of the 4x4 pose.  Row [i] holds
    column [i] of the pose, so the translation is the fourth row, and the
    fourth column is (0,0,0,1). *)
Definition pose_transposed (M : HmdMatrix34_t D) : list D :=
  [m_ M 0 0; m_ M 1 0; m_ M 2 0; zero;
   m_ M 0 1; m_ M 1 1; m_ M 2 1; zero;
   m_ M 0 2; m_ M 1 2; m_ M 2 2; zero;
   m_ M 0 3; m_ M 1 3; m_ M 2 3; one].

(** The transpose of a row-major 4x4 array. *)
Definition transpose4x4 (a : list D) : list D :=
  flat_map (fun j => map (fun i => elt a (j + i * 4)) (seq 0 4)) (seq 0 4).

(** The matrices passed to [SetUniformMatrix("matrix", ...)]. *)
Definition uploaded_matrices (hist : list (Event D)) : list (list D) :=
  omap (fun e => match e with SetUniformMatrix_matrix m => Some m | _ => None end)
       hist.

End ModelStates.

(** ** Head poses and camera placements of the specification *)

Section PoseStates.

Context {D : Type} {SD : Scalar D}.

(** A head pose with identity rotation and zero translation. *)
Definition head_at_rest (M : HmdMatrix34_t D) : Prop :=
  M = [[one; zero; zero; zero]; [zero; one; zero; zero]; [zero; zero; one; zero]].

(** The negative of the camera's translation offset. *)
Definition negative_translation (cam : vtkOpenVRCamera D) : list D :=
  [opp (elt (Translation cam) 0); opp (elt (Translation cam) 1);
   opp (elt (Translation cam) 2)].

(** The negative of the camera's translation offset scaled by distance. *)
Definition negative_translation_scaled (cam : vtkOpenVRCamera D) : list D :=
  [opp (elt (Translation cam) 0 * Distance cam)%D;
   opp (elt (Translation cam) 1 * Distance cam)%D;
   opp (elt (Translation cam) 2 * Distance cam)%D].

End PoseStates.

(** A session in which the stored poses are valid. *)
Definition world_tracking : World Z :=
  {| win := set_TrackedDevicePose [pose_identity; pose_translated; pose_translated]
              (set_HMD (Some hmd_example) window_constructed);
     heap := ∅; trace := [] |}.



(** ** The cache of models *)

(** What [stricmp] compares: the lower-cased characters before the NUL. *)
Fixpoint lower_key (s : string) : list ascii :=
  match s with
  | EmptyString => []
  | String c r => if Ascii.eqb c NUL then [] else tolower c :: lower_key r
  end.

Section CacheStates.

Context {D : Type}.

(** Every registered pointer refers to a live model. *)
Definition cache_wf (σ : World D) : Prop :=
  ∀ p, p ∈ VTKRenderModels (win σ) -> is_Some (heap σ !! p).

(** The number of geometry load requests among the events. *)
Definition is_load_request (e : Event D) : bool :=
  match e with
  | LoadRenderModel_Async_call _ => true
  | _ => false
  end.

Definition load_requests (hist : list (Event D)) : nat :=
  length (List.filter is_load_request hist).

(** The calls of a model's Render that RenderModels made: slot and model. *)
Definition render_calls (hist : list (Event D)) : list (nat * nat) :=
  omap (fun e => match e with
                 | ModelRender_call u p => Some (u, p)
                 | _ => None
                 end) hist.


(** What C10 says of a slot [u] whose model at [p] is rendered. *)
Definition rendered_slot_ok (k_unMaxTrackedDeviceCount : nat) (hmd : IVRSystem)
    (σ : World D) (u p : nat) : Prop :=
  (k_unTrackedDeviceIndex_Hmd < u < k_unMaxTrackedDeviceCount)%nat
  ∧ IsTrackedDeviceConnected hmd u = true
  ∧ TrackedDeviceToRenderModel (win σ) !! u = Some (Some p)
  ∧ (∃ model, heap σ !! p = Some model ∧ GetShow model = true)
  ∧ (∃ pose, TrackedDevicePose (win σ) !! u = Some pose
             ∧ bPoseIsValid pose = true)
  ∧ ¬ (IsInputFocusCapturedByAnotherProcess hmd = true
       ∧ GetTrackedDeviceClass hmd u = TrackedDeviceClass_Controller).

(** What one state keeps of an earlier one during RenderModels: assigned
    slots, live models and their Show flag, and the poses. *)
Definition keeps (σ1 σ2 : World D) : Prop :=
  (∀ u p, TrackedDeviceToRenderModel (win σ1) !! u = Some (Some p) ->
          TrackedDeviceToRenderModel (win σ2) !! u = Some (Some p))
  ∧ (∀ p m, heap σ1 !! p = Some m ->
            ∃ m', heap σ2 !! p = Some m' ∧ Show m' = Show m)
  ∧ TrackedDevicePose (win σ2) = TrackedDevicePose (win σ1).

End CacheStates.

(** ** Teardown and restart: Clean, Finalize, Start *)

(** Calls of the teardown methods to SDL, to the superclass and to the
    models. *)
Inductive LifecycleCall :=
| SDL_GL_MakeCurrent_call (window context : option Z)
| Superclass_ReleaseGraphicsResources_call
| Model_ReleaseGraphicsResources_call (p : nat)
| Model_Delete_call (p : nat)
| SDL_DestroyWindow_call (window : Z)
| SDL_Quit_call.

Section Lifecycle.

Context {D : Type}.
Variable VRCompositor : list (Event D) -> option (IVRCompositor D).
Variable platform : Platform D.

(** vtkOpenVRRenderWindow::MakeCurrent *)
Definition MakeCurrent (this : vtkOpenVRRenderWindow D) : LifecycleCall :=
  SDL_GL_MakeCurrent_call (WindowId this) (ContextId this).

(** vtkOpenVRRenderWindow::ReleaseGraphicsResources: the superclass, then
    every registered model. *)
Definition ReleaseGraphicsResources (this : vtkOpenVRRenderWindow D)
    : list LifecycleCall :=
  Superclass_ReleaseGraphicsResources_call
  :: map Model_ReleaseGraphicsResources_call (VTKRenderModels this).

(** vtkOpenVRRenderWindow::Clean; [OwnContext] is the member of the
    superclass.  The result lists the calls made, in order. *)
Definition Clean (OwnContext : bool) (this : vtkOpenVRRenderWindow D)
    : vtkOpenVRRenderWindow D * list (Event D + LifecycleCall) :=
  let calls :=
    if OwnContext && bool_decide (ContextId this ≠ None)
    then map inr (MakeCurrent this :: ReleaseGraphicsResources this)
    else [] in
  (set_ContextId None this, calls).

(** vtkOpenVRRenderWindow::Finalize.  The result lists the calls made, in
    order; the one that is an [Event] is appended to the trace as well.  A
    registered model holds the one reference that FindOrLoadRenderModel
    created, so [Delete] destroys it. *)
Definition Finalize (OwnContext : bool) (σ : World D)
    : World D * list (Event D + LifecycleCall) :=
  let '(this, calls) := Clean OwnContext (win σ) in
  let '(this, hist, calls) :=
    match HMD this with
    | Some _ =>
        (set_HMD None this, trace σ ++ [VR_Shutdown_call],
         calls ++ [inl VR_Shutdown_call])
    | None => (this, trace σ, calls)
    end in
  let calls := calls ++ map (fun i => inr (Model_Delete_call i)) (VTKRenderModels this) in
  let h := foldl (fun h i => delete i h) (heap σ) (VTKRenderModels this) in
  let this := set_VTKRenderModels [] this in
  let '(this, calls) :=
    match WindowId this with
    | Some window =>
        (set_WindowId None this, calls ++ [inr (SDL_DestroyWindow_call window)])
    | None => (this, calls)
    end in
  ({| win := this; heap := h; trace := hist |}, calls ++ [inr SDL_Quit_call]).

(** vtkOpenVRRenderWindow::Start: initialise if there is no context, then
    make the window current.  There is no result when Initialize
    dereferences a null [this->HMD]. *)
Definition Start (σ : World D) : option (World D * LifecycleCall) :=
  if bool_decide (ContextId (win σ) = None)
  then
    match Initialize VRCompositor platform σ with
    | (Initialize_null_HMD, _) => None
    | (_, σ) => Some (σ, MakeCurrent (win σ))
    end
  else Some (σ, MakeCurrent (win σ)).

End Lifecycle.

(** ** InitializeViewFromCamera *)

(** Comparison and absolute value of doubles. *)
Class ScalarOrder (D : Type) := {
  fabs : D -> D;
  greater : D -> D -> bool }.

Section ViewFromCamera.

Context {D : Type} {SD : Scalar D} {OD : ScalarOrder D}.

Definition set_InitialViewUp (v : list D) (this : vtkOpenVRRenderWindow D)
    : vtkOpenVRRenderWindow D :=
  {| HMD := HMD this; OpenVRRenderModels := OpenVRRenderModels this;
     VTKRenderModels := VTKRenderModels this;
     TrackedDeviceToRenderModel := TrackedDeviceToRenderModel this;
     TrackedDevicePose := TrackedDevicePose this; InitialViewUp := v;
     InitialViewDirection := InitialViewDirection this;
     Renderers := Renderers this; HMDTransform := HMDTransform this;
     Size := Size this; WindowPosition := WindowPosition this;
     RenderWidth := RenderWidth this; RenderHeight := RenderHeight this;
     MultiSamples := MultiSamples this; WindowId := WindowId this;
     ContextId := ContextId this; WindowName := WindowName this;
     m_strDriver := m_strDriver this; m_strDisplay := m_strDisplay this;
     LeftEyeDesc := LeftEyeDesc this; RightEyeDesc := RightEyeDesc this |}.

Definition set_InitialViewDirection (v : list D) (this : vtkOpenVRRenderWindow D)
    : vtkOpenVRRenderWindow D :=
  {| HMD := HMD this; OpenVRRenderModels := OpenVRRenderModels this;
     VTKRenderModels := VTKRenderModels this;
     TrackedDeviceToRenderModel := TrackedDeviceToRenderModel this;
     TrackedDevicePose := TrackedDevicePose this;
     InitialViewUp := InitialViewUp this; InitialViewDirection := v;
     Renderers := Renderers this; HMDTransform := HMDTransform this;
     Size := Size this; WindowPosition := WindowPosition this;
     RenderWidth := RenderWidth this; RenderHeight := RenderHeight this;
     MultiSamples := MultiSamples this; WindowId := WindowId this;
     ContextId := ContextId this; WindowName := WindowName this;
     m_strDriver := m_strDriver this; m_strDisplay := m_strDisplay this;
     LeftEyeDesc := LeftEyeDesc this; RightEyeDesc := RightEyeDesc this |}.

Definition SetTranslation (v : list D) (cam : vtkOpenVRCamera D)
    : vtkOpenVRCamera D :=
  {| Position := Position cam; FocalPoint := FocalPoint cam; ViewUp := ViewUp cam;
     Distance := Distance cam; Translation := v;
     TrackingToDCMatrix := TrackingToDCMatrix cam |}.

(** What InitializeViewFromCamera reads of the source camera (a vtkCamera,
    an object other than the renderer's active camera). *)
Record vtkCamera := {
  src_ViewAngle : D;
  src_Distance : D;
  src_ViewUp : list D;
  src_FocalPoint : list D;
  src_DirectionOfProjection : list D }.

(** [sin(vtkMath::RadiansFromDegrees(a)/2.0)], the division of doubles, and
    the view angle of the active camera. *)
Variable sin_half_degrees : D -> D.
Variable div : D -> D -> D.
Variable GetViewAngle : vtkOpenVRCamera D -> D.

(** Lines 388-390 and 410-412: the index of the component that is largest
    in absolute value. *)
Definition max_index (v : list D) : nat :=
  if greater (fabs (elt v 0)) (fabs (elt v 1))
  then (if greater (fabs (elt v 0)) (fabs (elt v 2)) then 0%nat else 2%nat)
  else (if greater (fabs (elt v 1)) (fabs (elt v 2)) then 1%nat else 2%nat).

(** Lines 392-399 and 413-416: the signed axis for that component. *)
Definition snap_to_axis (v : list D) : list D :=
  let maxIdx := max_index v in
  [ if (maxIdx =? 0)%nat then (if greater (elt v 0) zero then one else opp one)
    else zero;
    if (maxIdx =? 1)%nat then (if greater (elt v 1) zero then one else opp one)
    else zero;
    if (maxIdx =? 2)%nat then (if greater (elt v 2) zero then one else opp one)
    else zero ].

Inductive ViewCall :=
| vtkError_renderer_must_be_set
| ResetCameraClippingRange_call.

(** vtkOpenVRRenderWindow::InitializeViewFromCamera.  A renderer always has
    an active camera here, so the second test of the method does not
    arise. *)
Definition InitializeViewFromCamera (srccam : vtkCamera)
    (this : vtkOpenVRRenderWindow D)
    : vtkOpenVRRenderWindow D * list ViewCall :=
  match Renderers this !! 0%nat with
  | None => (this, [vtkError_renderer_must_be_set])
  | Some ren =>
      let cam := ActiveCamera ren in
      let distance :=
        div (sin_half_degrees (src_ViewAngle srccam) * src_Distance srccam)%D
            (sin_half_degrees (GetViewAngle cam)) in
      let oldVup := src_ViewUp srccam in
      let cam := SetViewUp (snap_to_axis oldVup) cam in
      let this := set_InitialViewUp (snap_to_axis oldVup) this in
      let oldFP := src_FocalPoint srccam in
      let cvup := ViewUp cam in
      let cam := SetFocalPoint oldFP cam in
      let cam :=
        SetTranslation [ (elt cvup 0 * distance - elt oldFP 0)%D;
                         (elt cvup 1 * distance - elt oldFP 1)%D;
                         (elt cvup 2 * distance - elt oldFP 2)%D ] cam in
      let oldDOP := src_DirectionOfProjection srccam in
      let this := set_InitialViewDirection (snap_to_axis oldDOP) this in
      let idop := InitialViewDirection this in
      let cam :=
        SetPosition [ (- elt idop 0 * distance + elt oldFP 0)%D;
                      (- elt idop 1 * distance + elt oldFP 1)%D;
                      (- elt idop 2 * distance + elt oldFP 2)%D ] cam in
      (set_Renderers (<[0%nat := {| ActiveCamera := cam |}]> (Renderers this)) this,
       [ResetCameraClippingRange_call])
  end.

(** The six signed axes. *)
Definition signed_axis (v : list D) : Prop :=
  v = [one; zero; zero] ∨ v = [opp one; zero; zero]
  ∨ v = [zero; one; zero] ∨ v = [zero; opp one; zero]
  ∨ v = [zero; zero; one] ∨ v = [zero; zero; opp one].

End ViewFromCamera.

Arguments vtkCamera D : clear implicits.

#[global] Instance Z_ScalarOrder : ScalarOrder Z :=
  {| fabs := Z.abs; greater := Z.gtb |}.

(** ** Further notions for the properties below *)

Section FurtherStates.

Context {D : Type}.

(** The requests to the runtime's render-model interface among the events. *)
Definition runtime_requests (hist : list (Event D)) : list (Event D) :=
  List.filter (fun e => match e with
                        | LoadRenderModel_Async_call _
                        | LoadTexture_Async_call _
                        | FreeRenderModel_call _
                        | FreeTexture_call _ => true
                        | _ => false
                        end) hist.

(** The errors among the events. *)
Definition errors (hist : list (Event D)) : list ErrorMessage :=
  omap (fun e => match e with vtkError msg => Some msg | _ => None end) hist.

(** The names of the registered models, as [stricmp] sees them. *)
Definition cache_keys (σ : World D) : list (list ascii) :=
  omap (fun i => (fun model => lower_key (GetName model)) <$> heap σ !! i)
       (VTKRenderModels (win σ)).

(** Every assigned device slot holds a registered pointer. *)
Definition slots_in_cache (σ : World D) : Prop :=
  ∀ u p, TrackedDeviceToRenderModel (win σ) !! u = Some (Some p) ->
         p ∈ VTKRenderModels (win σ).

(** The sample counts and sizes of the multisample storage calls. *)
Definition multisample_requests (hist : list (Event D)) : list (Z * Z * Z) :=
  omap (fun e => match e with
                 | GL (glRenderbufferStorageMultisample s w h)
                 | GL (glTexImage2DMultisample s w h) => Some (s, w, h)
                 | _ => None
                 end) hist.

(** The sizes of the single-sample storage calls. *)
Definition single_sample_requests (hist : list (Event D)) : list (Z * Z) :=
  omap (fun e => match e with
                 | GL (glRenderbufferStorage w h)
                 | GL (glTexImage2D w h) => Some (w, h)
                 | _ => None
                 end) hist.

End FurtherStates.

(** A source camera looking along -z with view-up tilted off +y. *)
Definition source_camera_example : vtkCamera Z :=
  {| src_ViewAngle := 30%Z; src_Distance := 5%Z; src_ViewUp := [1; 4; -2]%Z;
     src_FocalPoint := [10; 20; 30]%Z;
     src_DirectionOfProjection := [1; 2; -7]%Z |}.

(** The state after one frame of RenderModels with everything at hand: both
    controller slots hold the one controller model. *)
Definition world_with_models : World Z :=
  default world_tracking
    (RenderModels runtime_done attributes_ok 3 false world_tracking).

(** Render called once per pose of a list, on the same model. *)
Definition Render_many {D : Type} {SD : Scalar D}
    (VRRenderModels : IVRRenderModels D)
    (AddAttributeArray : list (Event D) -> string -> bool)
    (Renderers : list (vtkRenderer D)) (poses : list (TrackedDevicePose_t D))
    (start : vtkOpenVRModel D * list (Event D))
    : vtkOpenVRModel D * list (Event D) :=
  foldl (fun st pose => Render VRRenderModels AddAttributeArray Renderers pose
                          st.2 st.1) start poses.

(** The events a model's Render is ever seen to make: requests to the
    render-model interface, calls on the model's own GPU objects, and four of
    the error texts. *)
Definition model_event {D : Type} (e : Event D) : bool :=
  match e with
  | vtkError Error_setting_position_in_shader_VAO
  | vtkError Error_setting_tcoords_in_shader_VAO
  | vtkError (Unable_to_load_render_model_with_error_code _ _)
  | vtkError (Unable_to_load_render_texture_for_render_model _)
  | LoadRenderModel_Async_call _
  | LoadTexture_Async_call _
  | FreeRenderModel_call _
  | FreeTexture_call _
  | VBO_Upload _
  | IBO_Upload _
  | ReadyShaderProgram_call
  | VAO_Bind
  | IBO_Bind
  | AddAttributeArray_call _
  | Create2DFromRaw_call _ _
  | TextureObject_SetWrapS_ClampToEdge
  | TextureObject_SetWrapT_ClampToEdge
  | TextureObject_SetMinificationFilter_LinearMipmapLinear
  | TextureObject_SetGenerateMipmap_true
  | TextureObject_Activate
  | TextureObject_Deactivate
  | SetUniformi_diffuse
  | SetUniformMatrix_matrix _
  | GL (glDrawElements_GL_TRIANGLES _) => true
  | _ => false
  end.

(** The calls among the events that create a model's GPU objects: the
    vertex and index buffers, the vertex attributes and the texture with its
    sampling parameters. *)
Definition build_calls {D : Type} (hist : list (Event D)) : list (Event D) :=
  List.filter (fun e => match e with
                        | VBO_Upload _
                        | IBO_Upload _
                        | AddAttributeArray_call _
                        | Create2DFromRaw_call _ _
                        | TextureObject_SetWrapS_ClampToEdge
                        | TextureObject_SetWrapT_ClampToEdge
                        | TextureObject_SetMinificationFilter_LinearMipmapLinear
                        | TextureObject_SetGenerateMipmap_true => true
                        | _ => false
                        end) hist.

(** The index counts of the draw calls among the events. *)
Definition draw_calls {D : Type} (hist : list (Event D)) : list Z :=
  omap (fun e => match e with
                 | GL (glDrawElements_GL_TRIANGLES n) => Some n
                 | _ => None
                 end) hist.

(** The cache is well formed, no pointer is registered twice, and no two
    registered models have the same name up to case. *)
Definition cache_inv {D : Type} (σ : World D) : Prop :=
  cache_wf σ ∧ NoDup (VTKRenderModels (win σ)) ∧ NoDup (cache_keys σ).

(** A session in which no device is connected. *)
Definition hmd_alone : IVRSystem :=
  {| IsInputFocusCapturedByAnotherProcess := false;
     IsTrackedDeviceConnected := fun _ => false;
     GetTrackedDeviceClass := fun _ => TrackedDeviceClass_Invalid;
     GetStringTrackedDeviceProperty := fun _ _ => None;
     GetRecommendedRenderTargetSize := (1512, 1680)%Z |}.

(** The constructed window with that session. *)
Definition world_headset_only : World Z :=
  {| win := set_HMD (Some hmd_alone) window_constructed; heap := ∅; trace := [] |}.

(** A runtime that has the geometry and is still loading the texture. *)
Definition runtime_geometry_only : IVRRenderModels Z :=
  {| LoadRenderModel_Async := fun _ _ =>
       (VRRenderModelError_None, Some raw_model_example);
     LoadTexture_Async := fun _ _ => (VRRenderModelError_Loading, None) |}.

(** A head turned a quarter about the vertical axis, at (1,2,3). *)
Definition pose_turned : TrackedDevicePose_t Z :=
  {| mDeviceToAbsoluteTracking := [[0; 0; 1; 1]; [0; 1; 0; 2]; [-1; 0; 0; 3]]%Z;
     bPoseIsValid := true |}.

Definition compositor_head_turned : IVRCompositor Z :=
  {| WaitGetPoses := fun _ _ => pose_turned |}.

(** The columns of a head pose: its right and up axes, and where the code
    puts a camera for it when the initial axes are the default ones. *)
Definition head_right {D : Type} {SD : Scalar D} (M : HmdMatrix34_t D) : list D :=
  [m_ M 0 0; m_ M 1 0; m_ M 2 0].

Definition head_up {D : Type} {SD : Scalar D} (M : HmdMatrix34_t D) : list D :=
  [m_ M 0 1; m_ M 1 1; m_ M 2 1].

Definition head_position {D : Type} {SD : Scalar D} (M : HmdMatrix34_t D)
    (cam : vtkOpenVRCamera D) : list D :=
  [ (m_ M 0 3 * Distance cam - elt (Translation cam) 0)%D;
    (m_ M 1 3 * Distance cam - elt (Translation cam) 1)%D;
    (m_ M 2 3 * Distance cam - elt (Translation cam) 2)%D ].

(** The OpenGL calls among the events. *)
Definition gl_only {D : Type} (e : Event D) : bool :=
  match e with
  | GL _ => true
  | _ => false
  end.

(** A platform on which SDL cannot create the window. *)
Definition platform_no_window : Platform Z :=
  {| SDL_Init := fun _ => 0%Z;
     VR_Init := fun _ => (0%Z, Some hmd_example);
     VR_GetGenericInterface := fun _ => true;
     SDL_CreateWindow := fun _ => None;
     SDL_GL_CreateContext := fun _ => Some 2%Z;
     SDL_GL_SetSwapInterval := fun _ => 0%Z;
     glGen := fun hist => Z.of_nat (length hist);
     glCheckFramebufferStatus_GL_FRAMEBUFFER := fun _ => GL_FRAMEBUFFER_COMPLETE |}.

(** The window a run of Initialize leaves shares everything with the
    window it started from that initialisation has no business with. *)
Definition Initialize_keeps {D : Type} (σ σ' : World D) : Prop :=
  heap σ' = heap σ
  ∧ VTKRenderModels (win σ') = VTKRenderModels (win σ)
  ∧ TrackedDeviceToRenderModel (win σ') = TrackedDeviceToRenderModel (win σ)
  ∧ TrackedDevicePose (win σ') = TrackedDevicePose (win σ)
  ∧ Renderers (win σ') = Renderers (win σ)
  ∧ InitialViewUp (win σ') = InitialViewUp (win σ)
  ∧ InitialViewDirection (win σ') = InitialViewDirection (win σ)
  ∧ HMDTransform (win σ') = HMDTransform (win σ)
  ∧ MultiSamples (win σ') = MultiSamples (win σ)
  ∧ WindowPosition (win σ') = WindowPosition (win σ).

(** The names, as [stricmp] sees them, of the live models among the
    pointers of a list. *)
Definition model_keys {D : Type} (h : gmap nat (vtkOpenVRModel D)) (l : list nat)
    : list (list ascii) :=
  omap (fun i => (fun model => lower_key (GetName model)) <$> h !! i) l.

(** * Properties *)

(** ** vtkOpenVRModel::Render *)

Section RenderProperties.

Context {D : Type} {SD : Scalar D}.
Variable VRRenderModels : IVRRenderModels D.
Variable AddAttributeArray : list (Event D) -> string -> bool.

Local Abbreviation render := (Render VRRenderModels AddAttributeArray).

Ltac solve_state :=
  repeat match goal with
         | |- _ ∧ _ => split
         | |- is_Some _ => eexists; reflexivity
         | |- _ = _ => reflexivity
         end.

(** Whatever the 16 cells of [elems] hold at first, the loops and the four
    assignments leave the transposed pose in them. *)
Lemma pose_elems_from_any (elems : list D) (M : HmdMatrix34_t D) :
  length elems = 16%nat -> pose_elems_from elems M = pose_transposed M.
Proof.
  intros Hlen.
  do 17 (destruct elems as [|? elems]; try discriminate Hlen).
  reflexivity.
Qed.

Lemma pose_elems_transposed (M : HmdMatrix34_t D) :
  pose_elems M = pose_transposed M.
Proof. apply pose_elems_from_any. reflexivity. Qed.

(** Every non-success code other than Loading lies after Loading. *)
Lemma after_Loading_error (result : EVRRenderModelError) :
  result ≠ VRRenderModelError_None ->
  result ≠ VRRenderModelError_Loading ->
  after_Loading result = true.
Proof. destruct result; intros H0 H1; try reflexivity; congruence. Qed.

Lemma after_Loading_iff (result : EVRRenderModelError) :
  after_Loading result = true
  <-> result ≠ VRRenderModelError_None ∧ result ≠ VRRenderModelError_Loading.
Proof.
  split.
  - destruct result; intros H; try discriminate H; split; discriminate.
  - intros [H0 H1]. by apply after_Loading_error.
Qed.

(** A failed model is left alone: no load, no draw, no change. *)
Lemma Render_failed_absorbing (Renderers : list (vtkRenderer D))
    (pose : TrackedDevicePose_t D) (hist : list (Event D))
    (this : vtkOpenVRModel D) :
  Failed this -> render Renderers pose hist this = (this, hist).
Proof. unfold Failed, Render. intros ->. reflexivity. Qed.

(** Render never touches the name or the Show flag. *)
Lemma Render_geometry_name_show (hist : list (Event D)) (this : vtkOpenVRModel D) :
  let this' := (Render_geometry VRRenderModels hist this).1.1 in
  ModelName this' = ModelName this ∧ Show this' = Show this.
Proof.
  unfold Render_geometry. destruct (RawModel this); [done |].
  destruct (LoadRenderModel_Async _ _ _) as [result raw].
  destruct (after_Loading result); done.
Qed.

Lemma Render_texture_name_show (hist : list (Event D)) (this : vtkOpenVRModel D) :
  let this' := (Render_texture VRRenderModels AddAttributeArray hist this).1 in
  ModelName this' = ModelName this ∧ Show this' = Show this.
Proof.
  unfold Render_texture. destruct (RawModel this); [| done].
  destruct (RawTexture this); [done |].
  destruct (LoadTexture_Async _ _ _) as [result [tex|]]; done.
Qed.

Lemma Render_draw_name_show (Renderers : list (vtkRenderer D))
    (pose : TrackedDevicePose_t D) (hist : list (Event D))
    (this : vtkOpenVRModel D) :
  let this' := (Render_draw Renderers pose hist this).1 in
  ModelName this' = ModelName this ∧ Show this' = Show this.
Proof.
  unfold Render_draw. destruct (Loaded this); [| done].
  destruct (Renderers !! 0%nat); done.
Qed.

Lemma Render_name_show (Renderers : list (vtkRenderer D))
    (pose : TrackedDevicePose_t D) (hist : list (Event D))
    (this : vtkOpenVRModel D) :
  ModelName (render Renderers pose hist this).1 = ModelName this
  ∧ Show (render Renderers pose hist this).1 = Show this.
Proof.
  unfold Render. destruct (FailedToLoad this); [done |].
  pose proof (Render_geometry_name_show hist this) as Hg.
  destruct (Render_geometry VRRenderModels hist this) as [[this1 hist1] returned].
  simpl in Hg. destruct returned; [done |].
  pose proof (Render_texture_name_show hist1 this1) as Ht.
  destruct (Render_texture VRRenderModels AddAttributeArray hist1 this1)
    as [this2 hist2].
  simpl in Ht.
  pose proof (Render_draw_name_show Renderers pose hist2 this2) as Hd.
  simpl in Hd. destruct Hg, Ht, Hd. split; congruence.
Qed.

(** From a new model on, Render only ever produces the four load states. *)
Lemma Render_load_states (Renderers : list (vtkRenderer D))
    (pose : TrackedDevicePose_t D) (hist : list (Event D))
    (this : vtkOpenVRModel D) :
  Failed this ∨ LoadingGeometry this ∨ LoadingTexture this ∨ Ready this ->
  let this' := (render Renderers pose hist this).1 in
  Failed this' ∨ LoadingGeometry this' ∨ LoadingTexture this' ∨ Ready this'.
Proof.
  unfold Failed, LoadingGeometry, LoadingTexture, Ready.
  intros H.
  unfold Render, Render_geometry, Render_texture, Render_draw, Build.
  destruct this as [n s l f rm rt ic pm]; simpl in *.
  destruct H as [-> | [(-> & -> & -> & ->) | [(-> & [raw ->] & -> & ->)
                | (-> & [raw ->] & [tex ->] & ->)]]];
    simpl.
  - left; reflexivity.
  - destruct (LoadRenderModel_Async _ _ _) as [result raw]; simpl.
    destruct (after_Loading result); simpl; [left; reflexivity |].
    destruct raw as [raw|]; simpl; [| right; left; solve_state].
    destruct (LoadTexture_Async _ _ _) as [r2 tex]; simpl.
    destruct tex as [tex|]; simpl.
    + destruct (Renderers !! 0%nat); simpl; right; right; right; solve_state.
    + right; right; left; solve_state.
  - destruct (LoadTexture_Async _ _ _) as [r2 tex]; simpl.
    destruct tex as [tex|]; simpl.
    + destruct (Renderers !! 0%nat); simpl; right; right; right; solve_state.
    + right; right; left; solve_state.
  - destruct (Renderers !! 0%nat); simpl; right; right; right; solve_state.
Qed.

Lemma new_model_loading_geometry (show : bool) (name : string) :
  LoadingGeometry (SetName name (vtkOpenVRModel_New (D:=D) show)).
Proof. repeat split. Qed.

(** Without a renderer a Ready model is drawn with the matrix of an earlier
    call: nothing is uploaded. *)
Lemma Render_ready_without_renderer (Renderers : list (vtkRenderer D))
    (pose : TrackedDevicePose_t D) (hist : list (Event D))
    (this : vtkOpenVRModel D) :
  Ready this ->
  Renderers !! 0%nat = None ->
  render Renderers pose hist this
  = (this,
     hist ++ [ReadyShaderProgram_call; VAO_Bind; IBO_Bind; TextureObject_Activate;
              SetUniformi_diffuse;
              GL (glDrawElements_GL_TRIANGLES (to_GLsizei (IndexCount this)));
              TextureObject_Deactivate]).
Proof.
  intros (Hf & [raw Hraw] & [tex Htex] & Hl) Hren.
  unfold Render, Render_geometry, Render_texture, Render_draw.
  rewrite Hf, Hraw. simpl. rewrite Hraw, Htex, Hl, Hren. simpl.
  rewrite <- !app_assoc. reflexivity.
Qed.

(** A texture result after Loading that brings no texture is logged and
    nothing else: the model is not marked as failed and stays in the
    texture-loading state. *)
Lemma Render_texture_error_keeps_polling (Renderers : list (vtkRenderer D))
    (pose : TrackedDevicePose_t D) (hist : list (Event D))
    (this : vtkOpenVRModel D) (raw : RenderModel_t)
    (result : EVRRenderModelError) :
  LoadingTexture this ->
  RawModel this = Some raw ->
  LoadTexture_Async VRRenderModels hist (diffuseTextureId raw) = (result, None) ->
  after_Loading result = true ->
  render Renderers pose hist this
  = (this,
     hist ++ [LoadTexture_Async_call (diffuseTextureId raw);
              vtkError (Unable_to_load_render_texture_for_render_model
                          (GetName this))]).
Proof.
  intros (Hf & _ & Htex & Hl) Hraw Hreply Hafter.
  unfold Render, Render_geometry, Render_texture, Render_draw.
  rewrite Hf, Hraw. simpl. rewrite Hraw, Htex, Hreply, Hafter. simpl.
  rewrite Hl, <- app_assoc.
  destruct this; simpl in *; subst; reflexivity.
Qed.

(** C1 (as the code has it).  On a render call on a model in the Ready state,
    in a window that has a first renderer, the matrix passed to the shader
    is the product of the transposed device pose -- the pose's rotation
    columns and its translation as the four rows, with the fourth column set
    to (0,0,0,1), so the translation is kept -- and the tracking-to-device-clip
    matrix of that renderer's active camera; the same matrix is stored in
    PoseMatrix, and the call issues no load request and one indexed draw. *)
Theorem Render_ready_uploads_transposed_pose
    (Renderers : list (vtkRenderer D)) (ren : vtkRenderer D)
    (pose : TrackedDevicePose_t D) (hist : list (Event D))
    (this : vtkOpenVRModel D) :
  Ready this ->
  Renderers !! 0%nat = Some ren ->
  let P := Multiply4x4 (pose_transposed (mDeviceToAbsoluteTracking pose))
             (TrackingToDCMatrix (ActiveCamera ren)) in
  render Renderers pose hist this
  = (set_PoseMatrix P this,
     hist ++ [ReadyShaderProgram_call; VAO_Bind; IBO_Bind; TextureObject_Activate;
              SetUniformi_diffuse; SetUniformMatrix_matrix P;
              GL (glDrawElements_GL_TRIANGLES (to_GLsizei (IndexCount this)));
              TextureObject_Deactivate]).
Proof.
  intros (Hf & [raw Hraw] & [tex Htex] & Hl) Hren P.
  unfold Render, Render_geometry, Render_texture, Render_draw.
  rewrite Hf, Hraw. simpl. rewrite Hraw, Htex, Hl, Hren. simpl.
  rewrite pose_elems_transposed, <- !app_assoc. reflexivity.
Qed.

(** C6.  While the geometry is being loaded, a result other than success
    and Loading marks the model Failed and logs one error, except
    NotEnoughTexCoords, which marks it Failed and logs nothing; a Loading
    result (the runtime hands out no geometry with it) leaves the model as it
    is and logs nothing: the only event is the load request itself. *)
Theorem Render_geometry_phase
    (Renderers : list (vtkRenderer D)) (pose : TrackedDevicePose_t D)
    (hist : list (Event D)) (this : vtkOpenVRModel D)
    (result : EVRRenderModelError) (raw : option RenderModel_t) :
  LoadingGeometry this ->
  LoadRenderModel_Async VRRenderModels hist (GetName this) = (result, raw) ->
  (result ≠ VRRenderModelError_None -> result ≠ VRRenderModelError_Loading ->
   Failed (render Renderers pose hist this).1
   ∧ render Renderers pose hist this
     = (set_FailedToLoad true (set_RawModel raw this),
        hist ++ LoadRenderModel_Async_call (GetName this)
             :: (if bool_decide (result = VRRenderModelError_NotEnoughTexCoords)
                 then []
                 else [vtkError (Unable_to_load_render_model_with_error_code
                                   (GetName this) result)])))
  ∧ (result = VRRenderModelError_Loading -> raw = None ->
     render Renderers pose hist this
     = (this, hist ++ [LoadRenderModel_Async_call (GetName this)])).
Proof.
  intros (Hf & Hraw & Htex & Hl) Hreply.
  unfold Render, Render_geometry. rewrite Hf, Hraw, Hreply.
  split.
  - intros H0 H1. rewrite (after_Loading_error result H0 H1).
    assert (Heq : ∀ A (x y : list A), (if bool_decide (result ≠ VRRenderModelError_NotEnoughTexCoords)
                     then x ++ y else x)
                  = x ++ (if bool_decide (result = VRRenderModelError_NotEnoughTexCoords)
                          then [] else y)).
    { intros A x y. destruct result; simpl; try reflexivity.
      by rewrite app_nil_r. }
    rewrite Heq, <- app_assoc. simpl. split; reflexivity.
  - intros -> ->. simpl.
    unfold Render_texture, Render_draw.
    destruct this; simpl in *; subst; reflexivity.
Qed.

End RenderProperties.

(** C6, at a run: a new model polled while the runtime is still loading. *)
Lemma Render_geometry_phase_witness :
  LoadingGeometry model_new
  ∧ Render runtime_loading attributes_ok [renderer_example] pose_translated []
      model_new
    = (model_new, [LoadRenderModel_Async_call "vr_controller"]).
Proof.
  assert (Hphase : LoadingGeometry model_new) by (repeat split).
  split; [exact Hphase |].
  apply (proj2 (Render_geometry_phase runtime_loading attributes_ok
                  [renderer_example] pose_translated [] model_new
                  VRRenderModelError_Loading None Hphase eq_refl));
    reflexivity.
Defined.

(** C1, at a run: a built controller model drawn at (1,2,3). *)
Lemma Render_ready_uploads_witness :
  Render runtime_loading attributes_ok [renderer_example] pose_translated []
    model_ready
  = (set_PoseMatrix [1; 0; 0; 0; 0; 1; 0; 0; 0; 0; 1; 0; 1; 2; 3; 1]%Z model_ready,
     [ReadyShaderProgram_call; VAO_Bind; IBO_Bind; TextureObject_Activate;
      SetUniformi_diffuse;
      SetUniformMatrix_matrix [1; 0; 0; 0; 0; 1; 0; 0; 0; 0; 1; 0; 1; 2; 3; 1]%Z;
      GL (glDrawElements_GL_TRIANGLES 6); TextureObject_Deactivate]).
Proof.
  assert (Hready : Ready model_ready)
    by (repeat split; eexists; reflexivity).
  exact (Render_ready_uploads_transposed_pose runtime_loading attributes_ok
           [renderer_example] renderer_example pose_translated [] model_ready
           Hready eq_refl).
Defined.

(** C1 as stated fails: for a pose translated by (1,2,3) the matrix that
    reaches the shader carries the translation in its fourth row, while the
    product with the translation zeroed would be the identity, whichever way
    round the pose is stored. *)
Lemma Render_ready_keeps_translation :
  Ready model_ready
  ∧ uploaded_matrices
      (Render runtime_loading attributes_ok [renderer_example] pose_translated []
         model_ready).2
    = [[1; 0; 0; 0; 0; 1; 0; 0; 0; 0; 1; 0; 1; 2; 3; 1]%Z]
  ∧ [1; 0; 0; 0; 0; 1; 0; 0; 0; 0; 1; 0; 1; 2; 3; 1]%Z
    ≠ Multiply4x4
        (pose_translation_zeroed (mDeviceToAbsoluteTracking pose_translated))
        (TrackingToDCMatrix camera_example)
  ∧ [1; 0; 0; 0; 0; 1; 0; 0; 0; 0; 1; 0; 1; 2; 3; 1]%Z
    ≠ Multiply4x4
        (transpose4x4
           (pose_translation_zeroed (mDeviceToAbsoluteTracking pose_translated)))
        (TrackingToDCMatrix camera_example).
Proof.
  split; [| split; [| split]].
  - repeat split; eexists; reflexivity.
  - vm_compute. reflexivity.
  - vm_compute. discriminate.
  - vm_compute. discriminate.
Qed.

(** C3, on the code: a model that has its geometry and whose texture load
    fails with InvalidTexture is not marked Failed.  Render logs the error
    and leaves the model as it was, so the next call asks for the texture
    again and logs again. *)
Lemma Render_texture_error_not_failed :
  let run1 := Render runtime_texture_broken attributes_ok [renderer_example]
                pose_translated [] model_with_geometry in
  let run2 := Render runtime_texture_broken attributes_ok [renderer_example]
                pose_translated run1.2 run1.1 in
  LoadingTexture model_with_geometry
  ∧ after_Loading VRRenderModelError_InvalidTexture = true
  ∧ run1.1 = model_with_geometry
  ∧ FailedToLoad run1.1 = false
  ∧ run1.2 = [LoadTexture_Async_call 7;
              vtkError (Unable_to_load_render_texture_for_render_model
                          "vr_controller")]
  ∧ FailedToLoad run2.1 = false
  ∧ run2.2 = run1.2 ++ [LoadTexture_Async_call 7;
                        vtkError (Unable_to_load_render_texture_for_render_model
                                    "vr_controller")].
Proof.
  repeat split; try (eexists; reflexivity).
Qed.

(** ** Case-insensitive names *)

Lemma tolower_NUL (c : ascii) : tolower c = NUL -> c = NUL.
Proof.
  destruct c as [[] [] [] [] [] [] [] []]; vm_compute; congruence.
Qed.

Lemma char_code_diff (a b : ascii) :
  (char_code a - char_code b =? 0)%Z = true <-> a = b.
Proof.
  unfold char_code. rewrite Z.eqb_eq. split.
  - intros H. assert (Hn : nat_of_ascii a = nat_of_ascii b) by lia.
    rewrite <- (ascii_nat_embedding a), <- (ascii_nat_embedding b).
    by rewrite Hn.
  - intros ->. lia.
Qed.

Lemma stricmp_nil (s2 : string) :
  stricmp EmptyString s2 = (char_code NUL - char_code (tolower (first_char s2)))%Z.
Proof. reflexivity. Qed.

Lemma stricmp_cons (c1 : ascii) (r1 s2 : string) :
  stricmp (String c1 r1) s2
  = (if (char_code (tolower c1) - char_code (tolower (first_char s2)) =? 0)%Z
     then if Ascii.eqb c1 NUL then 0 else stricmp r1 (rest s2)
     else char_code (tolower c1) - char_code (tolower (first_char s2)))%Z.
Proof.
  simpl. destruct (_ =? 0)%Z; reflexivity.
Qed.

Lemma lower_key_head (s : string) :
  lower_key s = if Ascii.eqb (first_char s) NUL then []
                else tolower (first_char s) :: lower_key (rest s).
Proof. destruct s; reflexivity. Qed.

(** [stricmp] answers 0 exactly when the two names agree up to case. *)
Lemma stricmp_0_lower_key (s1 s2 : string) :
  stricmp s1 s2 = 0%Z <-> lower_key s1 = lower_key s2.
Proof.
  revert s2. induction s1 as [| c1 r1 IH]; intros s2.
  - rewrite stricmp_nil, (lower_key_head s2). simpl lower_key.
    rewrite <- Z.eqb_eq, char_code_diff.
    destruct (Ascii.eqb_spec (first_char s2) NUL) as [-> | Hc2].
    + done.
    + split; [| done]. intros H. symmetry in H. apply tolower_NUL in H. done.
  - rewrite stricmp_cons, (lower_key_head s2). simpl lower_key.
    destruct (char_code (tolower c1) - char_code (tolower (first_char s2)) =? 0)%Z
      eqn:Hd.
    + apply char_code_diff in Hd.
      destruct (Ascii.eqb_spec c1 NUL) as [-> | Hc1].
      * symmetry in Hd. apply tolower_NUL in Hd. rewrite Hd. done.
      * destruct (Ascii.eqb_spec (first_char s2) NUL) as [Hc2 | Hc2].
        { rewrite Hc2 in Hd. apply tolower_NUL in Hd. done. }
        rewrite IH, Hd. split; [by intros -> | by intros [=]].
    + assert (Hne : tolower c1 ≠ tolower (first_char s2)).
      { intros Heq. apply char_code_diff in Heq. congruence. }
      split.
      * intros H. apply Z.eqb_eq in H. congruence.
      * intros H. exfalso.
        destruct (Ascii.eqb_spec c1 NUL) as [-> | Hc1];
          destruct (Ascii.eqb_spec (first_char s2) NUL) as [Hc2 | Hc2];
          try done.
        -- rewrite Hc2 in Hne. done.
        -- congruence.
Qed.

Lemma stricmp_same_matches (name name' s : string) :
  stricmp name name' = 0%Z ->
  (stricmp s name =? 0)%Z = (stricmp s name' =? 0)%Z.
Proof.
  intros H. apply stricmp_0_lower_key in H.
  apply eq_true_iff_eq. rewrite !Z.eqb_eq, !stricmp_0_lower_key.
  by rewrite H.
Qed.

Lemma stricmp_refl (s : string) : stricmp s s = 0%Z.
Proof. by apply stricmp_0_lower_key. Qed.

(** ** vtkOpenVRRenderWindow::FindOrLoadRenderModel *)

Section CacheProperties.

Context {D : Type} {SD : Scalar D}.
Variable VRRenderModels : IVRRenderModels D.
Variable indeterminate_Show : bool.

Local Abbreviation findOrLoad :=
  (FindOrLoadRenderModel VRRenderModels indeterminate_Show).

Lemma find_by_name_same (h : gmap nat (vtkOpenVRModel D)) (name name' : string)
    (l : list nat) :
  stricmp name name' = 0%Z -> find_by_name h name l = find_by_name h name' l.
Proof.
  intros Hsame. induction l as [| i l IH]; simpl; [done |].
  destruct (h !! i) as [model |]; [| done].
  rewrite (stricmp_same_matches name name' _ Hsame), IH. done.
Qed.

Lemma find_by_name_app (h : gmap nat (vtkOpenVRModel D)) (name : string)
    (l1 l2 : list nat) :
  find_by_name h name (l1 ++ l2)
  = match find_by_name h name l1 with
    | Some p => Some p
    | None => find_by_name h name l2
    end.
Proof.
  induction l1 as [| i l1 IH]; simpl; [done |].
  destruct (h !! i) as [model |]; [| done].
  destruct (stricmp (GetName model) name =? 0)%Z; done.
Qed.

Lemma find_by_name_ext (h h' : gmap nat (vtkOpenVRModel D)) (name : string)
    (l : list nat) :
  (∀ i, i ∈ l -> h' !! i = h !! i) ->
  find_by_name h' name l = find_by_name h name l.
Proof.
  induction l as [| i l IH]; intros Hext; simpl; [done |].
  rewrite (Hext i) by (left; done).
  rewrite IH by (intros j Hj; apply Hext; right; done). done.
Qed.

(** A hit is a registered pointer to a live model whose name matches. *)
Lemma find_by_name_Some (h : gmap nat (vtkOpenVRModel D)) (name : string)
    (l : list nat) (p : nat) :
  find_by_name h name l = Some p ->
  p ∈ l ∧ ∃ model, h !! p = Some model ∧ stricmp (GetName model) name = 0%Z.
Proof.
  induction l as [| i l IH]; simpl; [done |].
  destruct (h !! i) as [model |] eqn:Hi.
  - destruct (stricmp (GetName model) name =? 0)%Z eqn:Hs.
    + intros [= <-]. split; [left; done |]. exists model.
      split; [done |]. by apply Z.eqb_eq.
    + intros H. destruct (IH H) as [Hin Hm]. split; [right; done | done].
  - intros H. destruct (IH H) as [Hin Hm]. split; [right; done | done].
Qed.

Lemma fresh_not_in_heap (h : gmap nat (vtkOpenVRModel D)) :
  h !! fresh (dom h) = None.
Proof. apply not_elem_of_dom, is_fresh. Qed.

(** What a call does, by cases on the cache and on the runtime's answer. *)
Lemma FindOrLoadRenderModel_found (name : string) (σ : World D) (p : nat) :
  find_by_name (heap σ) name (VTKRenderModels (win σ)) = Some p ->
  findOrLoad name σ = (Some p, σ).
Proof. unfold FindOrLoadRenderModel. intros ->. done. Qed.

Lemma FindOrLoadRenderModel_refused (name : string) (σ : World D)
    (result : EVRRenderModelError) (raw : option RenderModel_t) :
  find_by_name (heap σ) name (VTKRenderModels (win σ)) = None ->
  LoadRenderModel_Async VRRenderModels (trace σ) name = (result, raw) ->
  after_Loading result = true ->
  findOrLoad name σ
  = (None, {| win := win σ; heap := heap σ;
              trace := trace σ ++ [LoadRenderModel_Async_call name;
                                   vtkError (Unable_to_load_render_model name)] |}).
Proof.
  unfold FindOrLoadRenderModel. intros -> Hreply Hafter. simpl.
  rewrite Hreply, Hafter.
  rewrite delete_insert_id by apply fresh_not_in_heap.
  rewrite <- app_assoc. done.
Qed.

Lemma FindOrLoadRenderModel_created (name : string) (σ : World D)
    (result : EVRRenderModelError) (raw : option RenderModel_t) :
  find_by_name (heap σ) name (VTKRenderModels (win σ)) = None ->
  LoadRenderModel_Async VRRenderModels (trace σ) name = (result, raw) ->
  after_Loading result = false ->
  let p := fresh (dom (heap σ)) in
  let model :=
    SetShow true (set_RawModel raw
                    (SetName name (vtkOpenVRModel_New indeterminate_Show))) in
  findOrLoad name σ
  = (Some p,
     {| win := set_VTKRenderModels (VTKRenderModels (win σ) ++ [p]) (win σ);
        heap := <[p := model]> (heap σ);
        trace := trace σ ++ [LoadRenderModel_Async_call name] |}).
Proof.
  unfold FindOrLoadRenderModel. intros -> Hreply Hafter. simpl.
  rewrite Hreply, Hafter. rewrite insert_insert_eq. done.
Qed.

(** The cache stays well formed. *)
Lemma FindOrLoadRenderModel_cache_wf (name : string) (σ : World D) :
  cache_wf σ -> cache_wf (findOrLoad name σ).2.
Proof.
  intros Hwf.
  destruct (find_by_name (heap σ) name (VTKRenderModels (win σ))) as [q |] eqn:Hfind.
  - by rewrite (FindOrLoadRenderModel_found name σ q Hfind).
  - destruct (LoadRenderModel_Async VRRenderModels (trace σ) name)
      as [result raw] eqn:Hreply.
    destruct (after_Loading result) eqn:Hafter.
    + by rewrite (FindOrLoadRenderModel_refused name σ result raw Hfind Hreply Hafter).
    + rewrite (FindOrLoadRenderModel_created name σ result raw Hfind Hreply Hafter).
      intros i. simpl. rewrite elem_of_app, list_elem_of_singleton.
      intros [Hi | ->].
      * destruct (Hwf i Hi) as [m Hm].
        rewrite lookup_insert_ne; [eauto |].
        intros <-. rewrite fresh_not_in_heap in Hm. done.
      * rewrite lookup_insert_eq. eauto.
Qed.

(** C8.  When the name is not cached and the load start is answered with a
    code other than success and Loading, FindOrLoadRenderModel logs an
    error, returns NULL, and leaves the window (its cache and its device
    slots) and the store of models exactly as before: the model it created
    is gone and no entry is registered. *)
Theorem FindOrLoadRenderModel_load_start_fails (name : string) (σ : World D)
    (result : EVRRenderModelError) (raw : option RenderModel_t) :
  find_by_name (heap σ) name (VTKRenderModels (win σ)) = None ->
  LoadRenderModel_Async VRRenderModels (trace σ) name = (result, raw) ->
  result ≠ VRRenderModelError_None ->
  result ≠ VRRenderModelError_Loading ->
  findOrLoad name σ
  = (None, {| win := win σ; heap := heap σ;
              trace := trace σ ++ [LoadRenderModel_Async_call name;
                                   vtkError (Unable_to_load_render_model name)] |}).
Proof.
  intros Hfind Hreply H0 H1.
  apply (FindOrLoadRenderModel_refused name σ result raw Hfind Hreply).
  by apply after_Loading_error.
Qed.

(** C2 (as the code has it).  When a call for a name returns a model, a
    second call for the same name up to case returns the same model and
    changes nothing, so it issues no load request; the first call issued one
    request if it created the entry and none if the entry was there. *)
Theorem FindOrLoadRenderModel_twice (name name' : string) (σ σ1 : World D)
    (p : nat) :
  cache_wf σ ->
  stricmp name name' = 0%Z ->
  findOrLoad name σ = (Some p, σ1) ->
  findOrLoad name' σ1 = (Some p, σ1)
  ∧ trace σ1
    = trace σ ++ match find_by_name (heap σ) name (VTKRenderModels (win σ)) with
                 | Some _ => []
                 | None => [LoadRenderModel_Async_call name]
                 end.
Proof.
  intros Hwf Hsame Hfirst.
  destruct (find_by_name (heap σ) name (VTKRenderModels (win σ))) as [q |] eqn:Hfind.
  - rewrite (FindOrLoadRenderModel_found name σ q Hfind) in Hfirst.
    injection Hfirst as -> ->. split; [| by rewrite app_nil_r].
    apply FindOrLoadRenderModel_found.
    by rewrite <- (find_by_name_same _ name name' _ Hsame).
  - destruct (LoadRenderModel_Async VRRenderModels (trace σ) name)
      as [result raw] eqn:Hreply.
    destruct (after_Loading result) eqn:Hafter.
    + rewrite (FindOrLoadRenderModel_refused name σ result raw Hfind Hreply Hafter)
        in Hfirst. done.
    + rewrite (FindOrLoadRenderModel_created name σ result raw Hfind Hreply Hafter)
        in Hfirst.
      injection Hfirst as <- <-. split; [| done].
      apply FindOrLoadRenderModel_found. simpl.
      rewrite find_by_name_app.
      rewrite (find_by_name_ext (heap σ)).
      * rewrite <- (find_by_name_same _ name name' _ Hsame), Hfind. simpl.
        rewrite lookup_insert_eq. simpl.
        unfold GetName. simpl. rewrite Hsame. done.
      * intros i Hi. destruct (Hwf i Hi) as [m Hm].
        apply lookup_insert_ne. intros <-.
        rewrite fresh_not_in_heap in Hm. done.
Qed.

End CacheProperties.

(** C8, at a run: the runtime refuses the controller model. *)
Lemma FindOrLoadRenderModel_load_start_fails_witness :
  FindOrLoadRenderModel runtime_refusing false "vr_controller" world_in_session
  = (None,
     {| win := win world_in_session; heap := heap world_in_session;
        trace := [LoadRenderModel_Async_call "vr_controller";
                  vtkError (Unable_to_load_render_model "vr_controller")] |}).
Proof.
  apply (FindOrLoadRenderModel_load_start_fails runtime_refusing false
           "vr_controller" world_in_session VRRenderModelError_InvalidArg None).
  - reflexivity.
  - reflexivity.
  - discriminate.
  - discriminate.
Defined.

(** C2, at a run: the controller model asked for twice, in two spellings. *)
Lemma FindOrLoadRenderModel_twice_witness :
  let σ1 := (FindOrLoadRenderModel runtime_loading false "vr_controller"
               world_in_session).2 in
  FindOrLoadRenderModel runtime_loading false "VR_Controller" σ1 = (Some 0%nat, σ1)
  ∧ trace σ1 = [LoadRenderModel_Async_call "vr_controller"].
Proof.
  assert (Hwf : cache_wf world_in_session).
  { intros p Hp. simpl in Hp. by apply elem_of_nil in Hp. }
  exact (FindOrLoadRenderModel_twice runtime_loading false "vr_controller"
           "VR_Controller" world_in_session _ 0%nat Hwf eq_refl eq_refl).
Defined.

(** C2 as stated fails: when the runtime refuses the load start, nothing is
    cached, both calls return NULL and each of them issues a load request. *)
Lemma FindOrLoadRenderModel_refused_twice :
  let run1 := FindOrLoadRenderModel runtime_refusing false "vr_controller"
                world_in_session in
  let run2 := FindOrLoadRenderModel runtime_refusing false "vr_controller"
                run1.2 in
  run1.1 = None ∧ run2.1 = None
  ∧ load_requests (trace world_in_session) = 0%nat
  ∧ load_requests (trace run2.2) = 2%nat.
Proof. vm_compute. repeat split. Qed.

(** ** vtkOpenVRRenderWindow::RenderModels *)

Section RenderModelsProperties.

Context {D : Type} {SD : Scalar D}.
Variable VRRenderModels : IVRRenderModels D.
Variable AddAttributeArray : list (Event D) -> string -> bool.
Variable k_unMaxTrackedDeviceCount : nat.
Variable indeterminate_Show : bool.

Local Abbreviation render := (Render VRRenderModels AddAttributeArray).
Local Abbreviation findOrLoad :=
  (FindOrLoadRenderModel VRRenderModels indeterminate_Show).
Local Abbreviation renderDevice :=
  (RenderModels_device VRRenderModels AddAttributeArray indeterminate_Show).
Local Abbreviation renderModels :=
  (RenderModels VRRenderModels AddAttributeArray k_unMaxTrackedDeviceCount
     indeterminate_Show).

Lemma render_calls_app (h1 h2 : list (Event D)) :
  render_calls (h1 ++ h2) = render_calls h1 ++ render_calls h2.
Proof. apply omap_app. Qed.

Ltac no_calls :=
  repeat (rewrite render_calls_app; simpl); rewrite ?app_nil_r; try reflexivity.

(** The methods of a model make no such call themselves. *)
Lemma Build_render_calls (raw : RenderModel_t) (tex : RenderModel_TextureMap_t)
    (hist : list (Event D)) (this : vtkOpenVRModel D) :
  render_calls (Build AddAttributeArray raw tex hist this).2 = render_calls hist.
Proof.
  unfold Build. simpl.
  repeat match goal with
         | |- context [if ?b then _ else _] => destruct b
         end; no_calls.
Qed.

Lemma Render_geometry_render_calls (hist : list (Event D))
    (this : vtkOpenVRModel D) :
  render_calls (Render_geometry VRRenderModels hist this).1.2 = render_calls hist.
Proof.
  unfold Render_geometry. destruct (RawModel this); [done |].
  destruct (LoadRenderModel_Async _ _ _) as [result raw].
  destruct (after_Loading result); simpl; [| no_calls].
  destruct (bool_decide _); no_calls.
Qed.

Lemma Render_texture_render_calls (hist : list (Event D))
    (this : vtkOpenVRModel D) :
  render_calls (Render_texture VRRenderModels AddAttributeArray hist this).2
  = render_calls hist.
Proof.
  unfold Render_texture. destruct (RawModel this) as [raw |]; [| done].
  destruct (RawTexture this); [done |].
  destruct (LoadTexture_Async _ _ _) as [result [tex |]].
  - match goal with
    | |- context [Build _ _ _ ?h ?t] =>
        pose proof (Build_render_calls raw tex h t) as HB;
        destruct (Build AddAttributeArray raw tex h t) as [[built this'] hist']
    end.
    simpl in *. destruct built; simpl; no_calls; rewrite HB;
      destruct (after_Loading result); no_calls.
  - simpl. destruct (after_Loading result); no_calls.
Qed.

Lemma Render_draw_render_calls (Renderers : list (vtkRenderer D))
    (pose : TrackedDevicePose_t D) (hist : list (Event D))
    (this : vtkOpenVRModel D) :
  render_calls (Render_draw Renderers pose hist this).2 = render_calls hist.
Proof.
  unfold Render_draw. destruct (Loaded this); [| done].
  destruct (Renderers !! 0%nat); simpl; no_calls.
Qed.

Lemma Render_render_calls (Renderers : list (vtkRenderer D))
    (pose : TrackedDevicePose_t D) (hist : list (Event D))
    (this : vtkOpenVRModel D) :
  render_calls (render Renderers pose hist this).2 = render_calls hist.
Proof.
  unfold Render. destruct (FailedToLoad this); [done |].
  pose proof (Render_geometry_render_calls hist this) as Hg.
  destruct (Render_geometry VRRenderModels hist this) as [[this1 hist1] returned].
  simpl in Hg. destruct returned; [done |].
  pose proof (Render_texture_render_calls hist1 this1) as Ht.
  destruct (Render_texture VRRenderModels AddAttributeArray hist1 this1)
    as [this2 hist2].
  simpl in Ht. rewrite Render_draw_render_calls. congruence.
Qed.

Lemma keeps_refl (σ : World D) : keeps σ σ.
Proof. unfold keeps. eauto. Qed.

Lemma keeps_trans (σ1 σ2 σ3 : World D) :
  keeps σ1 σ2 -> keeps σ2 σ3 -> keeps σ1 σ3.
Proof.
  intros (Hs1 & Hh1 & Hp1) (Hs2 & Hh2 & Hp2). repeat split.
  - eauto.
  - intros p m Hm. destruct (Hh1 p m Hm) as (m' & Hm' & Hshow).
    destruct (Hh2 p m' Hm') as (m'' & Hm'' & Hshow').
    exists m''. split; [done | congruence].
  - congruence.
Qed.

Lemma rendered_slot_ok_keeps (hmd : IVRSystem) (σ1 σ2 : World D) (u p : nat) :
  keeps σ1 σ2 ->
  rendered_slot_ok k_unMaxTrackedDeviceCount hmd σ1 u p ->
  rendered_slot_ok k_unMaxTrackedDeviceCount hmd σ2 u p.
Proof.
  intros (Hs & Hh & Hp) (Hu & Hc & Hslot & (m & Hm & Hshow) & Hpose & Hcap).
  repeat split; try tauto.
  - eauto.
  - destruct (Hh p m Hm) as (m' & Hm' & Hshow').
    exists m'. split; [done |]. unfold GetShow in *. congruence.
  - by rewrite Hp.
Qed.

(** FindOrLoadRenderModel touches neither the slots nor the poses nor any
    model that is there, and calls no Render. *)
Lemma FindOrLoadRenderModel_effects (name : string) (σ : World D) :
  let σ' := (findOrLoad name σ).2 in
  TrackedDeviceToRenderModel (win σ') = TrackedDeviceToRenderModel (win σ)
  ∧ TrackedDevicePose (win σ') = TrackedDevicePose (win σ)
  ∧ (∀ p m, heap σ !! p = Some m -> heap σ' !! p = Some m)
  ∧ render_calls (trace σ') = render_calls (trace σ).
Proof.
  destruct (find_by_name (heap σ) name (VTKRenderModels (win σ))) as [q |] eqn:Hfind.
  - by rewrite (FindOrLoadRenderModel_found _ _ name σ q Hfind).
  - destruct (LoadRenderModel_Async VRRenderModels (trace σ) name)
      as [result raw] eqn:Hreply.
    destruct (after_Loading result) eqn:Hafter.
    + rewrite (FindOrLoadRenderModel_refused _ _ name σ result raw Hfind Hreply Hafter).
      simpl. repeat split; try done. no_calls.
    + rewrite (FindOrLoadRenderModel_created _ _ name σ result raw Hfind Hreply Hafter).
      simpl. repeat split; try done; [| no_calls].
      intros p m Hm. rewrite lookup_insert_ne; [done |].
      intros <-. rewrite fresh_not_in_heap in Hm. done.
Qed.

(** One round of the loop, when it returns. *)
Lemma RenderModels_device_spec (hmd : IVRSystem) (σ σ' : World D) (u : nat) :
  (k_unTrackedDeviceIndex_Hmd < u < k_unMaxTrackedDeviceCount)%nat ->
  renderDevice hmd (IsInputFocusCapturedByAnotherProcess hmd) σ u = Some σ' ->
  keeps σ σ'
  ∧ ∃ calls, render_calls (trace σ') = render_calls (trace σ) ++ calls
             ∧ ∀ u' p, (u', p) ∈ calls ->
                 rendered_slot_ok k_unMaxTrackedDeviceCount hmd σ' u' p.
Proof.
  intros Hu. unfold RenderModels_device.
  assert (Hnone : ∀ σ0 : World D, keeps σ σ0 ->
            render_calls (trace σ0) = render_calls (trace σ) ->
            Some σ0 = Some σ' ->
            keeps σ σ'
            ∧ ∃ calls, render_calls (trace σ') = render_calls (trace σ) ++ calls
                ∧ ∀ u' p, (u', p) ∈ calls ->
                    rendered_slot_ok k_unMaxTrackedDeviceCount hmd σ' u' p).
  { intros σ0 Hk Hc [= <-]. split; [done |]. exists []. rewrite app_nil_r.
    split; [done |]. intros u' p Hin. by apply elem_of_nil in Hin. }
  destruct (IsTrackedDeviceConnected hmd u) eqn:Hconn; simpl;
    [| apply Hnone; [apply keeps_refl | done]].
  (* the state after the attempt to find or load a model *)
  match goal with
  | |- context [match TrackedDeviceToRenderModel (win ?s) !! u with _ => _ end] =>
      remember s as σa eqn:Hσa
  end.
  assert (Ha : keeps σ σa ∧ render_calls (trace σa) = render_calls (trace σ)).
  { subst σa.
    assert (Hload :
      (∀ q, TrackedDeviceToRenderModel (win σ) !! u ≠ Some (Some q)) ->
      let σ0 :=
        (let '(pRenderModel, σ1) :=
           findOrLoad (GetTrackedDeviceString hmd u Prop_RenderModelName_String) σ in
         match pRenderModel with
         | Some p =>
             set_win (set_TrackedDeviceToRenderModel
                        (<[u := Some p]> (TrackedDeviceToRenderModel (win σ1)))
                        (win σ1)) σ1
         | None => σ1
         end) in
      keeps σ σ0 ∧ render_calls (trace σ0) = render_calls (trace σ)).
    { intros Hfree.
      pose proof (FindOrLoadRenderModel_effects
                    (GetTrackedDeviceString hmd u Prop_RenderModelName_String) σ)
        as (Hs & Hp & Hh & Hc).
      destruct (findOrLoad _ σ) as [[p |] σ1]; simpl in *.
      - split; [| done]. repeat split; simpl.
        + intros u0 p0 H0. rewrite Hs.
          rewrite list_lookup_insert_ne; [done |].
          intros <-. by apply (Hfree p0).
        + intros p0 m Hm. exists m. split; [by apply Hh | done].
        + done.
      - split; [| done]. repeat split.
        + intros u0 p0 H0. by rewrite Hs.
        + intros p0 m Hm. exists m. split; [by apply Hh | done].
        + done. }
    destruct (TrackedDeviceToRenderModel (win σ) !! u) as [[q |] |] eqn:Hslot.
    - split; [apply keeps_refl | done].
    - apply Hload. done.
    - apply Hload. done. }
  clear Hσa. destruct Ha as [Hka Hca].
  destruct (TrackedDeviceToRenderModel (win σa) !! u) as [[p |] |] eqn:Hslot;
    [| by apply Hnone | by apply Hnone].
  destruct (heap σa !! p) as [model |] eqn:Hmodel; [| discriminate].
  destruct (GetShow model) eqn:Hshow; simpl; [| by apply Hnone].
  destruct (TrackedDevicePose (win σa) !! u) as [pose |] eqn:Hpose;
    [| by apply Hnone].
  destruct (bPoseIsValid pose) eqn:Hvalid; simpl; [| by apply Hnone].
  destruct (IsInputFocusCapturedByAnotherProcess hmd
            && bool_decide (GetTrackedDeviceClass hmd u = TrackedDeviceClass_Controller))
    eqn:Hcap; [by apply Hnone |].
  pose proof (Render_name_show VRRenderModels AddAttributeArray (Renderers (win σa))
                pose (trace σa ++ [ModelRender_call u p]) model) as [_ Hsh].
  pose proof (Render_render_calls (Renderers (win σa)) pose
                (trace σa ++ [ModelRender_call u p]) model) as Hrc.
  destruct (render (Renderers (win σa)) pose (trace σa ++ [ModelRender_call u p])
              model) as [model' hist'].
  simpl in *. intros [= <-].
  assert (Hk : keeps σa {| win := win σa; heap := <[p := model']> (heap σa);
                           trace := hist' |}).
  { unfold keeps. simpl. split; [done | split; [| done]].
    intros q m Hm. destruct (decide (q = p)) as [-> | Hne].
    - rewrite lookup_insert_eq. exists model'. split; [done |]. congruence.
    - rewrite lookup_insert_ne by done. eauto. }
  split; [by apply (keeps_trans _ σa) |].
  exists [(u, p)]. split.
  - simpl. rewrite Hrc, render_calls_app, Hca. done.
  - intros u' p' Hin. apply list_elem_of_singleton in Hin.
    injection Hin as -> ->.
    repeat split; simpl; try tauto; try done.
    + exists model'. rewrite lookup_insert_eq. split; [done |].
      unfold GetShow in *. congruence.
    + eauto.
    + intros [Hc1 Hc2]. rewrite Hc1 in Hcap. simpl in Hcap.
      apply bool_decide_eq_false in Hcap. done.
Qed.



(** The loop over a range of slots. *)
Lemma RenderModels_loop_spec (hmd : IVRSystem) (l : list nat) (σ σ' : World D) :
  (∀ u, u ∈ l ->
        (k_unTrackedDeviceIndex_Hmd < u < k_unMaxTrackedDeviceCount)%nat) ->
  RenderModels_loop VRRenderModels AddAttributeArray indeterminate_Show hmd
    (IsInputFocusCapturedByAnotherProcess hmd) σ l = Some σ' ->
  keeps σ σ'
  ∧ ∃ calls, render_calls (trace σ') = render_calls (trace σ) ++ calls
             ∧ ∀ u p, (u, p) ∈ calls ->
                 rendered_slot_ok k_unMaxTrackedDeviceCount hmd σ' u p.
Proof.
  revert σ. induction l as [| u l IH]; intros σ Hl; simpl.
  - intros [= <-]. split; [apply keeps_refl |]. exists []. rewrite app_nil_r.
    split; [done |]. intros u p Hin. by apply elem_of_nil in Hin.
  - destruct (renderDevice hmd (IsInputFocusCapturedByAnotherProcess hmd) σ u)
      as [σ1 |] eqn:Hround; [| discriminate].
    intros Hrest.
    destruct (RenderModels_device_spec hmd σ σ1 u) as (Hk1 & calls1 & Hc1 & Hok1);
      [apply Hl; left | exact Hround |].
    destruct (IH σ1) as (Hk2 & calls2 & Hc2 & Hok2);
      [intros u' Hu'; apply Hl; by right | exact Hrest |].
    split; [by eapply keeps_trans |].
    exists (calls1 ++ calls2). split.
    + rewrite Hc2, Hc1, app_assoc. done.
    + intros u' p Hin. apply elem_of_app in Hin as [Hin | Hin].
      * eapply rendered_slot_ok_keeps; [exact Hk2 | by apply Hok1].
      * by apply Hok2.
Qed.



End RenderModelsProperties.



Example RenderModels_two_controllers :
  (render_calls ∘ trace) <$> RenderModels runtime_done attributes_ok 3 false
                               world_tracking
  = Some [(1, 0); (2, 0)]%nat.
Proof. vm_compute. reflexivity. Qed.


(** ** vtkOpenVRRenderWindow::UpdateHMDMatrixPose *)

Section PoseProperties.

Context {D : Type} {SD : Scalar D}.
Variable k_unMaxTrackedDeviceCount : nat.
Variable VRCompositor : list (Event D) -> option (IVRCompositor D).

Local Abbreviation update :=
  (UpdateHMDMatrixPose k_unMaxTrackedDeviceCount VRCompositor).

Lemma delivered_head_pose (compositor : IVRCompositor D) (hist : list (Event D)) :
  map (WaitGetPoses compositor hist) (seq 0 k_unMaxTrackedDeviceCount)
    !! k_unTrackedDeviceIndex_Hmd
  = if decide (0 < k_unMaxTrackedDeviceCount)%nat
    then Some (WaitGetPoses compositor hist k_unTrackedDeviceIndex_Hmd)
    else None.
Proof.
  destruct k_unMaxTrackedDeviceCount as [| k]; simpl; [done |].
  destruct (decide (0 < S k)%nat); [done | lia].
Qed.

(** C7 (as the code has it).  Without a session the pose update returns at
    once and changes nothing.  With a session whose compositor delivers an
    invalid head pose it changes no renderer and no camera, but it has
    waited for the compositor and stored the poses delivered for all
    devices. *)
Theorem UpdateHMDMatrixPose_skipped (σ : World D) :
  (HMD (win σ) = None -> update σ = Some σ)
  ∧ (∀ hmd compositor,
       HMD (win σ) = Some hmd ->
       VRCompositor (trace σ) = Some compositor ->
       bPoseIsValid (WaitGetPoses compositor (trace σ) k_unTrackedDeviceIndex_Hmd)
       = false ->
       ∃ σ',
         update σ = Some σ'
         ∧ Renderers (win σ') = Renderers (win σ)
         ∧ σ' = {| win := set_TrackedDevicePose
                            (map (WaitGetPoses compositor (trace σ))
                                 (seq 0 k_unMaxTrackedDeviceCount)) (win σ);
                   heap := heap σ;
                   trace := trace σ ++ [WaitGetPoses_call] |}).
Proof.
  split.
  - intros Hhmd. unfold UpdateHMDMatrixPose. by rewrite Hhmd.
  - intros hmd compositor Hhmd Hcomp Hinvalid.
    unfold UpdateHMDMatrixPose. rewrite Hhmd, Hcomp.
    rewrite delivered_head_pose.
    destruct (decide (0 < k_unMaxTrackedDeviceCount)%nat).
    + rewrite Hinvalid. eexists. split; [reflexivity |]. split; reflexivity.
    + eexists. split; [reflexivity |]. split; reflexivity.
Qed.

Section Arithmetic.

Hypothesis D_ring : ring_theory zero one add mul sub opp (@eq D).

Add Ring D_ring_structure : D_ring.

(** The camera placement for a head at rest, with the initial view-up
    (0,1,0) and view direction (0,0,-1). *)
Lemma camera_from_pose_at_rest (tdPose : TrackedDevicePose_t D)
    (cam : vtkOpenVRCamera D) :
  head_at_rest (mDeviceToAbsoluteTracking tdPose) ->
  let cam' := camera_from_pose [zero; one; zero] [zero; zero; opp one] tdPose cam in
  Position cam' = negative_translation cam
  ∧ ViewUp cam' = [zero; one; zero]
  ∧ FocalPoint cam'
    = [opp (elt (Translation cam) 0); opp (elt (Translation cam) 1);
       (opp (elt (Translation cam) 2) - Distance cam)%D].
Proof.
  intros HM. unfold camera_from_pose, negative_translation. rewrite HM. cbn.
  repeat split; repeat (f_equal; try ring).
Qed.

(** C5 (as the code has it).  For a valid head pose with identity rotation
    and zero translation, initial view-up (0,1,0) and initial view direction
    (0,0,-1), the pose update sets every renderer's camera position to the
    negative of that camera's translation offset, whatever the distance, and
    its view-up to (0,1,0). *)
Theorem UpdateHMDMatrixPose_head_at_rest (σ : World D) (hmd : IVRSystem)
    (compositor : IVRCompositor D) :
  HMD (win σ) = Some hmd ->
  VRCompositor (trace σ) = Some compositor ->
  (0 < k_unMaxTrackedDeviceCount)%nat ->
  bPoseIsValid (WaitGetPoses compositor (trace σ) k_unTrackedDeviceIndex_Hmd)
  = true ->
  head_at_rest (mDeviceToAbsoluteTracking
                  (WaitGetPoses compositor (trace σ) k_unTrackedDeviceIndex_Hmd)) ->
  InitialViewUp (win σ) = [zero; one; zero] ->
  InitialViewDirection (win σ) = [zero; zero; opp one] ->
  ∃ σ',
    update σ = Some σ'
    ∧ Forall2 (fun ren ren' =>
                 Position (ActiveCamera ren') = negative_translation (ActiveCamera ren)
                 ∧ ViewUp (ActiveCamera ren') = [zero; one; zero])
        (Renderers (win σ)) (Renderers (win σ')).
Proof.
  intros Hhmd Hcomp Hk Hvalid Hrest Hvup Hdop.
  unfold UpdateHMDMatrixPose. rewrite Hhmd, Hcomp, delivered_head_pose.
  destruct (decide (0 < k_unMaxTrackedDeviceCount)%nat); [| lia].
  rewrite Hvalid. eexists. split; [reflexivity |].
  simpl. rewrite Hvup, Hdop.
  induction (Renderers (win σ)) as [| ren rens IH]; simpl; constructor.
  - by pose proof (camera_from_pose_at_rest _ (ActiveCamera ren) Hrest)
      as (Hp & Hu & _).
  - exact IH.
Qed.

End Arithmetic.

End PoseProperties.

(** C7, at a run: no session; and a session that has lost the head. *)
Lemma UpdateHMDMatrixPose_skipped_witness :
  UpdateHMDMatrixPose 3 (fun _ => Some compositor_head_lost) world_constructed
  = Some world_constructed
  ∧ ∃ σ',
      UpdateHMDMatrixPose 3 (fun _ => Some compositor_head_lost) world_in_session
      = Some σ'
      ∧ Renderers (win σ') = Renderers (win world_in_session)
      ∧ σ' = {| win := set_TrackedDevicePose
                         [pose_invalid; pose_translated; pose_translated]
                         (win world_in_session);
                heap := ∅; trace := [WaitGetPoses_call] |}.
Proof.
  split.
  - exact (proj1 (UpdateHMDMatrixPose_skipped 3
                    (fun _ => Some compositor_head_lost) world_constructed)
             eq_refl).
  - exact (proj2 (UpdateHMDMatrixPose_skipped 3
                    (fun _ => Some compositor_head_lost) world_in_session)
             hmd_example compositor_head_lost eq_refl eq_refl eq_refl).
Defined.

(** C7 as stated fails: with a session and a head pose that is invalid
    before and after, the update still replaces the stored poses of the other
    devices and waits for the compositor. *)
Lemma UpdateHMDMatrixPose_invalid_head_refreshes_poses :
  ∃ σ',
    UpdateHMDMatrixPose 3 (fun _ => Some compositor_head_lost) world_in_session
    = Some σ'
    ∧ bPoseIsValid <$> TrackedDevicePose (win world_in_session) !! 0%nat = Some false
    ∧ bPoseIsValid <$> TrackedDevicePose (win σ') !! 0%nat = Some false
    ∧ Renderers (win σ') = Renderers (win world_in_session)
    ∧ TrackedDevicePose (win world_in_session) !! 1%nat = Some pose_invalid
    ∧ TrackedDevicePose (win σ') !! 1%nat = Some pose_translated
    ∧ trace σ' = trace world_in_session ++ [WaitGetPoses_call]
    ∧ σ' ≠ world_in_session.
Proof.
  eexists. split; [reflexivity |]. repeat split. discriminate.
Qed.

(** C5, at a run: exact integer-valued doubles, a head at rest. *)
Lemma UpdateHMDMatrixPose_head_at_rest_witness :
  ∃ σ',
    UpdateHMDMatrixPose 3 (fun _ => Some compositor_example) world_in_session
    = Some σ'
    ∧ Forall2 (fun ren ren' =>
                 Position (ActiveCamera ren') = negative_translation (ActiveCamera ren)
                 ∧ ViewUp (ActiveCamera ren') = [zero; one; zero])
        (Renderers (win world_in_session)) (Renderers (win σ')).
Proof.
  assert (H3 : (0 < 3)%nat) by lia.
  exact (UpdateHMDMatrixPose_head_at_rest 3 (fun _ => Some compositor_example)
           Zth world_in_session hmd_example compositor_example
           eq_refl eq_refl H3 eq_refl eq_refl eq_refl eq_refl).
Defined.

(** C5 as stated fails: at distance 2 with translation offset (1,2,3) the
    camera is placed at (-1,-2,-3), not at the offset scaled by the distance,
    (-2,-4,-6). *)
Lemma UpdateHMDMatrixPose_position_not_scaled :
  ∃ σ',
    UpdateHMDMatrixPose 3 (fun _ => Some compositor_example) world_in_session
    = Some σ'
    ∧ head_at_rest (mDeviceToAbsoluteTracking
                      (WaitGetPoses compositor_example [] 0%nat))
    ∧ (Position ∘ ActiveCamera) <$> Renderers (win σ') = [[-1; -2; -3]%Z]
    ∧ (ViewUp ∘ ActiveCamera) <$> Renderers (win σ') = [[0; 1; 0]%Z]
    ∧ (negative_translation_scaled ∘ ActiveCamera)
        <$> Renderers (win world_in_session) = [[-2; -4; -6]%Z].
Proof.
  eexists. split; [reflexivity |]. repeat split.
Qed.

(** ** Framebuffers and vtkOpenVRRenderWindow::Initialize *)

Section InitializeProperties.

Context {D : Type}.
Variable VRCompositor : list (Event D) -> option (IVRCompositor D).
Variable platform : Platform D.

Lemma gl_replay_app (h e : list (Event D)) :
  gl_replay (h ++ e) = foldl gl_event (gl_replay h) e.
Proof. apply foldl_app. Qed.


(** CreateFrameBuffer answers whether the framebuffer bound at the end, the
    resolve framebuffer, is complete; only then does it unbind it. *)
Lemma CreateFrameBuffer_reports_status (ms w h : Z) (desc0 : FramebufferDesc)
    (hist : list (Event D)) :
  ∃ checked : list (Event D),
    (CreateFrameBuffer platform ms w h desc0 hist).1.1
    = bool_decide (glCheckFramebufferStatus_GL_FRAMEBUFFER platform checked
                   = GL_FRAMEBUFFER_COMPLETE)
    ∧ (CreateFrameBuffer platform ms w h desc0 hist).2
      = checked ++ GL glCheckFramebufferStatus
                :: (if (CreateFrameBuffer platform ms w h desc0 hist).1.1
                    then [GL (glBindFramebuffer 0)] else []).
Proof.
  unfold CreateFrameBuffer. cbv zeta.
  match goal with
  | |- context [glCheckFramebufferStatus_GL_FRAMEBUFFER platform ?c] =>
      exists c;
      destruct (Z.eqb_spec (glCheckFramebufferStatus_GL_FRAMEBUFFER platform c)
                  GL_FRAMEBUFFER_COMPLETE) as [Heq | Hne]; simpl
  end.
  - rewrite bool_decide_eq_true_2 by done. rewrite <- app_assoc. done.
  - rewrite bool_decide_eq_false_2 by done. done.
Qed.


(** The first two steps of Initialize: each failure returns at once. *)
Lemma Initialize_SDL_failure (σ : World D) :
  (SDL_Init platform (trace σ) < 0)%Z ->
  Initialize VRCompositor platform σ
  = (Initialize_returned,
     {| win := win σ; heap := heap σ;
        trace := trace σ ++ [SDL_Init_call; vtkError SDL_could_not_initialize] |}).
Proof.
  intros Hrc. unfold Initialize. cbv zeta.
  destruct (Z.ltb_spec (SDL_Init platform (trace σ)) 0); [| lia].
  by rewrite <- app_assoc.
Qed.

Lemma Initialize_runtime_unavailable (σ : World D) (eError : Z)
    (pHMD : option IVRSystem) :
  (0 <= SDL_Init platform (trace σ))%Z ->
  VR_Init platform (trace σ ++ [SDL_Init_call]) = (eError, pHMD) ->
  eError ≠ VRInitError_None ->
  Initialize VRCompositor platform σ
  = (Initialize_returned,
     {| win := set_HMD None (win σ); heap := heap σ;
        trace := trace σ ++ [SDL_Init_call; VR_Init_call;
                             SDL_ShowSimpleMessageBox_call] |}).
Proof.
  intros Hrc Hinit Herr. unfold Initialize. cbv zeta.
  destruct (Z.ltb_spec (SDL_Init platform (trace σ)) 0); [lia |].
  rewrite Hinit.
  destruct (Z.eqb_spec eError VRInitError_None); [done |].
  cbn [negb]. by rewrite <- !app_assoc.
Qed.




End InitializeProperties.



(** C4, on the code: with a driver that reports both framebuffers
    incomplete, CreateFrameBuffer returns false, but Initialize does not look
    at the result: it goes on to the second framebuffer, the compositor
    check and the overlay, and runs to its end. *)
Lemma Initialize_ignores_incomplete_framebuffer :
  let run := Initialize (fun _ => Some compositor_example) platform_incomplete
               world_constructed in
  (CreateFrameBuffer platform_incomplete 8 1512 1680 desc_zero []).1.1 = false
  ∧ run.1 = Initialize_completed
  ∧ last (trace run.2) = Some DashboardOverlay_Create_call
  ∧ length (List.filter (fun e => match e with
                                  | GL glCheckFramebufferStatus => true
                                  | _ => false
                                  end) (trace run.2)) = 2%nat
  ∧ List.filter (fun e => match e with vtkError _ => true | _ => false end)
      (trace run.2) = [].
Proof. vm_compute. repeat split. Qed.

(** * Further properties *)

(** ** The life of a model *)

Section FurtherRender.

Context {D : Type} {SD : Scalar D}.
Variable VRRenderModels : IVRRenderModels D.
Variable AddAttributeArray : list (Event D) -> string -> bool.

Local Abbreviation render := (Render VRRenderModels AddAttributeArray).
Local Abbreviation renderMany := (Render_many VRRenderModels AddAttributeArray).

Lemma Render_many_snoc (Renderers : list (vtkRenderer D))
    (poses : list (TrackedDevicePose_t D)) (pose : TrackedDevicePose_t D)
    (start : vtkOpenVRModel D * list (Event D)) :
  renderMany Renderers (poses ++ [pose]) start
  = render Renderers pose (renderMany Renderers poses start).2
      (renderMany Renderers poses start).1.
Proof. unfold Render_many. by rewrite foldl_app. Qed.

(** X1.  However often a new model is rendered, and whatever the runtime
    answers, the model is in one of four states: failed, waiting for its
    geometry, waiting for its texture with the geometry at hand, or built
    with both at hand. *)
Theorem Render_many_load_states (Renderers : list (vtkRenderer D))
    (poses : list (TrackedDevicePose_t D)) (show : bool) (name : string)
    (hist : list (Event D)) :
  let this :=
    (renderMany Renderers poses (SetName name (vtkOpenVRModel_New show), hist)).1 in
  Failed this ∨ LoadingGeometry this ∨ LoadingTexture this ∨ Ready this.
Proof.
  induction poses as [| pose poses IH] using rev_ind; simpl.
  - right; left. repeat split.
  - rewrite Render_many_snoc. by apply Render_load_states.
Qed.

(** X2.  Rendering never renames a model and never changes its Show flag,
    however often it is called. *)
Theorem Render_many_name_show (Renderers : list (vtkRenderer D))
    (poses : list (TrackedDevicePose_t D)) (this : vtkOpenVRModel D)
    (hist : list (Event D)) :
  GetName (renderMany Renderers poses (this, hist)).1 = GetName this
  ∧ GetShow (renderMany Renderers poses (this, hist)).1 = GetShow this.
Proof.
  induction poses as [| pose poses IH] using rev_ind; [done |].
  rewrite Render_many_snoc.
  destruct (Render_name_show VRRenderModels AddAttributeArray Renderers pose
              (renderMany Renderers poses (this, hist)).2
              (renderMany Renderers poses (this, hist)).1) as [Hn Hs].
  unfold GetName, GetShow in *. destruct IH. split; congruence.
Qed.

(** Each part of Render only appends events, and only model events. *)
Lemma Build_emits (raw : RenderModel_t) (tex : RenderModel_TextureMap_t)
    (hist : list (Event D)) (this : vtkOpenVRModel D) :
  (Build AddAttributeArray raw tex hist this).1.1 = true
  ∧ ∃ evs, (Build AddAttributeArray raw tex hist this).2 = hist ++ evs
           ∧ forallb model_event evs = true.
Proof.
  unfold Build. cbv zeta. split; [done |].
  destruct (negb (AddAttributeArray _ "position"));
    destruct (negb (AddAttributeArray _ "v2TexCoordsIn"));
    cbn [snd]; rewrite <- ?app_assoc; eexists; (split; [reflexivity | done]).
Qed.

Lemma Render_geometry_emits (hist : list (Event D)) (this : vtkOpenVRModel D) :
  ∃ evs, (Render_geometry VRRenderModels hist this).1.2 = hist ++ evs
         ∧ forallb model_event evs = true.
Proof.
  unfold Render_geometry. destruct (RawModel this).
  { exists []. by rewrite app_nil_r. }
  destruct (LoadRenderModel_Async _ _ _) as [result raw].
  destruct (after_Loading result); [destruct (bool_decide _) |];
    cbn [fst snd]; rewrite <- ?app_assoc; eexists; (split; [reflexivity | done]).
Qed.

Lemma Render_texture_emits (hist : list (Event D)) (this : vtkOpenVRModel D) :
  ∃ evs, (Render_texture VRRenderModels AddAttributeArray hist this).2 = hist ++ evs
         ∧ forallb model_event evs = true.
Proof.
  unfold Render_texture.
  destruct (RawModel this) as [raw |]; [| exists []; by rewrite app_nil_r].
  destruct (RawTexture this); [exists []; by rewrite app_nil_r |].
  destruct (LoadTexture_Async _ _ _) as [result [tex |]].
  - match goal with
    | |- context [Build _ _ _ ?h ?t] =>
        destruct (Build_emits raw tex h t) as (Hb & evs & He & Hm);
        destruct (Build AddAttributeArray raw tex h t) as [[built this'] hist']
    end.
    simpl in Hb, He. subst built hist'. cbn [negb fst snd].
    destruct (after_Loading result); rewrite <- ?app_assoc;
      eexists; (split; [reflexivity |]);
      rewrite ?forallb_app, Hm; done.
  - destruct (after_Loading result); cbn [snd]; rewrite <- ?app_assoc;
      eexists; (split; [reflexivity | done]).
Qed.

Lemma Render_draw_emits (Renderers : list (vtkRenderer D))
    (pose : TrackedDevicePose_t D) (hist : list (Event D))
    (this : vtkOpenVRModel D) :
  ∃ evs, (Render_draw Renderers pose hist this).2 = hist ++ evs
         ∧ forallb model_event evs = true.
Proof.
  unfold Render_draw.
  destruct (Loaded this); [| exists []; by rewrite app_nil_r].
  destruct (Renderers !! 0%nat); cbn [snd]; rewrite <- ?app_assoc;
    eexists; (split; [reflexivity | done]).
Qed.

(** X3.  Render only appends to the events, and what it appends are
    requests to the render-model interface, calls on the model's own GPU
    objects and four error texts.  In particular it never reports that the GL
    model could not be created (Build always answers true), and it never
    calls SDL, never allocates a framebuffer and never ends the session. *)
Theorem Render_emits_model_events (Renderers : list (vtkRenderer D))
    (pose : TrackedDevicePose_t D) (hist : list (Event D))
    (this : vtkOpenVRModel D) :
  ∃ evs, (render Renderers pose hist this).2 = hist ++ evs
         ∧ forallb model_event evs = true.
Proof.
  unfold Render.
  destruct (FailedToLoad this); [exists []; by rewrite app_nil_r |].
  destruct (Render_geometry_emits hist this) as (e1 & H1 & M1).
  destruct (Render_geometry VRRenderModels hist this) as [[this1 hist1] returned].
  simpl in H1. subst hist1.
  destruct returned; [by exists e1 |].
  destruct (Render_texture_emits (hist ++ e1) this1) as (e2 & H2 & M2).
  destruct (Render_texture VRRenderModels AddAttributeArray (hist ++ e1) this1)
    as [this2 hist2].
  simpl in H2. subst hist2.
  destruct (Render_draw_emits Renderers pose ((hist ++ e1) ++ e2) this2)
    as (e3 & H3 & M3).
  exists (e1 ++ e2 ++ e3). split.
  - rewrite H3, <- !app_assoc. done.
  - rewrite !forallb_app, M1, M2, M3. done.
Qed.

Lemma runtime_requests_app (h1 h2 : list (Event D)) :
  runtime_requests (h1 ++ h2) = runtime_requests h1 ++ runtime_requests h2.
Proof. apply List.filter_app. Qed.

Lemma draw_calls_app (h1 h2 : list (Event D)) :
  draw_calls (h1 ++ h2) = draw_calls h1 ++ draw_calls h2.
Proof. apply omap_app. Qed.

Lemma build_calls_app (h1 h2 : list (Event D)) :
  build_calls (h1 ++ h2) = build_calls h1 ++ build_calls h2.
Proof. apply List.filter_app. Qed.


(** X5.  A Ready model stays Ready: a render call makes no request to the
    runtime, creates no GPU object again, and issues exactly one draw, with
    the model's index count converted to GLsizei (the low 32 bits read as a
    signed number, so a count from 2^31 on is passed as a negative one). *)
Theorem Render_ready_is_quiet (Renderers : list (vtkRenderer D))
    (pose : TrackedDevicePose_t D) (hist : list (Event D))
    (this : vtkOpenVRModel D) :
  Ready this ->
  Ready (render Renderers pose hist this).1
  ∧ runtime_requests (render Renderers pose hist this).2 = runtime_requests hist
  ∧ build_calls (render Renderers pose hist this).2 = build_calls hist
  ∧ draw_calls (render Renderers pose hist this).2
    = draw_calls hist ++ [to_GLsizei (IndexCount this)].
Proof.
  intros (Hf & [raw Hraw] & [tex Htex] & Hl).
  unfold Render, Render_geometry, Render_texture, Render_draw.
  rewrite Hf, Hraw. cbn [fst snd]. rewrite Hraw, Htex, Hl.
  destruct (Renderers !! 0%nat);
    cbn -[Multiply4x4 pose_elems runtime_requests draw_calls build_calls];
    rewrite <- ?app_assoc;
    rewrite runtime_requests_app, draw_calls_app, build_calls_app;
    cbn -[Multiply4x4 pose_elems]; rewrite ?app_nil_r;
    (split; [repeat split; eauto | done]).
Qed.

(** X6.  While the texture is still loading (a result not after Loading and
    no texture handed out), a render call asks for it once, logs nothing,
    draws nothing and leaves the model as it is. *)
Theorem Render_texture_pending (Renderers : list (vtkRenderer D))
    (pose : TrackedDevicePose_t D) (hist : list (Event D))
    (this : vtkOpenVRModel D) (raw : RenderModel_t)
    (result : EVRRenderModelError) :
  LoadingTexture this ->
  RawModel this = Some raw ->
  LoadTexture_Async VRRenderModels hist (diffuseTextureId raw) = (result, None) ->
  after_Loading result = false ->
  render Renderers pose hist this
  = (this, hist ++ [LoadTexture_Async_call (diffuseTextureId raw)]).
Proof.
  intros (Hf & _ & Htex & Hl) Hraw Hreply Hafter.
  unfold Render, Render_geometry, Render_texture, Render_draw.
  rewrite Hf, Hraw. cbn [fst snd]. rewrite Hraw, Htex, Hreply, Hafter.
  cbn. rewrite Hl.
  destruct this; simpl in *; subst; reflexivity.
Qed.

(** X7.  When the geometry arrives, the same call goes on to ask for the
    texture named by the geometry; if that is still loading the model now
    waits for its texture, holding the geometry. *)
Theorem Render_geometry_arrives (Renderers : list (vtkRenderer D))
    (pose : TrackedDevicePose_t D) (hist : list (Event D))
    (this : vtkOpenVRModel D) (raw : RenderModel_t)
    (result result' : EVRRenderModelError) :
  LoadingGeometry this ->
  LoadRenderModel_Async VRRenderModels hist (GetName this) = (result, Some raw) ->
  after_Loading result = false ->
  LoadTexture_Async VRRenderModels
    (hist ++ [LoadRenderModel_Async_call (GetName this)]) (diffuseTextureId raw)
  = (result', None) ->
  after_Loading result' = false ->
  render Renderers pose hist this
  = (set_RawModel (Some raw) this,
     hist ++ [LoadRenderModel_Async_call (GetName this);
              LoadTexture_Async_call (diffuseTextureId raw)])
  ∧ LoadingTexture (set_RawModel (Some raw) this).
Proof.
  intros (Hf & Hraw & Htex & Hl) Hreply Hafter Hreply' Hafter'.
  unfold Render, Render_geometry, Render_texture, Render_draw.
  rewrite Hf, Hraw, Hreply, Hafter. cbn [fst snd RawModel set_RawModel RawTexture].
  rewrite Htex. unfold GetName in *. cbn [ModelName set_RawModel].
  rewrite Hreply', Hafter'. cbn. rewrite Hl, <- app_assoc.
  split; [destruct this; simpl in *; subst; reflexivity |].
  repeat split; eauto.
Qed.

End FurtherRender.


Lemma Render_ready_is_quiet_witness :
  Ready (Render runtime_refusing attributes_ok [] pose_translated [] model_ready).1
  ∧ runtime_requests (Render runtime_refusing attributes_ok [] pose_translated []
                        model_ready).2 = []
  ∧ build_calls (Render runtime_refusing attributes_ok [] pose_translated []
                   model_ready).2 = []
  ∧ draw_calls (Render runtime_refusing attributes_ok [] pose_translated []
                  model_ready).2 = [6%Z].
Proof.
  assert (Hready : Ready model_ready) by (repeat split; eexists; reflexivity).
  exact (Render_ready_is_quiet runtime_refusing attributes_ok [] pose_translated []
           model_ready Hready).
Defined.

Lemma Render_texture_pending_witness :
  Render runtime_loading attributes_ok [renderer_example] pose_translated []
    model_with_geometry
  = (model_with_geometry, [LoadTexture_Async_call 7]).
Proof.
  assert (Hphase : LoadingTexture model_with_geometry)
    by (repeat split; eexists; reflexivity).
  exact (Render_texture_pending runtime_loading attributes_ok [renderer_example]
           pose_translated [] model_with_geometry raw_model_example
           VRRenderModelError_Loading Hphase eq_refl eq_refl eq_refl).
Defined.

Lemma Render_geometry_arrives_witness :
  Render runtime_geometry_only attributes_ok [renderer_example] pose_translated []
    model_new
  = (model_with_geometry,
     [LoadRenderModel_Async_call "vr_controller"; LoadTexture_Async_call 7])
  ∧ LoadingTexture model_with_geometry.
Proof.
  assert (Hphase : LoadingGeometry model_new) by (repeat split).
  exact (Render_geometry_arrives runtime_geometry_only attributes_ok
           [renderer_example] pose_translated [] model_new raw_model_example
           VRRenderModelError_None VRRenderModelError_Loading Hphase
           eq_refl eq_refl eq_refl eq_refl).
Defined.

(** ** The cache keeps one model per name *)

Section FurtherCache.

Context {D : Type} {SD : Scalar D}.
Variable VRRenderModels : IVRRenderModels D.
Variable indeterminate_Show : bool.

Local Abbreviation findOrLoad :=
  (FindOrLoadRenderModel VRRenderModels indeterminate_Show).

Lemma model_keys_cons (h : gmap nat (vtkOpenVRModel D)) (i : nat) (l : list nat) :
  model_keys h (i :: l)
  = match h !! i with
    | Some model => lower_key (GetName model) :: model_keys h l
    | None => model_keys h l
    end.
Proof. unfold model_keys. csimpl. by destruct (h !! i). Qed.

Lemma model_keys_app (h : gmap nat (vtkOpenVRModel D)) (l1 l2 : list nat) :
  model_keys h (l1 ++ l2) = model_keys h l1 ++ model_keys h l2.
Proof. apply omap_app. Qed.

(** The search misses exactly when no registered model has the name. *)
Lemma find_by_name_None (h : gmap nat (vtkOpenVRModel D)) (name : string)
    (l : list nat) :
  find_by_name h name l = None <-> lower_key name ∉ model_keys h l.
Proof.
  induction l as [| i l IH].
  - split; [intros _ Hin; by apply elem_of_nil in Hin | done].
  - rewrite model_keys_cons. simpl.
    destruct (h !! i) as [model |]; [| exact IH].
    destruct (stricmp (GetName model) name =? 0)%Z eqn:Hs.
    + apply Z.eqb_eq, stricmp_0_lower_key in Hs. rewrite Hs.
      split; [done |]. intros Hnot. exfalso. apply Hnot. left.
    + rewrite IH. rewrite not_elem_of_cons.
      split; [| tauto]. intros Hnot. split; [| done].
      intros Heq. apply Z.eqb_neq in Hs. apply Hs.
      apply stricmp_0_lower_key. done.
Qed.

Lemma model_keys_ext (h h' : gmap nat (vtkOpenVRModel D)) (l : list nat) :
  (∀ i, i ∈ l -> (GetName <$> h' !! i) = (GetName <$> h !! i)) ->
  model_keys h' l = model_keys h l.
Proof.
  induction l as [| i l IH]; intros Hext; [done |].
  rewrite !model_keys_cons.
  rewrite IH by (intros j Hj; apply Hext; by right).
  pose proof (Hext i ltac:(left)) as Hi.
  destruct (h' !! i), (h !! i); simpl in *; congruence.
Qed.

(** The invariant of the cache, for each way a call can go. *)
Lemma FindOrLoadRenderModel_cache_inv (name : string) (σ : World D) :
  cache_inv σ -> cache_inv (findOrLoad name σ).2.
Proof.
  intros (Hwf & Hnd & Hkeys).
  destruct (find_by_name (heap σ) name (VTKRenderModels (win σ))) as [q |] eqn:Hfind.
  - by rewrite (FindOrLoadRenderModel_found _ _ name σ q Hfind).
  - destruct (LoadRenderModel_Async VRRenderModels (trace σ) name)
      as [result raw] eqn:Hreply.
    destruct (after_Loading result) eqn:Hafter.
    + by rewrite (FindOrLoadRenderModel_refused _ _ name σ result raw Hfind Hreply Hafter).
    + pose proof (FindOrLoadRenderModel_cache_wf VRRenderModels indeterminate_Show
                    name σ Hwf) as Hwf'.
      rewrite (FindOrLoadRenderModel_created _ _ name σ result raw Hfind Hreply Hafter)
        in *.
      assert (Hfresh : fresh (dom (heap σ)) ∉ VTKRenderModels (win σ)).
      { intros Hin. destruct (Hwf _ Hin) as [m Hm].
        rewrite fresh_not_in_heap in Hm. done. }
      split; [exact Hwf' |]. split; simpl.
      * apply NoDup_app. split; [done |]. split; [| apply NoDup_singleton].
        intros i Hi Hi'. apply list_elem_of_singleton in Hi'. by subst.
      * change (NoDup (model_keys
                         (<[fresh (dom (heap σ)) :=
                              SetShow true (set_RawModel raw
                                (SetName name (vtkOpenVRModel_New indeterminate_Show)))]>
                            (heap σ))
                         (VTKRenderModels (win σ) ++ [fresh (dom (heap σ))]))).
        rewrite model_keys_app, model_keys_cons, lookup_insert_eq. simpl.
        rewrite (model_keys_ext (heap σ)).
        -- apply NoDup_app. split; [exact Hkeys |].
           split; [| apply NoDup_singleton].
           intros k Hk Hk'. apply list_elem_of_singleton in Hk'. subst k.
           by apply (find_by_name_None (heap σ) name) in Hfind.
        -- intros i Hi. rewrite lookup_insert_ne; [done |].
           intros <-. done.
Qed.

(** A model that is returned is registered, live, and has the name asked
    for up to case. *)
Lemma FindOrLoadRenderModel_returns (name : string) (σ σ' : World D) (p : nat) :
  findOrLoad name σ = (Some p, σ') ->
  p ∈ VTKRenderModels (win σ')
  ∧ ∃ model, heap σ' !! p = Some model ∧ stricmp (GetName model) name = 0%Z.
Proof.
  destruct (find_by_name (heap σ) name (VTKRenderModels (win σ))) as [q |] eqn:Hfind.
  - rewrite (FindOrLoadRenderModel_found _ _ name σ q Hfind).
    intros [= <- <-]. by apply (find_by_name_Some (heap σ) name).
  - destruct (LoadRenderModel_Async VRRenderModels (trace σ) name)
      as [result raw] eqn:Hreply.
    destruct (after_Loading result) eqn:Hafter.
    + by rewrite (FindOrLoadRenderModel_refused _ _ name σ result raw Hfind Hreply Hafter).
    + rewrite (FindOrLoadRenderModel_created _ _ name σ result raw Hfind Hreply Hafter).
      intros [= <- <-]. simpl. split.
      * apply elem_of_app. right. left.
      * eexists. rewrite lookup_insert_eq. split; [reflexivity |].
        apply stricmp_refl.
Qed.

(** X8.  FindOrLoadRenderModel keeps the cache in order: every registered
    pointer refers to a live model, no pointer is registered twice, and no
    two registered models have the same name up to case. *)
Theorem FindOrLoadRenderModel_one_model_per_name (name : string) (σ : World D) :
  cache_inv σ -> cache_inv (findOrLoad name σ).2.
Proof. apply FindOrLoadRenderModel_cache_inv. Qed.

(** X9.  Whenever FindOrLoadRenderModel returns a model, that model is
    registered in the cache, is live, and its name equals the name asked for
    up to case. *)
Theorem FindOrLoadRenderModel_returns_registered (name : string)
    (σ σ' : World D) (p : nat) :
  findOrLoad name σ = (Some p, σ') ->
  p ∈ VTKRenderModels (win σ')
  ∧ ∃ model, heap σ' !! p = Some model ∧ stricmp (GetName model) name = 0%Z.
Proof. apply FindOrLoadRenderModel_returns. Qed.

(** What a call leaves alone. *)
Lemma FindOrLoadRenderModel_changes (name : string) (σ : World D) :
  let σ' := (findOrLoad name σ).2 in
  win σ' = set_VTKRenderModels (VTKRenderModels (win σ')) (win σ)
  ∧ (VTKRenderModels (win σ') = VTKRenderModels (win σ)
     ∨ ∃ p, (findOrLoad name σ).1 = Some p ∧ heap σ !! p = None
            ∧ VTKRenderModels (win σ') = VTKRenderModels (win σ) ++ [p])
  ∧ (∀ p m, heap σ !! p = Some m -> heap σ' !! p = Some m)
  ∧ (load_requests (trace σ') <= load_requests (trace σ) + 1)%nat.
Proof.
  assert (Heta : ∀ w : vtkOpenVRRenderWindow D,
            w = set_VTKRenderModels (VTKRenderModels w) w) by (by intros []).
  assert (Hreq : ∀ (h e : list (Event D)),
            (length (List.filter is_load_request e) <= 1)%nat ->
            (load_requests (h ++ e) <= load_requests h + 1)%nat).
  { intros h e He. unfold load_requests. rewrite List.filter_app, length_app. lia. }
  destruct (find_by_name (heap σ) name (VTKRenderModels (win σ))) as [q |] eqn:Hfind.
  - rewrite (FindOrLoadRenderModel_found _ _ name σ q Hfind). simpl.
    repeat split; auto; lia.
  - destruct (LoadRenderModel_Async VRRenderModels (trace σ) name)
      as [result raw] eqn:Hreply.
    destruct (after_Loading result) eqn:Hafter.
    + rewrite (FindOrLoadRenderModel_refused _ _ name σ result raw Hfind Hreply Hafter).
      simpl. repeat split; auto; try (apply Hreq; simpl; lia).
    + rewrite (FindOrLoadRenderModel_created _ _ name σ result raw Hfind Hreply Hafter).
      simpl. repeat split.
      * right. eexists. split; [reflexivity |]. split; [| reflexivity].
        apply fresh_not_in_heap.
      * intros p m Hm. rewrite lookup_insert_ne; [done |].
        intros <-. rewrite fresh_not_in_heap in Hm. done.
      * apply Hreq. simpl. lia.
Qed.

(** X10.  A call of FindOrLoadRenderModel changes no member of the window
    other than the cache, which it leaves alone or extends at the end by one
    pointer that was not in use; it leaves every model that exists as it is,
    and it issues at most one load request. *)
Theorem FindOrLoadRenderModel_frame (name : string) (σ : World D) :
  let σ' := (findOrLoad name σ).2 in
  win σ' = set_VTKRenderModels (VTKRenderModels (win σ')) (win σ)
  ∧ (VTKRenderModels (win σ') = VTKRenderModels (win σ)
     ∨ ∃ p, (findOrLoad name σ).1 = Some p ∧ heap σ !! p = None
            ∧ VTKRenderModels (win σ') = VTKRenderModels (win σ) ++ [p])
  ∧ (∀ p m, heap σ !! p = Some m -> heap σ' !! p = Some m)
  ∧ (load_requests (trace σ') <= load_requests (trace σ) + 1)%nat.
Proof. apply FindOrLoadRenderModel_changes. Qed.

End FurtherCache.

Lemma world_in_session_cache_inv : cache_inv world_in_session.
Proof.
  repeat split.
  - intros p Hp. simpl in Hp. by apply elem_of_nil in Hp.
  - apply NoDup_nil_2.
  - apply NoDup_nil_2.
Qed.

Lemma FindOrLoadRenderModel_one_model_per_name_witness :
  cache_inv (FindOrLoadRenderModel runtime_loading false "vr_controller"
               world_in_session).2.
Proof.
  exact (FindOrLoadRenderModel_one_model_per_name runtime_loading false
           "vr_controller" world_in_session world_in_session_cache_inv).
Defined.

Lemma FindOrLoadRenderModel_returns_registered_witness :
  let σ' := (FindOrLoadRenderModel runtime_loading false "vr_controller"
               world_in_session).2 in
  0%nat ∈ VTKRenderModels (win σ')
  ∧ ∃ model, heap σ' !! 0%nat = Some model
             ∧ stricmp (GetName model) "vr_controller" = 0%Z.
Proof.
  exact (FindOrLoadRenderModel_returns_registered runtime_loading false
           "vr_controller" world_in_session _ 0%nat eq_refl).
Defined.

(** ** A frame of RenderModels *)

Section FurtherRenderModels.

Context {D : Type} {SD : Scalar D}.
Variable VRRenderModels : IVRRenderModels D.
Variable AddAttributeArray : list (Event D) -> string -> bool.
Variable k_unMaxTrackedDeviceCount : nat.
Variable indeterminate_Show : bool.

Local Abbreviation render := (Render VRRenderModels AddAttributeArray).
Local Abbreviation findOrLoad :=
  (FindOrLoadRenderModel VRRenderModels indeterminate_Show).
Local Abbreviation renderDevice :=
  (RenderModels_device VRRenderModels AddAttributeArray indeterminate_Show).
Local Abbreviation renderModels :=
  (RenderModels VRRenderModels AddAttributeArray k_unMaxTrackedDeviceCount
     indeterminate_Show).
Local Abbreviation slots := (fun σ : World D => TrackedDeviceToRenderModel (win σ)).

(** The two stages of one round of the loop: perhaps a model is found or
    loaded and assigned to the slot, then perhaps the slot's model is
    rendered; there is no result when the slot's model does not exist. *)
Lemma RenderModels_device_shape (hmd : IVRSystem) (captured : bool)
    (σ : World D) (u : nat) :
  ∃ σ1,
    (σ1 = σ
     ∨ (∀ q, TrackedDeviceToRenderModel (win σ) !! u ≠ Some (Some q))
       ∧ ∃ name,
           match (findOrLoad name σ).1 with
           | Some p =>
               σ1 = set_win
                      (set_TrackedDeviceToRenderModel
                         (<[u := Some p]>
                            (TrackedDeviceToRenderModel (win (findOrLoad name σ).2)))
                         (win (findOrLoad name σ).2))
                      (findOrLoad name σ).2
           | None => σ1 = (findOrLoad name σ).2
           end)
    ∧ (renderDevice hmd captured σ u = Some σ1
       ∨ renderDevice hmd captured σ u = None
       ∨ ∃ p model pose,
           TrackedDeviceToRenderModel (win σ1) !! u = Some (Some p)
           ∧ heap σ1 !! p = Some model
           ∧ renderDevice hmd captured σ u
             = Some {| win := win σ1;
                       heap := <[p := (render (Renderers (win σ1)) pose
                                         (trace σ1 ++ [ModelRender_call u p])
                                         model).1]> (heap σ1);
                       trace := (render (Renderers (win σ1)) pose
                                   (trace σ1 ++ [ModelRender_call u p]) model).2 |}).
Proof.
  unfold RenderModels_device.
  destruct (IsTrackedDeviceConnected hmd u); simpl; [| exists σ; auto].
  match goal with
  | |- context [match TrackedDeviceToRenderModel (win ?s) !! u with _ => _ end] =>
      remember s as σa eqn:Hσa
  end.
  exists σa. split.
  - subst σa.
    destruct (TrackedDeviceToRenderModel (win σ) !! u) as [[q |] |] eqn:Hslot;
      [by left | right | right];
      (split; [intros q; congruence |]);
      exists (GetTrackedDeviceString hmd u Prop_RenderModelName_String);
      destruct (findOrLoad _ σ) as [[p |] σ0]; reflexivity.
  - clear Hσa.
    destruct (TrackedDeviceToRenderModel (win σa) !! u) as [[p |] |] eqn:Hslot;
      [| by left | by left].
    destruct (heap σa !! p) as [model |] eqn:Hmodel; [| by right; left].
    destruct (negb (GetShow model)); [by left |].
    destruct (TrackedDevicePose (win σa) !! u) as [pose |]; [| by left].
    destruct (negb (bPoseIsValid pose)); [by left |].
    destruct (captured && _); [by left |].
    right. right. exists p, model, pose. split; [done |]. split; [done |].
    destruct (render _ _ _ _); reflexivity.
Qed.

Lemma model_keys_insert_same_name (h : gmap nat (vtkOpenVRModel D))
    (l : list nat) (p : nat) (model model' : vtkOpenVRModel D) :
  h !! p = Some model ->
  GetName model' = GetName model ->
  model_keys (<[p := model']> h) l = model_keys h l.
Proof.
  intros Hp Hname. unfold model_keys. apply list_omap_ext.
  apply Forall_Forall2_diag, Forall_forall. intros i _.
  destruct (decide (i = p)) as [-> | Hne].
  - rewrite lookup_insert_eq, Hp. simpl. by rewrite Hname.
  - by rewrite lookup_insert_ne.
Qed.

(** One round keeps the cache in order and the slots within the cache. *)
Lemma RenderModels_device_inv (hmd : IVRSystem) (captured : bool)
    (σ σ' : World D) (u : nat) :
  cache_inv σ ∧ slots_in_cache σ ->
  renderDevice hmd captured σ u = Some σ' ->
  cache_inv σ' ∧ slots_in_cache σ'.
Proof.
  intros [Hinv Hslots].
  destruct (RenderModels_device_shape hmd captured σ u) as (σ1 & H1 & H2).
  assert (Hσ1 : cache_inv σ1 ∧ slots_in_cache σ1).
  { destruct H1 as [-> | (Hfree & name & H1)]; [done |].
    pose proof (FindOrLoadRenderModel_cache_inv VRRenderModels indeterminate_Show
                  name σ Hinv) as Hinv'.
    pose proof (FindOrLoadRenderModel_changes VRRenderModels indeterminate_Show
                  name σ) as (Hwin & Hcache & _ & _).
    pose proof (FindOrLoadRenderModel_returns VRRenderModels indeterminate_Show
                  name σ) as Hret.
    assert (Hsub : ∀ q, q ∈ VTKRenderModels (win σ) ->
                        q ∈ VTKRenderModels (win (findOrLoad name σ).2)).
    { intros q Hq. destruct Hcache as [-> | (p & _ & _ & ->)]; [done |].
      apply elem_of_app. by left. }
    assert (Hsl : TrackedDeviceToRenderModel (win (findOrLoad name σ).2)
                  = TrackedDeviceToRenderModel (win σ)) by (by rewrite Hwin).
    destruct (findOrLoad name σ) as [[p |] σ0] eqn:Hcall; simpl in *; subst σ1.
    - split; [exact Hinv' |].
      intros u' q. simpl. rewrite Hsl. intros Hq.
      destruct (decide (u' = u)) as [-> | Hne].
      + destruct (decide (u < length (TrackedDeviceToRenderModel (win σ)))%nat).
        * rewrite list_lookup_insert_eq in Hq by done. injection Hq as <-.
          by destruct (Hret σ0 p eq_refl).
        * rewrite list_insert_ge in Hq by lia. eauto.
      + rewrite list_lookup_insert_ne in Hq by done. eauto.
    - split; [exact Hinv' |]. intros u' q. rewrite Hsl. eauto. }
  destruct Hσ1 as [(Hwf & Hnd & Hkeys) Hslots1].
  destruct H2 as [-> | [-> | (p & model & pose & Hslot & Hmodel & ->)]];
    [by intros [= <-] | discriminate | intros [= <-]].
  pose proof (Render_name_show VRRenderModels AddAttributeArray
                (Renderers (win σ1)) pose (trace σ1 ++ [ModelRender_call u p])
                model) as [Hname _].
  split; [| exact Hslots1].
  split; [| split; [exact Hnd |]].
  - intros q Hq. simpl. apply lookup_insert_is_Some'. right. by apply Hwf.
  - unfold cache_keys in *. simpl.
    change (NoDup (model_keys (heap σ1) (VTKRenderModels (win σ1)))) in Hkeys.
    match goal with
    | |- NoDup (omap _ ?l) =>
        change (NoDup (model_keys (<[p := (render (Renderers (win σ1)) pose
                                            (trace σ1 ++ [ModelRender_call u p])
                                            model).1]> (heap σ1)) l))
    end.
    by rewrite (model_keys_insert_same_name _ _ p model).
Qed.

(** One round leaves the other slots and the rest of the window alone. *)
Lemma RenderModels_device_rest (hmd : IVRSystem) (captured : bool)
    (σ σ' : World D) (u : nat) :
  renderDevice hmd captured σ u = Some σ' ->
  HMD (win σ') = HMD (win σ)
  ∧ Renderers (win σ') = Renderers (win σ)
  ∧ length (TrackedDeviceToRenderModel (win σ'))
    = length (TrackedDeviceToRenderModel (win σ))
  ∧ ∀ u', u' ≠ u ->
      TrackedDeviceToRenderModel (win σ') !! u'
      = TrackedDeviceToRenderModel (win σ) !! u'.
Proof.
  destruct (RenderModels_device_shape hmd captured σ u) as (σ1 & H1 & H2).
  assert (Hσ1 : HMD (win σ1) = HMD (win σ)
                ∧ Renderers (win σ1) = Renderers (win σ)
                ∧ length (TrackedDeviceToRenderModel (win σ1))
                  = length (TrackedDeviceToRenderModel (win σ))
                ∧ ∀ u', u' ≠ u ->
                    TrackedDeviceToRenderModel (win σ1) !! u'
                    = TrackedDeviceToRenderModel (win σ) !! u').
  { destruct H1 as [-> | (_ & name & H1)]; [done |].
    pose proof (FindOrLoadRenderModel_changes VRRenderModels indeterminate_Show
                  name σ) as (Hwin & _).
    destruct (findOrLoad name σ) as [[p |] σ0]; simpl in *; subst σ1; simpl;
      rewrite Hwin; simpl; repeat split; auto.
    - by rewrite length_insert.
    - intros u' Hne. by rewrite list_lookup_insert_ne. }
  destruct H2 as [-> | [-> | (p & model & pose & _ & _ & ->)]];
    [by intros [= <-] | discriminate | by intros [= <-]].
Qed.

Lemma RenderModels_device_disconnected (hmd : IVRSystem) (captured : bool)
    (σ : World D) (u : nat) :
  IsTrackedDeviceConnected hmd u = false ->
  renderDevice hmd captured σ u = Some σ.
Proof. unfold RenderModels_device. by intros ->. Qed.

(** X11.  A frame of RenderModels keeps the cache in order (live pointers,
    none twice, one model per name up to case) and keeps every assigned
    device slot pointing into the cache. *)
Theorem RenderModels_keeps_cache_in_order (σ σ' : World D) :
  cache_inv σ ->
  slots_in_cache σ ->
  renderModels σ = Some σ' ->
  cache_inv σ' ∧ slots_in_cache σ'.
Proof.
  intros Hinv Hslots. unfold RenderModels.
  destruct (HMD (win σ)) as [hmd |]; [| done].
  match goal with |- context [RenderModels_loop _ _ _ _ _ _ ?l] => generalize l end.
  intros l. revert σ Hinv Hslots.
  induction l as [| u l IH]; intros σ Hinv Hslots; cbn [RenderModels_loop].
  - intros [= <-]. exact (conj Hinv Hslots).
  - destruct (renderDevice hmd (IsInputFocusCapturedByAnotherProcess hmd) σ u)
      as [σ1 |] eqn:Hround; [| discriminate].
    destruct (RenderModels_device_inv hmd (IsInputFocusCapturedByAnotherProcess hmd)
                σ σ1 u (conj Hinv Hslots) Hround) as [Hinv' Hslots'].
    by apply IH.
Qed.

(** The loop over a range of slots leaves the rest alone. *)
Lemma RenderModels_loop_rest (hmd : IVRSystem) (l : list nat) (σ σ' : World D) :
  RenderModels_loop VRRenderModels AddAttributeArray indeterminate_Show hmd
    (IsInputFocusCapturedByAnotherProcess hmd) σ l = Some σ' ->
  HMD (win σ') = HMD (win σ)
  ∧ Renderers (win σ') = Renderers (win σ)
  ∧ length (TrackedDeviceToRenderModel (win σ'))
    = length (TrackedDeviceToRenderModel (win σ))
  ∧ ∀ u, (u ∉ l ∨ IsTrackedDeviceConnected hmd u = false) ->
         TrackedDeviceToRenderModel (win σ') !! u
         = TrackedDeviceToRenderModel (win σ) !! u.
Proof.
  revert σ. induction l as [| v l IH]; intros σ; cbn [RenderModels_loop].
  { intros [= <-]. repeat split; auto. }
  destruct (renderDevice hmd (IsInputFocusCapturedByAnotherProcess hmd) σ v)
    as [σ1 |] eqn:Hround; [| discriminate].
  intros Hrest.
  destruct (RenderModels_device_rest hmd (IsInputFocusCapturedByAnotherProcess hmd)
              σ σ1 v Hround) as (H1 & H2 & H3 & H4).
  destruct (IH σ1 Hrest) as (I1 & I2 & I3 & I4).
  repeat split; try congruence.
  intros u Hu. rewrite I4.
  - destruct (decide (u = v)) as [-> | Hne]; [| by apply H4].
    destruct Hu as [Hu | Hu].
    + exfalso. apply Hu. left.
    + rewrite RenderModels_device_disconnected in Hround by done.
      by injection Hround as <-.
  - destruct Hu as [Hu | Hu]; [left | by right].
    intros Hin. apply Hu. by right.
Qed.

(** X12.  A frame of RenderModels never reassigns or clears an assigned
    slot, never destroys a model or changes its Show flag, and leaves the
    poses, the session and the renderers alone; the slot of the HMD, slots
    beyond the device count and slots of devices that are not connected are
    left exactly as they were. *)
Theorem RenderModels_frame (hmd : IVRSystem) (σ σ' : World D) :
  HMD (win σ) = Some hmd ->
  renderModels σ = Some σ' ->
  keeps σ σ'
  ∧ HMD (win σ') = HMD (win σ)
  ∧ Renderers (win σ') = Renderers (win σ)
  ∧ length (TrackedDeviceToRenderModel (win σ'))
    = length (TrackedDeviceToRenderModel (win σ))
  ∧ ∀ u, (u = k_unTrackedDeviceIndex_Hmd ∨ (k_unMaxTrackedDeviceCount <= u)%nat
          ∨ IsTrackedDeviceConnected hmd u = false) ->
         TrackedDeviceToRenderModel (win σ') !! u
         = TrackedDeviceToRenderModel (win σ) !! u.
Proof.
  intros Hhmd Hrun. unfold RenderModels in Hrun. rewrite Hhmd in Hrun.
  split.
  { refine (proj1 (RenderModels_loop_spec VRRenderModels AddAttributeArray
                     k_unMaxTrackedDeviceCount indeterminate_Show hmd _ σ σ' _ Hrun)).
    intros u Hu. apply elem_of_seq in Hu.
    unfold k_unTrackedDeviceIndex_Hmd in *. lia. }
  destruct (RenderModels_loop_rest hmd _ σ σ' Hrun) as (H1 & H2 & H3 & H4).
  repeat split; try done.
  intros u Hu. apply H4.
  destruct Hu as [-> | [Hu | Hu]]; [left | left | by right];
    intros Hin; apply elem_of_seq in Hin;
    unfold k_unTrackedDeviceIndex_Hmd in *; lia.
Qed.

(** X13.  When no device after the HMD is connected, RenderModels does
    nothing at all. *)
Theorem RenderModels_nothing_connected (hmd : IVRSystem) (σ : World D) :
  HMD (win σ) = Some hmd ->
  (∀ u, (k_unTrackedDeviceIndex_Hmd < u < k_unMaxTrackedDeviceCount)%nat ->
        IsTrackedDeviceConnected hmd u = false) ->
  renderModels σ = Some σ.
Proof.
  intros Hhmd Hnone. unfold RenderModels. rewrite Hhmd.
  assert (Hloop : ∀ l : list nat,
            (∀ v, v ∈ l -> IsTrackedDeviceConnected hmd v = false) ->
            RenderModels_loop VRRenderModels AddAttributeArray indeterminate_Show
              hmd (IsInputFocusCapturedByAnotherProcess hmd) σ l
            = Some σ).
  { induction l as [| v l IH]; intros Hin; [done |]. cbn [RenderModels_loop].
    rewrite RenderModels_device_disconnected by (apply Hin; left).
    apply IH. intros w Hw. apply Hin. by right. }
  apply Hloop. intros v Hv. apply Hnone. apply elem_of_seq in Hv.
  unfold k_unTrackedDeviceIndex_Hmd in *. lia.
Qed.

End FurtherRenderModels.

Lemma world_tracking_in_order : cache_inv world_tracking ∧ slots_in_cache world_tracking.
Proof.
  split; [repeat split |].
  - intros p Hp. simpl in Hp. by apply elem_of_nil in Hp.
  - apply NoDup_nil_2.
  - apply NoDup_nil_2.
  - intros u p Hu. simpl in Hu.
    destruct u as [| [| [| u]]]; simpl in Hu; discriminate.
Qed.

Lemma RenderModels_keeps_cache_in_order_witness :
  cache_inv world_with_models ∧ slots_in_cache world_with_models.
Proof.
  exact (RenderModels_keeps_cache_in_order runtime_done attributes_ok 3 false
           world_tracking world_with_models
           (proj1 world_tracking_in_order) (proj2 world_tracking_in_order)
           eq_refl).
Defined.

Lemma RenderModels_frame_witness :
  keeps world_tracking world_with_models
  ∧ TrackedDeviceToRenderModel (win world_with_models) !! 0%nat = Some None.
Proof.
  destruct (RenderModels_frame runtime_done attributes_ok 3 false hmd_example
              world_tracking world_with_models eq_refl eq_refl)
    as (Hk & _ & _ & _ & Hs).
  split; [exact Hk |].
  exact (Hs 0%nat (or_introl eq_refl)).
Defined.

Lemma RenderModels_nothing_connected_witness :
  RenderModels runtime_done attributes_ok 3 false world_headset_only
  = Some world_headset_only.
Proof.
  exact (RenderModels_nothing_connected runtime_done attributes_ok 3 false
           hmd_alone world_headset_only eq_refl (fun _ _ => eq_refl)).
Defined.

(** ** The pose update *)

Section FurtherPose.

Context {D : Type} {SD : Scalar D}.
Variable k_unMaxTrackedDeviceCount : nat.
Variable VRCompositor : list (Event D) -> option (IVRCompositor D).

Local Abbreviation update :=
  (UpdateHMDMatrixPose k_unMaxTrackedDeviceCount VRCompositor).

(** X14.  A pose update never touches the models, the cache, the device
    slots, the session or the initial axes, and it neither adds nor removes a
    renderer.  Without a session it does nothing at all.  With a session it
    stores exactly one pose per device slot and appends exactly one wait for
    the compositor, followed, when the head pose it has stored is valid, by
    exactly one light update per renderer, in the order of the renderers,
    and by nothing otherwise. *)
Theorem UpdateHMDMatrixPose_frame (σ σ' : World D) :
  update σ = Some σ' ->
  heap σ' = heap σ
  ∧ VTKRenderModels (win σ') = VTKRenderModels (win σ)
  ∧ TrackedDeviceToRenderModel (win σ') = TrackedDeviceToRenderModel (win σ)
  ∧ HMD (win σ') = HMD (win σ)
  ∧ InitialViewUp (win σ') = InitialViewUp (win σ)
  ∧ InitialViewDirection (win σ') = InitialViewDirection (win σ)
  ∧ length (Renderers (win σ')) = length (Renderers (win σ))
  ∧ (HMD (win σ) = None -> σ' = σ)
  ∧ (HMD (win σ) ≠ None ->
     length (TrackedDevicePose (win σ')) = k_unMaxTrackedDeviceCount
     ∧ trace σ'
       = trace σ
         ++ WaitGetPoses_call
            :: match TrackedDevicePose (win σ') !! k_unTrackedDeviceIndex_Hmd with
               | Some tdPose =>
                   if bPoseIsValid tdPose
                   then map UpdateLightsGeometryToFollowCamera_call
                          (seq 0 (length (Renderers (win σ))))
                   else []
               | None => []
               end).
Proof.
  unfold UpdateHMDMatrixPose.
  destruct (HMD (win σ)) as [hmd |] eqn:Hhmd.
  2: { intros [= <-]. by repeat split. }
  destruct (VRCompositor (trace σ)) as [compositor |]; [| discriminate].
  destruct (map (WaitGetPoses compositor (trace σ))
              (seq 0 k_unMaxTrackedDeviceCount) !! k_unTrackedDeviceIndex_Hmd)
    as [tdPose |] eqn:Hhead;
    [destruct (bPoseIsValid tdPose) eqn:Hvalid |]; intros [= <-].
  - destruct (Renderers (win σ)) as [| ren rens] eqn:Hrens;
      cbn [win heap trace VTKRenderModels TrackedDeviceToRenderModel HMD
           InitialViewUp InitialViewDirection Renderers TrackedDevicePose
           set_Renderers set_HMDTransform set_TrackedDevicePose];
      rewrite ?Hrens;
      cbn [win heap trace VTKRenderModels TrackedDeviceToRenderModel HMD
           InitialViewUp InitialViewDirection Renderers TrackedDevicePose
           set_Renderers set_HMDTransform set_TrackedDevicePose];
      rewrite ?Hhead, ?Hvalid, ?length_map, ?length_seq, <- ?app_assoc;
      repeat split; try done.
  - cbn [win heap trace VTKRenderModels TrackedDeviceToRenderModel HMD
         InitialViewUp InitialViewDirection Renderers TrackedDevicePose
         set_TrackedDevicePose].
    rewrite ?Hhead, ?Hvalid, ?length_map, ?length_seq. repeat split; try done.
  - cbn [win heap trace VTKRenderModels TrackedDeviceToRenderModel HMD
         InitialViewUp InitialViewDirection Renderers TrackedDevicePose
         set_TrackedDevicePose].
    rewrite ?Hhead, ?length_map, ?length_seq. repeat split; try done.
Qed.

Section FurtherArithmetic.

Hypothesis D_ring : ring_theory zero one add mul sub opp (@eq D).

Add Ring D_ring_further : D_ring.

(** The camera placement for any head pose, with the initial view-up
    (0,1,0) and view direction (0,0,-1). *)
Lemma camera_from_pose_default_axes (tdPose : TrackedDevicePose_t D)
    (cam : vtkOpenVRCamera D) :
  let M := mDeviceToAbsoluteTracking tdPose in
  let cam' := camera_from_pose [zero; one; zero] [zero; zero; opp one] tdPose cam in
  Position cam' = head_position M cam
  ∧ ViewUp cam' = head_up M
  ∧ FocalPoint cam'
    = map (fun k => (elt (head_position M cam) k
                     + elt (Cross (head_up M) (head_right M)) k * Distance cam)%D)
        (seq 0 3).
Proof.
  unfold camera_from_pose, head_position, head_up, head_right. cbn.
  repeat split; repeat (f_equal; try ring).
Qed.

(** X15.  With the default initial axes, view-up (0,1,0) and view direction
    (0,0,-1), a valid head pose puts every renderer's camera at the head's
    position times that camera's distance, less the camera's translation
    offset; the view-up becomes the second column of the pose, and the focal
    point lies one distance from the position along the cross product of the
    second and the first column. *)
Theorem UpdateHMDMatrixPose_places_cameras (σ : World D) (hmd : IVRSystem)
    (compositor : IVRCompositor D) :
  HMD (win σ) = Some hmd ->
  VRCompositor (trace σ) = Some compositor ->
  (0 < k_unMaxTrackedDeviceCount)%nat ->
  bPoseIsValid (WaitGetPoses compositor (trace σ) k_unTrackedDeviceIndex_Hmd)
  = true ->
  InitialViewUp (win σ) = [zero; one; zero] ->
  InitialViewDirection (win σ) = [zero; zero; opp one] ->
  let M := mDeviceToAbsoluteTracking
             (WaitGetPoses compositor (trace σ) k_unTrackedDeviceIndex_Hmd) in
  ∃ σ',
    update σ = Some σ'
    ∧ Forall2 (fun ren ren' =>
                 let cam := ActiveCamera ren in
                 let cam' := ActiveCamera ren' in
                 Position cam' = head_position M cam
                 ∧ ViewUp cam' = head_up M
                 ∧ FocalPoint cam'
                   = map (fun k =>
                            (elt (head_position M cam) k
                             + elt (Cross (head_up M) (head_right M)) k
                               * Distance cam)%D) (seq 0 3))
        (Renderers (win σ)) (Renderers (win σ')).
Proof.
  intros Hhmd Hcomp Hk Hvalid Hvup Hdop M.
  unfold UpdateHMDMatrixPose. rewrite Hhmd, Hcomp, delivered_head_pose.
  destruct (decide (0 < k_unMaxTrackedDeviceCount)%nat); [| lia].
  rewrite Hvalid. eexists. split; [reflexivity |].
  cbn [win Renderers set_Renderers set_HMDTransform set_TrackedDevicePose
       InitialViewUp InitialViewDirection].
  rewrite Hvup, Hdop.
  induction (Renderers (win σ)) as [| ren rens IH]; cbn [map]; constructor.
  - apply camera_from_pose_default_axes.
  - exact IH.
Qed.

End FurtherArithmetic.

End FurtherPose.

Lemma UpdateHMDMatrixPose_frame_witness :
  ∃ σ',
    UpdateHMDMatrixPose 3 (fun _ => Some compositor_head_turned) world_in_session
    = Some σ'
    ∧ heap σ' = ∅
    ∧ length (TrackedDevicePose (win σ')) = 3%nat
    ∧ trace σ' = [WaitGetPoses_call; UpdateLightsGeometryToFollowCamera_call 0].
Proof.
  eexists. split; [reflexivity |].
  destruct (UpdateHMDMatrixPose_frame 3 (fun _ => Some compositor_head_turned)
              world_in_session _ eq_refl) as (Hh & _ & _ & _ & _ & _ & _ & _ & Hp).
  split; [exact Hh |]. apply Hp. discriminate.
Defined.

Lemma UpdateHMDMatrixPose_places_cameras_witness :
  let M := mDeviceToAbsoluteTracking pose_turned in
  ∃ σ',
    UpdateHMDMatrixPose 3 (fun _ => Some compositor_head_turned) world_in_session
    = Some σ'
    ∧ Forall2 (fun ren ren' =>
                 let cam := ActiveCamera ren in
                 let cam' := ActiveCamera ren' in
                 Position cam' = head_position M cam
                 ∧ ViewUp cam' = [0; 1; 0]%Z
                 ∧ FocalPoint cam'
                   = map (fun k =>
                            (elt (head_position M cam) k
                             + elt [-1; 0; 0] k * Distance cam)%Z) (seq 0 3))
        (Renderers (win world_in_session)) (Renderers (win σ')).
Proof.
  assert (H3 : (0 < 3)%nat) by lia.
  exact (UpdateHMDMatrixPose_places_cameras (SD:=Z_Scalar) 3
           (fun _ => Some compositor_head_turned) Zth world_in_session
           hmd_example compositor_head_turned
           eq_refl eq_refl H3 eq_refl eq_refl eq_refl).
Defined.

(** ** Framebuffers and initialisation *)

Section FurtherInitialize.

Context {D : Type}.
Variable VRCompositor : list (Event D) -> option (IVRCompositor D).
Variable platform : Platform D.

(** CreateFrameBuffer only appends OpenGL calls. *)
Lemma CreateFrameBuffer_emits (ms w h : Z) (desc0 : FramebufferDesc)
    (hist : list (Event D)) :
  ∃ evs, (CreateFrameBuffer platform ms w h desc0 hist).2 = hist ++ evs
         ∧ forallb gl_only evs = true
         ∧ multisample_requests evs
           = (if (ms =? 0)%Z then [] else [(4, w, h); (4, w, h)]%Z)
         ∧ single_sample_requests evs
           = (if (ms =? 0)%Z then [(w, h); (w, h); (w, h)] else [(w, h)]).
Proof.
  unfold CreateFrameBuffer. cbv zeta.
  destruct (ms =? 0)%Z;
    destruct (negb (_ =? GL_FRAMEBUFFER_COMPLETE)%Z);
    cbn [negb snd]; rewrite <- ?app_assoc;
    eexists; (split; [reflexivity |]); repeat split.
Qed.

Lemma gl_only_errors (evs : list (Event D)) :
  forallb gl_only evs = true -> errors evs = [].
Proof.
  induction evs as [| e evs IH]; [done |].
  destruct e; try discriminate. exact IH.
Qed.

Lemma gl_only_elem (evs : list (Event D)) (e : Event D) :
  forallb gl_only evs = true -> e ∈ evs -> gl_only e = true.
Proof.
  intros Hall Hin. induction Hin as [e evs | e e' evs Hin IH]; cbn in Hall;
    apply andb_true_iff in Hall as [He Hevs]; auto.
Qed.

(** X16.  Whatever non-zero number of samples the window asks for, the
    depth buffer and the colour target of an eye are allocated with 4
    samples, and the resolve texture with one; when the window asks for no
    multisampling, all three are single-sampled.  All of them have the size
    asked for, and CreateFrameBuffer makes no other kind of call than OpenGL
    calls. *)
Theorem CreateFrameBuffer_sample_count (ms w h : Z) (desc0 : FramebufferDesc)
    (hist : list (Event D)) :
  ∃ evs, (CreateFrameBuffer platform ms w h desc0 hist).2 = hist ++ evs
         ∧ forallb gl_only evs = true
         ∧ multisample_requests evs
           = (if (ms =? 0)%Z then [] else [(4, w, h); (4, w, h)]%Z)
         ∧ single_sample_requests evs
           = (if (ms =? 0)%Z then [(w, h); (w, h); (w, h)] else [(w, h)]).
Proof. apply CreateFrameBuffer_emits. Qed.

(** X17.  CreateFrameBuffer answers true exactly when the driver reports
    the framebuffer bound at the check complete.  Then no framebuffer is left
    bound; otherwise the new resolve framebuffer stays bound. *)
Theorem CreateFrameBuffer_bound_framebuffer (ms w h : Z) (desc0 : FramebufferDesc)
    (hist : list (Event D)) :
  let r := CreateFrameBuffer platform ms w h desc0 hist in
  (∃ checked,
     r.2 = checked ++ GL glCheckFramebufferStatus
                   :: (if r.1.1 then [GL (glBindFramebuffer 0)] else [])
     ∧ (r.1.1 = true
        <-> glCheckFramebufferStatus_GL_FRAMEBUFFER platform checked
            = GL_FRAMEBUFFER_COMPLETE))
  ∧ gl_binding (gl_replay r.2) GL_FRAMEBUFFER
    = (if r.1.1 then 0%Z else m_nResolveFramebufferId r.1.2).
Proof.
  intros r. split.
  - destruct (CreateFrameBuffer_reports_status platform ms w h desc0 hist)
      as (checked & Hok & Hhist).
    exists checked. split; [exact Hhist |].
    fold r in Hok. rewrite Hok. apply bool_decide_eq_true.
  - subst r. unfold CreateFrameBuffer. cbv zeta.
    destruct (negb (ms =? 0)%Z);
      destruct (negb (_ =? GL_FRAMEBUFFER_COMPLETE)%Z);
      cbn [fst snd m_nResolveFramebufferId];
      rewrite <- ?app_assoc; rewrite gl_replay_app;
      generalize (gl_replay hist); intros g; reflexivity.
Qed.

Local Ltac solve_no_shutdown :=
  let Hin := fresh "Hin" in
  intros Hin;
  repeat (apply elem_of_app in Hin as [Hin | Hin]
          || apply elem_of_cons in Hin as [Hin | Hin]);
  try discriminate; try (by apply elem_of_nil in Hin);
  match goal with
  | G : forallb gl_only ?evs = true, H : _ ∈ ?evs |- _ =>
      by pose proof (gl_only_elem _ _ G H)
  end.

Lemma Initialize_summary (σ σ' : World D) (e : InitializeExit) :
  Initialize VRCompositor platform σ = (e, σ') ->
  ∃ evs,
    trace σ' = trace σ ++ evs
    ∧ Initialize_keeps σ σ'
    ∧ (e = Initialize_completed ->
       is_Some (HMD (win σ')) ∧ OpenVRRenderModels (win σ') = true
       ∧ is_Some (WindowId (win σ')) ∧ is_Some (ContextId (win σ'))
       ∧ errors evs = [] ∧ last evs = Some DashboardOverlay_Create_call)
    ∧ (∀ msg, e = Initialize_returned -> last evs = Some (vtkError msg) ->
              msg ≠ SDL_could_not_initialize ->
              is_Some (HMD (win σ')) ∧ OpenVRRenderModels (win σ') = true
              ∧ VR_Shutdown_call ∉ evs).
Proof.
  unfold Initialize. cbv zeta.
  destruct (SDL_Init platform (trace σ) <? 0)%Z.
  { intros [= <- <-]. eexists. rewrite <- app_assoc.
    split; [reflexivity |]. split; [by repeat split |].
    split; [discriminate |]. intros msg _ [= <-]. done. }
  destruct (VR_Init platform _) as [eError pHMD].
  destruct (negb (eError =? VRInitError_None)%Z).
  { intros [= <- <-]. eexists. rewrite <- !app_assoc.
    split; [reflexivity |]. split; [by repeat split |].
    split; discriminate. }
  destruct (negb (VR_GetGenericInterface platform _)) eqn:Hrm.
  { intros [= <- <-]. eexists. rewrite <- !app_assoc.
    split; [reflexivity |]. split; [by repeat split |].
    split; discriminate. }
  apply negb_false_iff in Hrm.
  cbn [HMD set_HMD set_OpenVRRenderModels].
  destruct pHMD as [hmd0 |].
  2: { intros [= <- <-]. eexists. rewrite <- !app_assoc.
       split; [reflexivity |]. split; [by repeat split |].
       split; discriminate. }
  destruct (GetRecommendedRenderTargetSize hmd0) as [W0 H0].
  destruct (SDL_CreateWindow platform _) as [window |].
  2: { rewrite bool_decide_eq_true_2 by done.
       intros [= <- <-]. eexists. rewrite <- !app_assoc.
       split; [reflexivity |]. split; [by repeat split |].
       split; [discriminate |]. intros msg _ _ _. cbn.
       split; [by eexists | split; [by rewrite <- ?app_assoc in Hrm | solve_no_shutdown]]. }
  rewrite bool_decide_eq_false_2 by done.
  destruct (SDL_GL_CreateContext platform _) as [context |].
  2: { rewrite bool_decide_eq_true_2 by done.
       intros [= <- <-]. eexists. rewrite <- !app_assoc.
       split; [reflexivity |]. split; [by repeat split |].
       split; [discriminate |]. intros msg _ _ _. cbn.
       split; [by eexists | split; [by rewrite <- ?app_assoc in Hrm | solve_no_shutdown]]. }
  rewrite bool_decide_eq_false_2 by done.
  destruct (SDL_GL_SetSwapInterval platform _ <? 0)%Z.
  { intros [= <- <-]. eexists. rewrite <- !app_assoc.
    split; [reflexivity |]. split; [by repeat split |].
    split; [discriminate |]. intros msg _ _ _. cbn.
    split; [by eexists | split; [by rewrite <- ?app_assoc in Hrm | solve_no_shutdown]]. }
  match goal with
  | |- context [CreateFrameBuffer platform ?ms ?w ?h ?d ?hi] =>
      destruct (CreateFrameBuffer_emits ms w h d hi) as (evs1 & E1 & G1 & _);
      destruct (CreateFrameBuffer platform ms w h d hi) as [[ok1 d1] h1]
  end.
  cbn [snd] in E1. subst h1.
  match goal with
  | |- context [CreateFrameBuffer platform ?ms ?w ?h ?d ?hi] =>
      destruct (CreateFrameBuffer_emits ms w h d hi) as (evs2 & E2 & G2 & _);
      destruct (CreateFrameBuffer platform ms w h d hi) as [[ok2 d2] h2]
  end.
  cbn [snd] in E2. subst h2.
  destruct (bool_decide (VRCompositor _ = None)).
  - intros [= <- <-]. eexists. rewrite <- !app_assoc.
    split; [reflexivity |]. split; [by repeat split |].
    split; [discriminate |]. intros msg _ _ _. cbn.
    split; [by eexists | split; [by rewrite <- ?app_assoc in Hrm | solve_no_shutdown]].
  - intros [= <- <-]. eexists. rewrite <- !app_assoc.
    split; [reflexivity |]. split; [by repeat split |].
    split; [| discriminate]. intros _. cbn.
    split; [by eexists |]. split; [by rewrite <- ?app_assoc in Hrm |].
    split; [by eexists |]. split; [by eexists |]. split.
    + unfold errors. rewrite !omap_app. cbn.
      fold (errors evs1) (errors evs2).
      by rewrite !gl_only_errors.
    + rewrite app_comm_cons, !app_assoc. apply last_snoc.
Qed.

(** X18.  When Initialize runs to its end, the window has a session, the
    render-model interface, an SDL window and an OpenGL context, no error was
    reported, and the last thing done was to create the dashboard overlay. *)
Theorem Initialize_completed_postcondition (σ σ' : World D) :
  Initialize VRCompositor platform σ = (Initialize_completed, σ') ->
  is_Some (HMD (win σ')) ∧ OpenVRRenderModels (win σ') = true
  ∧ is_Some (WindowId (win σ')) ∧ is_Some (ContextId (win σ'))
  ∧ ∃ evs, trace σ' = trace σ ++ evs ∧ errors evs = []
           ∧ last evs = Some DashboardOverlay_Create_call.
Proof.
  intros Hrun.
  destruct (Initialize_summary _ _ _ Hrun) as (evs & Htrace & _ & Hdone & _).
  destruct (Hdone eq_refl) as (H1 & H2 & H3 & H4 & H5 & H6).
  repeat split; try done. by exists evs.
Qed.

(** X19.  However Initialize is left, it has not touched the models, the
    cache, the device slots, the stored poses, the renderers, the initial
    axes, the HMD transform, the sample count or the window position, and it
    has only appended to the events. *)
Theorem Initialize_frame (σ : World D) :
  let run := Initialize VRCompositor platform σ in
  Initialize_keeps σ run.2 ∧ ∃ evs, trace run.2 = trace σ ++ evs.
Proof.
  intros run.
  destruct (Initialize_summary σ run.2 run.1) as (evs & Htrace & Hkeeps & _).
  { subst run. by destruct (Initialize VRCompositor platform σ). }
  split; [exact Hkeeps | by exists evs].
Qed.

(** X20.  When Initialize gives up after the runtime and the render-model
    interface were obtained (no window, no OpenGL context, VSync cannot be
    switched off, or no compositor), it returns with the session still open:
    HMD stays set and the runtime is not shut down. *)
Theorem Initialize_late_failure_keeps_session (σ σ' : World D)
    (msg : ErrorMessage) (evs : list (Event D)) :
  Initialize VRCompositor platform σ = (Initialize_returned, σ') ->
  trace σ' = trace σ ++ evs ->
  last evs = Some (vtkError msg) ->
  msg ≠ SDL_could_not_initialize ->
  is_Some (HMD (win σ')) ∧ OpenVRRenderModels (win σ') = true
  ∧ VR_Shutdown_call ∉ evs.
Proof.
  intros Hrun Htrace Hlast Hmsg.
  destruct (Initialize_summary _ _ _ Hrun) as (evs' & Htrace' & _ & _ & Hlate).
  rewrite Htrace' in Htrace. apply app_inv_head in Htrace. subst evs'.
  by apply (Hlate msg).
Qed.

End FurtherInitialize.

Lemma Initialize_completed_postcondition_witness :
  let σ' := (Initialize (fun _ => Some compositor_example) platform_ok
               world_constructed).2 in
  HMD (win σ') = Some hmd_example ∧ WindowId (win σ') = Some 1%Z
  ∧ ContextId (win σ') = Some 2%Z
  ∧ ∃ evs, trace σ' = trace world_constructed ++ evs ∧ errors evs = []
           ∧ last evs = Some DashboardOverlay_Create_call.
Proof.
  intros σ'.
  destruct (Initialize_completed_postcondition (fun _ => Some compositor_example)
              platform_ok world_constructed σ') as (_ & _ & _ & _ & Hevs).
  { vm_compute. reflexivity. }
  repeat split. exact Hevs.
Defined.

Lemma Initialize_late_failure_keeps_session_witness :
  let σ' := (Initialize (fun _ => Some compositor_example) platform_no_window
               world_constructed).2 in
  is_Some (HMD (win σ')) ∧ OpenVRRenderModels (win σ') = true
  ∧ VR_Shutdown_call ∉ trace σ'.
Proof.
  intros σ'.
  apply (Initialize_late_failure_keeps_session (fun _ => Some compositor_example)
           platform_no_window world_constructed σ' Window_could_not_be_created).
  - vm_compute. reflexivity.
  - reflexivity.
  - vm_compute. reflexivity.
  - discriminate.
Defined.

(** ** Teardown and restart *)

Section FurtherLifecycle.

Context {D : Type}.
Variable VRCompositor : list (Event D) -> option (IVRCompositor D).
Variable platform : Platform D.

Lemma heap_after_deletes (h : gmap nat (vtkOpenVRModel D)) (l : list nat) (p : nat) :
  foldl (fun h i => delete i h) h l !! p
  = if decide (p ∈ l) then None else h !! p.
Proof.
  revert h. induction l as [| i l IH]; intros h; cbn [foldl].
  - case_decide as Hin; [by apply elem_of_nil in Hin | done].
  - rewrite IH. destruct (decide (p = i)) as [-> | Hne].
    + rewrite lookup_delete_eq. rewrite (decide_True (P := i ∈ i :: l)) by left.
      by case_decide.
    + rewrite lookup_delete_ne by done.
      destruct (decide (p ∈ l)) as [Hin | Hout].
      * by rewrite decide_True by (by right).
      * rewrite decide_False; [done |].
        intros [Heq | Hin]%elem_of_cons; done.
Qed.

(** What Finalize leaves. *)
Lemma Finalize_state (OwnContext : bool) (σ : World D) :
  let σ' := (Finalize OwnContext σ).1 in
  HMD (win σ') = None
  ∧ ContextId (win σ') = None
  ∧ WindowId (win σ') = None
  ∧ VTKRenderModels (win σ') = []
  ∧ (∀ p, heap σ' !! p
          = if decide (p ∈ VTKRenderModels (win σ)) then None else heap σ !! p)
  ∧ TrackedDeviceToRenderModel (win σ') = TrackedDeviceToRenderModel (win σ)
  ∧ TrackedDevicePose (win σ') = TrackedDevicePose (win σ)
  ∧ Renderers (win σ') = Renderers (win σ)
  ∧ trace σ' = trace σ ++ match HMD (win σ) with
                          | Some _ => [VR_Shutdown_call]
                          | None => []
                          end.
Proof.
  unfold Finalize, Clean. cbv zeta.
  destruct (HMD (win σ)) as [hmd |] eqn:Hhmd;
    destruct (WindowId (win σ)) as [window |] eqn:Hwin;
    cbn; rewrite ?Hhmd; cbn; rewrite ?Hwin; cbn; rewrite ?app_nil_r;
    repeat split; try done; intros p; apply heap_after_deletes.
Qed.

(** X21.  Finalize ends the session, forgets the context and the window,
    empties the cache and destroys exactly the registered models: other
    objects stay as they are.  The device slots, the stored poses and the
    renderers are not touched, and the runtime is shut down exactly when
    there was a session. *)
Theorem Finalize_postcondition (OwnContext : bool) (σ : World D) :
  let σ' := (Finalize OwnContext σ).1 in
  HMD (win σ') = None
  ∧ ContextId (win σ') = None
  ∧ WindowId (win σ') = None
  ∧ VTKRenderModels (win σ') = []
  ∧ (∀ p, heap σ' !! p
          = if decide (p ∈ VTKRenderModels (win σ)) then None else heap σ !! p)
  ∧ TrackedDeviceToRenderModel (win σ') = TrackedDeviceToRenderModel (win σ)
  ∧ TrackedDevicePose (win σ') = TrackedDevicePose (win σ)
  ∧ Renderers (win σ') = Renderers (win σ)
  ∧ trace σ' = trace σ ++ match HMD (win σ) with
                          | Some _ => [VR_Shutdown_call]
                          | None => []
                          end.
Proof. apply Finalize_state. Qed.

(** X22.  Finalize does not clear the device slots: when every assigned
    slot held a registered model, every assigned slot afterwards still holds
    its pointer, and the model it points to has been destroyed. *)
Theorem Finalize_leaves_slots_dangling (OwnContext : bool) (σ : World D)
    (u p : nat) :
  slots_in_cache σ ->
  TrackedDeviceToRenderModel (win σ) !! u = Some (Some p) ->
  let σ' := (Finalize OwnContext σ).1 in
  TrackedDeviceToRenderModel (win σ') !! u = Some (Some p)
  ∧ heap σ' !! p = None
  ∧ p ∉ VTKRenderModels (win σ').
Proof.
  intros Hslots Hu σ'.
  destruct (Finalize_state OwnContext σ) as (_ & _ & _ & Hc & Hh & Hs & _).
  fold σ' in Hc, Hh, Hs. rewrite Hs, Hh, Hc.
  split; [exact Hu |]. split.
  - rewrite decide_True; [done |]. by apply (Hslots u).
  - apply not_elem_of_nil.
Qed.

(** X23.  A second Finalize finds nothing left to do: it changes nothing
    and only calls SDL_Quit again. *)
Theorem Finalize_twice (own1 own2 : bool) (σ : World D) :
  Finalize own2 (Finalize own1 σ).1 = ((Finalize own1 σ).1, [inr SDL_Quit_call]).
Proof.
  destruct (Finalize_state own1 σ) as (Hhmd & Hctx & Hwin & Hc & _).
  destruct (Finalize own1 σ).1 as [w h t]. cbn in *.
  unfold Finalize, Clean. cbn.
  rewrite Hctx, andb_false_r. cbn. rewrite Hhmd. cbn. rewrite Hwin, Hc. cbn.
  f_equal. f_equal.
  destruct w; cbn in *; by subst.
Qed.

(** X24.  When Start finds no context and Initialize runs to its end, Start
    makes the new window current, and a second Start does not initialise
    again: it changes nothing and makes the same window current. *)
Theorem Start_initialises_once (σ σ' : World D) :
  ContextId (win σ) = None ->
  Initialize VRCompositor platform σ = (Initialize_completed, σ') ->
  Start VRCompositor platform σ = Some (σ', MakeCurrent (win σ'))
  ∧ Start VRCompositor platform σ' = Some (σ', MakeCurrent (win σ'))
  ∧ ∃ window context,
      MakeCurrent (win σ') = SDL_GL_MakeCurrent_call (Some window) (Some context).
Proof.
  intros Hctx Hrun.
  destruct (Initialize_summary _ _ _ _ _ Hrun)
    as (evs & _ & _ & Hdone & _).
  destruct (Hdone eq_refl) as (_ & _ & [window Hw] & [context Hc] & _).
  unfold Start. rewrite Hctx, Hrun, Hc. cbn. repeat split.
  exists window, context. unfold MakeCurrent. by rewrite Hw, Hc.
Qed.

(** X25.  Finalize followed by Start initialises afresh but does not give
    the device slots new models: every slot that held a registered model
    before Finalize still holds the pointer to the destroyed model after the
    restart. *)
Theorem Start_after_Finalize_slots_dangling (OwnContext : bool) (σ σ' : World D)
    (call : LifecycleCall) (u p : nat) :
  slots_in_cache σ ->
  TrackedDeviceToRenderModel (win σ) !! u = Some (Some p) ->
  Start VRCompositor platform (Finalize OwnContext σ).1 = Some (σ', call) ->
  TrackedDeviceToRenderModel (win σ') !! u = Some (Some p)
  ∧ heap σ' !! p = None
  ∧ VTKRenderModels (win σ') = [].
Proof.
  intros Hslots Hu.
  destruct (Finalize_state OwnContext σ) as (_ & Hctx & _ & Hc & Hh & Hs & _).
  set (σ0 := (Finalize OwnContext σ).1) in *. clearbody σ0.
  unfold Start. rewrite Hctx, bool_decide_eq_true_2 by done.
  destruct (Initialize VRCompositor platform σ0) as [e σ1] eqn:Hrun.
  destruct (Initialize_summary _ _ _ _ _ Hrun)
    as (evs & _ & (Kh & Kc & Ks & _) & _).
  assert (Hgoal : TrackedDeviceToRenderModel (win σ1) !! u = Some (Some p)
                  ∧ heap σ1 !! p = None ∧ VTKRenderModels (win σ1) = []).
  { rewrite Ks, Kh, Kc, Hs, Hh, Hc. split; [exact Hu |]. split; [| done].
    rewrite decide_True; [done |]. by apply (Hslots u). }
  destruct e; try discriminate; intros Hstart; by simplify_eq.
Qed.

End FurtherLifecycle.

Lemma world_with_models_slots : slots_in_cache world_with_models.
Proof.
  assert (Hs : TrackedDeviceToRenderModel (win world_with_models)
               = [None; Some 0%nat; Some 0%nat]) by (vm_compute; reflexivity).
  assert (Hc : VTKRenderModels (win world_with_models) = [0%nat])
    by (vm_compute; reflexivity).
  intros u p Hu. rewrite Hs in Hu. rewrite Hc.
  destruct u as [| [| [| u]]]; cbn in Hu; try discriminate;
    injection Hu as <-; left.
Qed.

Lemma Finalize_leaves_slots_dangling_witness :
  let σ' := (Finalize true world_with_models).1 in
  TrackedDeviceToRenderModel (win σ') !! 1%nat = Some (Some 0%nat)
  ∧ heap σ' !! 0%nat = None
  ∧ 0%nat ∉ VTKRenderModels (win σ').
Proof.
  apply (Finalize_leaves_slots_dangling true world_with_models 1 0
           world_with_models_slots).
  vm_compute. reflexivity.
Defined.

Lemma Start_initialises_once_witness :
  let σ' := (Initialize (fun _ => Some compositor_example) platform_ok
               world_constructed).2 in
  Start (fun _ => Some compositor_example) platform_ok world_constructed
  = Some (σ', MakeCurrent (win σ'))
  ∧ Start (fun _ => Some compositor_example) platform_ok σ'
    = Some (σ', MakeCurrent (win σ'))
  ∧ ∃ window context,
      MakeCurrent (win σ') = SDL_GL_MakeCurrent_call (Some window) (Some context).
Proof.
  intros σ'.
  apply (Start_initialises_once (fun _ => Some compositor_example) platform_ok
           world_constructed σ').
  - reflexivity.
  - vm_compute. reflexivity.
Defined.

Lemma Start_after_Finalize_slots_dangling_witness :
  ∃ σ' call,
    Start (fun _ => Some compositor_example) platform_ok
      (Finalize true world_with_models).1 = Some (σ', call)
    ∧ TrackedDeviceToRenderModel (win σ') !! 2%nat = Some (Some 0%nat)
    ∧ heap σ' !! 0%nat = None
    ∧ VTKRenderModels (win σ') = [].
Proof.
  destruct (Start (fun _ => Some compositor_example) platform_ok
              (Finalize true world_with_models).1) as [[σ' call] |] eqn:Hrun.
  - exists σ', call. split; [reflexivity |].
    apply (Start_after_Finalize_slots_dangling (fun _ => Some compositor_example)
             platform_ok true world_with_models σ' call 2 0
             world_with_models_slots); [vm_compute; reflexivity | exact Hrun].
  - vm_compute in Hrun. discriminate.
Defined.

(** ** The initial view *)

Section FurtherView.

Context {D : Type} {SD : Scalar D} {OD : ScalarOrder D}.
Variable sin_half_degrees : D -> D.
Variable div : D -> D -> D.
Variable GetViewAngle : vtkOpenVRCamera D -> D.

Local Abbreviation initializeView :=
  (InitializeViewFromCamera sin_half_degrees div GetViewAngle).

Lemma max_index_range (v : list D) : (max_index v < 3)%nat.
Proof. unfold max_index. repeat case_match; lia. Qed.

Lemma snap_to_axis_at (v : list D) :
  snap_to_axis v
  = <[max_index v := if greater (elt v (max_index v)) zero then one else opp one]>
      [zero; zero; zero].
Proof. unfold snap_to_axis. unfold max_index. by repeat case_match. Qed.

Lemma snap_to_axis_signed (v : list D) : signed_axis (snap_to_axis v).
Proof.
  rewrite snap_to_axis_at. pose proof (max_index_range v) as Hi.
  unfold signed_axis.
  destruct (max_index v) as [| [| [| i]]]; [| | | lia];
    destruct (greater _ zero); cbn; auto 10.
Qed.

(** X26.  With a renderer, InitializeViewFromCamera sets the initial view-up
    and the initial view direction to signed coordinate axes, whatever the
    source camera holds.  The first renderer's camera gets that view-up and
    the source camera's focal point; the other renderers are left alone. *)
Theorem InitializeViewFromCamera_axes (srccam : vtkCamera D)
    (this : vtkOpenVRRenderWindow D) (ren : vtkRenderer D) :
  Renderers this !! 0%nat = Some ren ->
  let this' := (initializeView srccam this).1 in
  signed_axis (InitialViewUp this')
  ∧ signed_axis (InitialViewDirection this')
  ∧ (∃ ren', Renderers this' !! 0%nat = Some ren'
             ∧ ViewUp (ActiveCamera ren') = InitialViewUp this'
             ∧ FocalPoint (ActiveCamera ren') = src_FocalPoint srccam)
  ∧ (∀ i, i ≠ 0%nat -> Renderers this' !! i = Renderers this !! i)
  ∧ (initializeView srccam this).2 = [ResetCameraClippingRange_call].
Proof.
  intros Hren. unfold InitializeViewFromCamera. rewrite Hren. cbn.
  split; [apply snap_to_axis_signed |].
  split; [apply snap_to_axis_signed |].
  split.
  - eexists.
    split; [apply list_lookup_insert_eq; by eapply lookup_lt_Some |].
    split; reflexivity.
  - split; [| done]. intros i Hi. by apply list_lookup_insert_ne.
Qed.

Section Order.

Hypothesis greater_asym : ∀ a b : D, greater a b = true -> greater b a = false.
Hypothesis greater_trans :
  ∀ a b c : D, greater a b = true -> greater b c = true -> greater a c = true.
Hypothesis greater_negtrans :
  ∀ a b c : D, greater a b = false -> greater b c = false -> greater a c = false.

(** X27.  When comparison of doubles is a strict weak order (no NaN among
    the magnitudes), the axis chosen for a vector is that of a component of
    largest magnitude, and among components of equal largest magnitude the
    last one; its sign is +1 when that component is greater than zero and -1
    otherwise, so the zero vector gives (0,0,-1). *)
Theorem snap_to_axis_largest (v : list D) :
  let i := max_index v in
  (i < 3)%nat
  ∧ (∀ j, (j < 3)%nat -> greater (fabs (elt v j)) (fabs (elt v i)) = false)
  ∧ (∀ j, (i < j < 3)%nat -> greater (fabs (elt v i)) (fabs (elt v j)) = true)
  ∧ snap_to_axis v
    = <[i := if greater (elt v i) zero then one else opp one]> [zero; zero; zero].
Proof.
  intros i. split; [apply max_index_range |].
  split; [| split; [| apply snap_to_axis_at]].
  - assert (Hirr : ∀ a : D, greater a a = false).
    { intros a. destruct (greater a a) eqn:Ha; [| done].
      pose proof (greater_asym _ _ Ha) as Ha'. congruence. }
    subst i. unfold max_index.
    destruct (greater (fabs (elt v 0)) (fabs (elt v 1))) eqn:H01;
      [destruct (greater (fabs (elt v 0)) (fabs (elt v 2))) eqn:H02
      | destruct (greater (fabs (elt v 1)) (fabs (elt v 2))) eqn:H12];
      intros [| [| [| j]]] Hj; try lia; auto.
    + destruct (greater (fabs (elt v 1)) (fabs (elt v 2))) eqn:H12; [| done].
      by rewrite (greater_trans _ _ _ H01 H12) in H02.
    + by apply (greater_negtrans _ (fabs (elt v 1))).
  - subst i. unfold max_index.
    destruct (greater (fabs (elt v 0)) (fabs (elt v 1))) eqn:H01;
      [destruct (greater (fabs (elt v 0)) (fabs (elt v 2))) eqn:H02
      | destruct (greater (fabs (elt v 1)) (fabs (elt v 2))) eqn:H12];
      intros [| [| [| j]]] Hj; try lia; auto.
Qed.

End Order.

End FurtherView.

Lemma InitializeViewFromCamera_axes_witness :
  let this' := (InitializeViewFromCamera (fun a => a) Z.div (fun _ => 30%Z)
                  source_camera_example window_constructed).1 in
  InitialViewUp this' = [0; 1; 0]%Z
  ∧ InitialViewDirection this' = [0; 0; -1]%Z
  ∧ signed_axis (InitialViewUp this').
Proof.
  intros this'.
  destruct (InitializeViewFromCamera_axes (fun a => a) Z.div (fun _ => 30%Z)
              source_camera_example window_constructed renderer_example eq_refl)
    as (Hup & _).
  repeat split. exact Hup.
Defined.

Lemma Z_greater_asym (a b : Z) : (a >? b)%Z = true -> (b >? a)%Z = false.
Proof. lia. Qed.

Lemma Z_greater_trans (a b c : Z) :
  (a >? b)%Z = true -> (b >? c)%Z = true -> (a >? c)%Z = true.
Proof. lia. Qed.

Lemma Z_greater_negtrans (a b c : Z) :
  (a >? b)%Z = false -> (b >? c)%Z = false -> (a >? c)%Z = false.
Proof. lia. Qed.

Lemma snap_to_axis_largest_witness :
  max_index [1; 2; -7]%Z = 2%nat
  ∧ snap_to_axis [1; 2; -7]%Z = [0; 0; -1]%Z
  ∧ snap_to_axis [0; 0; 0]%Z = [0; 0; -1]%Z
  ∧ ∀ j, (j < 3)%nat -> (Z.abs (elt [1; 2; -7]%Z j) >? 7)%Z = false.
Proof.
  destruct (snap_to_axis_largest (SD:=Z_Scalar) (OD:=Z_ScalarOrder)
              Z_greater_asym Z_greater_trans Z_greater_negtrans
              [1; 2; -7]%Z) as (_ & Hmax & _ & _).
  repeat split. exact Hmax.
Defined.
